(** * Scalping bot: risk manager, position life cycle and analysis cycle

    A shallow embedding of the decision and risk-management engine of
    [src/app.js] (classes [DataEngine], [RiskManager], [TradingEngine]) and
    the properties of its specification.

    Numbers.  A JavaScript number is modelled as an exact rational or [NaN]
    (type [num]).  Rounding of binary64, the infinities and the sign of zero
    are not modelled: arithmetic on finite values is exact, every operation
    with a [NaN] operand yields [NaN], every comparison with a [NaN] operand
    is false, and a division by zero (which JavaScript evaluates to an
    infinity or to NaN) is collapsed to [NaN].  [undefined] used as a number
    is [NaN], as [ToNumber(undefined)] is.

    Effects.  [Date.now()], [new Date().getHours()] and [Math.random()] are
    read from a [World] of oracles that is threaded through the engine
    together with the engine object; a [TypeError] (reading a property of
    [undefined]) aborts the running method and leaves the mutations made so
    far in place, as in JavaScript. *)

From Stdlib Require Import QArith Qabs Qround Lqa Lia ZArith Bool.
From Stdlib Require Import DecimalString.
From stdpp Require Import base list strings gmap.

Local Open Scope Q_scope.

(** ** JavaScript numbers *)

Module JSNum.

Inductive num : Type :=
| Fin (q : Q)
| NaN.

Definition Qltb (x y : Q) : bool := negb (Qle_bool y x).

Definition add (a b : num) : num :=
match a, b with Fin x, Fin y => Fin (x + y) | _, _ => NaN end.

Definition sub (a b : num) : num :=
match a, b with Fin x, Fin y => Fin (x - y) | _, _ => NaN end.

Definition mul (a b : num) : num :=
match a, b with Fin x, Fin y => Fin (x * y) | _, _ => NaN end.

Definition div (a b : num) : num :=
match a, b with
| Fin x, Fin y => if Qeq_bool y 0 then NaN else Fin (x / y)
| _, _ => NaN
end.

(** [a < b], [a <= b], [a > b], [a >= b], [a === b] *)
Definition lt (a b : num) : bool :=
match a, b with Fin x, Fin y => Qltb x y | _, _ => false end.

Definition le (a b : num) : bool :=
match a, b with Fin x, Fin y => Qle_bool x y | _, _ => false end.

Definition gt (a b : num) : bool := lt b a.
Definition ge (a b : num) : bool := le b a.

Definition strictEq (a b : num) : bool :=
match a, b with Fin x, Fin y => Qeq_bool x y | _, _ => false end.

(** [Math.max(a, b)] and [Math.min(a, b)] *)
Definition max (a b : num) : num :=
match a, b with
| Fin x, Fin y => if Qle_bool x y then Fin y else Fin x
| _, _ => NaN
end.

Definition min (a b : num) : num :=
match a, b with
| Fin x, Fin y => if Qle_bool x y then Fin x else Fin y
| _, _ => NaN
end.

(** [ToNumber] of a value that may be [undefined] *)
Definition toNumber (v : option num) : num :=
match v with Some n => n | None => NaN end.

Definition ofZ (z : Z) : num := Fin (inject_Z z).
Definition ofNat (n : nat) : num := Fin (inject_Z (Z.of_nat n)).

Definition isFin (a : num) : Prop :=
match a with Fin _ => True | NaN => False end.

(** The same numeric value (rationals up to [==]). *)
Definition same (a b : num) : Prop :=
match a, b with
| Fin x, Fin y => x == y
| NaN, NaN => True
| _, _ => False
end.

End JSNum.

Import JSNum.

(** ** RiskManager *)

(** The constructor stores six limits that no method ever assigns again;
    they are kept as constants. *)
Definition dailyLossLimit : num := Fin (-3.0).
Definition weeklyDrawdownLimit : num := Fin (-8.0).
Definition monthlyKillSwitch : num := Fin (-15.0).
Definition maxDrawdownAlert : num := Fin (-12.0).
Definition positionRiskPercentage : num := Fin 0.5.
Definition stopLossPercentage : num := Fin 1.0.

Record RiskManager : Type := mkRiskManager {
  initialBalance : num;
  currentBalance : num;
  dailyStartBalance : num;
  weeklyStartBalance : num;
  monthlyStartBalance : num;
  consecutiveLosses : nat;
  tradingEnabled : bool
}.

(** [new RiskManager(initialBalance)] *)
Definition newRiskManager (balance : num) : RiskManager :=
  {| initialBalance := balance;
     currentBalance := balance;
     dailyStartBalance := balance;
     weeklyStartBalance := balance;
     monthlyStartBalance := balance;
     consecutiveLosses := 0;
     tradingEnabled := true |}.

Definition drawdown (current baseline : num) : num :=
  mul (div (sub current baseline) baseline) (Fin 100).

Definition getDailyDrawdown (rm : RiskManager) : num :=
  drawdown (currentBalance rm) (dailyStartBalance rm).

Definition getWeeklyDrawdown (rm : RiskManager) : num :=
  drawdown (currentBalance rm) (weeklyStartBalance rm).

Definition getMonthlyDrawdown (rm : RiskManager) : num :=
  drawdown (currentBalance rm) (monthlyStartBalance rm).

Definition disableTrading (rm : RiskManager) : RiskManager :=
  {| initialBalance := initialBalance rm;
     currentBalance := currentBalance rm;
     dailyStartBalance := dailyStartBalance rm;
     weeklyStartBalance := weeklyStartBalance rm;
     monthlyStartBalance := monthlyStartBalance rm;
     consecutiveLosses := consecutiveLosses rm;
     tradingEnabled := false |}.

(** [canTrade()]: the answer and the manager after the call. *)
Definition canTrade (rm : RiskManager) : bool * RiskManager :=
  if negb (tradingEnabled rm) then (false, rm)
  else if le (getDailyDrawdown rm) dailyLossLimit then (false, disableTrading rm)
  else if le (getMonthlyDrawdown rm) monthlyKillSwitch then (false, disableTrading rm)
  else if (3 <=? consecutiveLosses rm)%nat then (false, rm)
  else (true, rm).

Definition calculatePositionSize (rm : RiskManager) : num :=
  let riskAmount := mul (currentBalance rm) (div positionRiskPercentage (Fin 100)) in
  if le (getWeeklyDrawdown rm) weeklyDrawdownLimit
  then mul riskAmount (Fin 0.7)
  else riskAmount.

Definition recordTrade (profit : num) (rm : RiskManager) : RiskManager :=
  {| initialBalance := initialBalance rm;
     currentBalance := add (currentBalance rm) profit;
     dailyStartBalance := dailyStartBalance rm;
     weeklyStartBalance := weeklyStartBalance rm;
     monthlyStartBalance := monthlyStartBalance rm;
     consecutiveLosses :=
       if lt profit (Fin 0) then S (consecutiveLosses rm) else 0%nat;
     tradingEnabled := tradingEnabled rm |}.

Definition resetDaily (rm : RiskManager) : RiskManager :=
  {| initialBalance := initialBalance rm;
     currentBalance := currentBalance rm;
     dailyStartBalance := currentBalance rm;
     weeklyStartBalance := weeklyStartBalance rm;
     monthlyStartBalance := monthlyStartBalance rm;
     consecutiveLosses := consecutiveLosses rm;
     tradingEnabled := tradingEnabled rm |}.

Definition resetWeekly (rm : RiskManager) : RiskManager :=
  {| initialBalance := initialBalance rm;
     currentBalance := currentBalance rm;
     dailyStartBalance := dailyStartBalance rm;
     weeklyStartBalance := currentBalance rm;
     monthlyStartBalance := monthlyStartBalance rm;
     consecutiveLosses := consecutiveLosses rm;
     tradingEnabled := tradingEnabled rm |}.

Definition resetMonthly (rm : RiskManager) : RiskManager :=
  {| initialBalance := initialBalance rm;
     currentBalance := currentBalance rm;
     dailyStartBalance := dailyStartBalance rm;
     weeklyStartBalance := weeklyStartBalance rm;
     monthlyStartBalance := currentBalance rm;
     consecutiveLosses := consecutiveLosses rm;
     tradingEnabled := tradingEnabled rm |}.

(** The methods of a [RiskManager] a client can call, and a manager driven
    through a sequence of them. *)
Inductive RiskOp : Type :=
| OpCanTrade
| OpRecordTrade (profit : num)
| OpResetDaily
| OpResetWeekly
| OpResetMonthly.

Definition runRiskOp (op : RiskOp) (rm : RiskManager) : RiskManager :=
  match op with
  | OpCanTrade => snd (canTrade rm)
  | OpRecordTrade profit => recordTrade profit rm
  | OpResetDaily => resetDaily rm
  | OpResetWeekly => resetWeekly rm
  | OpResetMonthly => resetMonthly rm
  end.

Definition runRiskOps (ops : list RiskOp) (rm : RiskManager) : RiskManager :=
  fold_left (fun r op => runRiskOp op r) ops rm.

(** ** DataEngine *)

Module Asset.
Record t : Type := mk {
  symbol : string;
  name : string;
  price : num;
  basePrice : num
}.

Definition withPrice (p : num) (a : t) : t :=
  {| symbol := symbol a; name := name a; price := p; basePrice := basePrice a |}.
End Asset.

Module Candle.
Record t : Type := mk {
  time : Z;
  open : num;
  high : num;
  low : num;
  close : num;
  volume : num
}.
End Candle.

Inductive Trend : Type := bullish | bearish.

Module Indicators.
Record t : Type := mk {
  rsi : num;
  ma9 : num;
  ma21 : num;
  avgVolume : num;
  currentVolume : num;
  volatility : num;
  trend : option Trend
}.

(** The object [{}]: every property is [undefined]. *)
Definition empty : t :=
  {| rsi := NaN; ma9 := NaN; ma21 := NaN; avgVolume := NaN;
     currentVolume := NaN; volatility := NaN; trend := None |}.
End Indicators.

Record DataEngine : Type := mkDataEngine {
  assets : list Asset.t;
  priceHistory : gmap string (list Candle.t);
  indicators : gmap string Indicators.t
}.

(** The three instruments of the constructor. *)
Definition initialAssets : list Asset.t :=
  [ Asset.mk "BTC" "Bitcoin" (Fin 65000) (Fin 65000);
    Asset.mk "ETH" "Ethereum" (Fin 3200) (Fin 3200);
    Asset.mk "SOL" "Solana" (Fin 150) (Fin 150) ].

(** [assets.find(a => a.symbol === symbol)] *)
Definition getAsset (symbol : string) (de : DataEngine) : option Asset.t :=
  List.find (fun a => String.eqb (Asset.symbol a) symbol) (assets de).

(** [this.indicators[symbol] || {}] *)
Definition getIndicators (symbol : string) (de : DataEngine) : Indicators.t :=
  default Indicators.empty (indicators de !! symbol).

(** [array.slice(-count)] for a count of at least 1. *)
Definition sliceLast {A} (count : nat) (l : list A) : list A :=
  drop (length l - count) l.

(** [this.priceHistory[symbol].slice(-count)]; [None] is the [TypeError]
    of calling [slice] on [undefined]. *)
Definition getPriceHistory (symbol : string) (count : nat) (de : DataEngine)
  : option (list Candle.t) :=
  sliceLast count <$> (priceHistory de !! symbol).

(** One round of the loop of [calculateRSI]: [history[i].close -
    history[i - 1].close] is added to the gains when positive and
    subtracted from the losses otherwise.  [None] is the [TypeError] of
    reading [close] of an index outside the array. *)
Definition rsiStep (history : list Candle.t) (acc : option (num * num)) (i : nat)
  : option (num * num) :=
  '(gains, losses) ← acc;
  cur ← history !! i;
  prev ← match i with O => None | S j => history !! j end;
  let change := sub (Candle.close cur) (Candle.close prev) in
  Some (if gt change (Fin 0) then (add gains change, losses)
        else (gains, sub losses change)).

Definition calculateRSI (history : list Candle.t) (period : nat) : option num :=
  if (length history <? period + 1)%nat then Some (Fin 50)
  else
    '(gains, losses) ←
      fold_left (rsiStep history) (seq (length history - period) period)
                (Some (Fin 0, Fin 0));
    let avgGain := div gains (ofNat period) in
    let avgLoss := div losses (ofNat period) in
    if strictEq avgLoss (Fin 0) then Some (Fin 100)
    else
      let rs := div avgGain avgLoss in
      Some (sub (Fin 100) (div (Fin 100) (add (Fin 1) rs))).

(** *** The RSI as the specification words it

    Over the most recent [period] closes, each compared with the close
    before it: the positive deltas summed as gains, the absolute values of
    the negative ones as losses, each averaged over [period]. *)
Fixpoint deltas (closes : list Q) : list Q :=
  match closes with
  | prev :: (cur :: _) as rest => (cur - prev) :: deltas rest
  | _ => []
  end.

Definition sumQ (l : list Q) : Q := fold_right Qplus 0 l.

Definition specGains (ds : list Q) : Q :=
  sumQ (List.filter (fun d => Qltb 0 d) ds).

Definition specLosses (ds : list Q) : Q :=
  sumQ (map Qabs (List.filter (fun d => Qltb d 0) ds)).

Definition specRSI (closes : list Q) (period : nat) : Q :=
  let ds := sliceLast period (deltas closes) in
  let avgGain := specGains ds / inject_Z (Z.of_nat period) in
  let avgLoss := specLosses ds / inject_Z (Z.of_nat period) in
  if Qeq_bool avgLoss 0 then 100
  else 100 - 100 / (1 + avgGain / avgLoss).

(** ** TradingEngine: data *)

Inductive Direction : Type := LONG | SHORT.

Inductive CloseReason : Type := TP2 | SL | MANUAL.

Definition isLong (d : Direction) : bool :=
  match d with LONG => true | SHORT => false end.

Definition isShort (d : Direction) : bool :=
  match d with LONG => false | SHORT => true end.

Module Position.
Record t : Type := mk {
  id : Z;
  slot : nat;
  symbol : string;
  direction : Direction;
  pattern : option string;
  entryPrice : num;
  stopLoss : num;
  tp1 : num;
  tp2 : num;
  size : num;
  tp1Hit : bool;
  openTime : Z;
  pnl : num;
  checklistScore : option nat
}.

Definition withPnl (v : num) (p : t) : t :=
  {| id := id p; slot := slot p; symbol := symbol p; direction := direction p;
     pattern := pattern p; entryPrice := entryPrice p; stopLoss := stopLoss p;
     tp1 := tp1 p; tp2 := tp2 p; size := size p; tp1Hit := tp1Hit p;
     openTime := openTime p; pnl := v; checklistScore := checklistScore p |}.

Definition withTp1Hit (v : bool) (p : t) : t :=
  {| id := id p; slot := slot p; symbol := symbol p; direction := direction p;
     pattern := pattern p; entryPrice := entryPrice p; stopLoss := stopLoss p;
     tp1 := tp1 p; tp2 := tp2 p; size := size p; tp1Hit := v;
     openTime := openTime p; pnl := pnl p; checklistScore := checklistScore p |}.

Definition withStopLoss (v : num) (p : t) : t :=
  {| id := id p; slot := slot p; symbol := symbol p; direction := direction p;
     pattern := pattern p; entryPrice := entryPrice p; stopLoss := v;
     tp1 := tp1 p; tp2 := tp2 p; size := size p; tp1Hit := tp1Hit p;
     openTime := openTime p; pnl := pnl p; checklistScore := checklistScore p |}.

Definition withChecklistScore (v : option nat) (p : t) : t :=
  {| id := id p; slot := slot p; symbol := symbol p; direction := direction p;
     pattern := pattern p; entryPrice := entryPrice p; stopLoss := stopLoss p;
     tp1 := tp1 p; tp2 := tp2 p; size := size p; tp1Hit := tp1Hit p;
     openTime := openTime p; pnl := pnl p; checklistScore := v |}.
End Position.

(** [{...position, closePrice, closeTime, closeReason, finalPnl}]; a
    [finalPnl] of [None] is the property holding [undefined]. *)
Module ClosedTrade.
Record t : Type := mk {
  position : Position.t;
  closePrice : num;
  closeTime : Z;
  closeReason : CloseReason;
  finalPnl : option num
}.
End ClosedTrade.

Inductive LevelState : Type := waiting | analyzing | passed | failed.

Module AnalysisState.
Record t : Type := mk {
  level1 : LevelState;
  level2 : LevelState;
  level3 : LevelState;
  level4 : LevelState
}.

Definition allWaiting : t := mk waiting waiting waiting waiting.

Definition withLevel1 (v : LevelState) (a : t) : t := mk v (level2 a) (level3 a) (level4 a).
Definition withLevel2 (v : LevelState) (a : t) : t := mk (level1 a) v (level3 a) (level4 a).
Definition withLevel3 (v : LevelState) (a : t) : t := mk (level1 a) (level2 a) v (level4 a).
Definition withLevel4 (v : LevelState) (a : t) : t := mk (level1 a) (level2 a) (level3 a) v.
End AnalysisState.

(** One entry [{name, passed}] of the checklist. *)
Module Check.
Record t : Type := mk { name : string; passed : bool }.
End Check.

(** [this.checklist = {passed, total, details}] *)
Module Checklist.
Record t : Type := mk { passed : nat; total : nat; details : list Check.t }.
End Checklist.

Definition maxPositions : nat := 2.

Record TradingEngine : Type := mkTradingEngine {
  dataEngine : DataEngine;
  riskManager : RiskManager;
  positions : list Position.t;
  closedTrades : list ClosedTrade.t;
  isRunning : bool;
  analysisState : AnalysisState.t;
  fearGreedIndex : num;
  lastAnalysisTime : Z;
  checklist : option Checklist.t
}.

Definition withDataEngine (v : DataEngine) (e : TradingEngine) : TradingEngine :=
  mkTradingEngine v (riskManager e) (positions e) (closedTrades e) (isRunning e)
    (analysisState e) (fearGreedIndex e) (lastAnalysisTime e) (checklist e).

Definition withRiskManager (v : RiskManager) (e : TradingEngine) : TradingEngine :=
  mkTradingEngine (dataEngine e) v (positions e) (closedTrades e) (isRunning e)
    (analysisState e) (fearGreedIndex e) (lastAnalysisTime e) (checklist e).

Definition withPositions (v : list Position.t) (e : TradingEngine) : TradingEngine :=
  mkTradingEngine (dataEngine e) (riskManager e) v (closedTrades e) (isRunning e)
    (analysisState e) (fearGreedIndex e) (lastAnalysisTime e) (checklist e).

Definition withClosedTrades (v : list ClosedTrade.t) (e : TradingEngine) : TradingEngine :=
  mkTradingEngine (dataEngine e) (riskManager e) (positions e) v (isRunning e)
    (analysisState e) (fearGreedIndex e) (lastAnalysisTime e) (checklist e).

Definition withIsRunning (v : bool) (e : TradingEngine) : TradingEngine :=
  mkTradingEngine (dataEngine e) (riskManager e) (positions e) (closedTrades e) v
    (analysisState e) (fearGreedIndex e) (lastAnalysisTime e) (checklist e).

Definition withAnalysisState (v : AnalysisState.t) (e : TradingEngine) : TradingEngine :=
  mkTradingEngine (dataEngine e) (riskManager e) (positions e) (closedTrades e)
    (isRunning e) v (fearGreedIndex e) (lastAnalysisTime e) (checklist e).

Definition withFearGreedIndex (v : num) (e : TradingEngine) : TradingEngine :=
  mkTradingEngine (dataEngine e) (riskManager e) (positions e) (closedTrades e)
    (isRunning e) (analysisState e) v (lastAnalysisTime e) (checklist e).

Definition withLastAnalysisTime (v : Z) (e : TradingEngine) : TradingEngine :=
  mkTradingEngine (dataEngine e) (riskManager e) (positions e) (closedTrades e)
    (isRunning e) (analysisState e) (fearGreedIndex e) v (checklist e).

Definition withChecklist (v : option Checklist.t) (e : TradingEngine) : TradingEngine :=
  mkTradingEngine (dataEngine e) (riskManager e) (positions e) (closedTrades e)
    (isRunning e) (analysisState e) (fearGreedIndex e) (lastAnalysisTime e) v.

(** [new TradingEngine(initialBalance)] around a data engine that has
    finished its constructor. *)
Definition newTradingEngine (de : DataEngine) (initialBalance : num) : TradingEngine :=
  {| dataEngine := de;
     riskManager := newRiskManager initialBalance;
     positions := [];
     closedTrades := [];
     isRunning := false;
     analysisState := AnalysisState.allWaiting;
     fearGreedIndex := Fin 50;
     lastAnalysisTime := 0%Z;
     checklist := None |}.

(** ** The world, and the monad of engine methods *)

(** The answers of the environment: the [k]-th reading of the clock
    ([Date.now()], in milliseconds), the [k]-th draw of [Math.random()],
    and the local hour of a clock reading ([getHours]). *)
Record World : Type := mkWorld {
  clock : nat -> Z;
  clockReads : nat;
  draws : nat -> Q;
  drawsTaken : nat;
  hourOf : Z -> Z
}.

Record Sys : Type := mkSys {
  engine : TradingEngine;
  world : World
}.

Inductive Exception : Type :=
| TypeError (reading : string).

Inductive Outcome (A : Type) : Type :=
| Returned (a : A)
| Thrown (ex : Exception).

Arguments Returned {A} a.
Arguments Thrown {A} ex.

Definition M (A : Type) : Type := Sys -> Outcome A * Sys.

#[global] Instance M_ret : MRet M := fun A (a : A) (s : Sys) => (Returned a, s).

#[global] Instance M_bind : MBind M :=
  fun A B (k : A -> M B) (m : M A) (s : Sys) =>
    match m s with
    | (Returned a, s') => k a s'
    | (Thrown ex, s') => (Thrown ex, s')
    end.

(** The system a method leaves behind. *)
Definition after {A} (m : M A) (s : Sys) : Sys := snd (m s).

Definition throw {A} (ex : Exception) : M A := fun s => (Thrown ex, s).

(** Reading a property of a value that may be [undefined]. *)
Definition defined {A} (reading : string) (v : option A) : M A :=
  match v with
  | Some a => mret a
  | None => throw (TypeError reading)
  end.

Definition getEngine : M TradingEngine := fun s => (Returned (engine s), s).

Definition modifyEngine (f : TradingEngine -> TradingEngine) : M unit :=
  fun s => (Returned tt, mkSys (f (engine s)) (world s)).

Definition dateNow : M Z :=
  fun s =>
    let w := world s in
    (Returned (clock w (clockReads w)),
     mkSys (engine s)
           (mkWorld (clock w) (S (clockReads w)) (draws w) (drawsTaken w) (hourOf w))).

Definition mathRandom : M num :=
  fun s =>
    let w := world s in
    (Returned (Fin (draws w (drawsTaken w))),
     mkSys (engine s)
           (mkWorld (clock w) (clockReads w) (draws w) (S (drawsTaken w)) (hourOf w))).

Definition localHour (now : Z) : M Z :=
  fun s => (Returned (hourOf (world s) now), s).

(** [new Date().getHours()] *)
Definition getHours : M Z :=
  now ← dateNow;
  localHour now.

(** [Math.floor(x)] used as an array index: [None] when the index is
    negative or [NaN], where the array has no element. *)
Definition floorIndex (x : num) : option nat :=
  match x with
  | Fin q => if (Qfloor q <? 0)%Z then None else Some (Z.to_nat (Qfloor q))
  | NaN => None
  end.

(** [array[Math.floor(Math.random() * array.length)]] *)
Definition randomElement {A} (l : list A) : M (option A) :=
  r ← mathRandom;
  mret (i ← floorIndex (mul r (ofNat (length l))); l !! i).

(** ** TradingEngine: positions *)

Definition start : M unit := modifyEngine (withIsRunning true).

Definition stop : M unit := modifyEngine (withIsRunning false).

Definition modifyRisk (f : RiskManager -> RiskManager) : M unit :=
  modifyEngine (fun e => withRiskManager (f (riskManager e)) e).

(** [this.positions[index] = position]: the element at [index] is the
    object the running callback mutates. *)
Definition storePosition (index : nat) (position : Position.t) : M unit :=
  modifyEngine (fun e => withPositions (<[index := position]> (positions e)) e).

Definition openPosition (asset : Asset.t) (direction : Direction)
    (pattern : option string) : M Position.t :=
  e ← getEngine;
  let positionSize := calculatePositionSize (riskManager e) in
  let entryPrice := Asset.price asset in
  let slippage := mul entryPrice (Fin 0.0005) in
  let actualEntry :=
    if isLong direction then add entryPrice slippage else sub entryPrice slippage in
  let stopLoss :=
    if isLong direction
    then mul actualEntry (sub (Fin 1) (div stopLossPercentage (Fin 100)))
    else mul actualEntry (add (Fin 1) (div stopLossPercentage (Fin 100))) in
  let tp1 :=
    if isLong direction then mul actualEntry (Fin 1.005) else mul actualEntry (Fin 0.995) in
  let tp2 :=
    if isLong direction then mul actualEntry (Fin 1.012) else mul actualEntry (Fin 0.988) in
  id ← dateNow;
  openTime ← dateNow;
  let position :=
    {| Position.id := id;
       Position.slot := length (positions e) + 1;
       Position.symbol := Asset.symbol asset;
       Position.direction := direction;
       Position.pattern := pattern;
       Position.entryPrice := actualEntry;
       Position.stopLoss := stopLoss;
       Position.tp1 := tp1;
       Position.tp2 := tp2;
       Position.size := positionSize;
       Position.tp1Hit := false;
       Position.openTime := openTime;
       Position.pnl := Fin 0;
       Position.checklistScore := None |} in
  modifyEngine (fun e => withPositions (positions e ++ [position]) e) ;;
  mret position.

(** The signed move of the price from the entry, as a fraction of the
    entry, times the size. *)
Definition markToMarket (position : Position.t) (currentPrice : num) : num :=
  if isLong (Position.direction position)
  then mul (div (sub currentPrice (Position.entryPrice position))
                (Position.entryPrice position))
           (Position.size position)
  else mul (div (sub (Position.entryPrice position) currentPrice)
                (Position.entryPrice position))
           (Position.size position).

Definition closePosition (index : nat) (reason : CloseReason) : M unit :=
  e ← getEngine;
  position ← defined "symbol" (positions e !! index);
  let asset := getAsset (Position.symbol position) (dataEngine e) in
  finalPnl ←
    match reason with
    | TP2 => mret (Some (mul (mul (Position.size position) (Fin 0.5)) (Fin 0.012)))
    | SL =>
        a ← defined "price" asset;
        mret (Some (markToMarket position (Asset.price a)))
    | MANUAL => mret None
    end;
  modifyRisk (recordTrade (toNumber finalPnl)) ;;
  a ← defined "price" asset;
  closeTime ← dateNow;
  modifyEngine (fun e =>
    withClosedTrades
      (closedTrades e ++
       [ {| ClosedTrade.position := position;
            ClosedTrade.closePrice := Asset.price a;
            ClosedTrade.closeTime := closeTime;
            ClosedTrade.closeReason := reason;
            ClosedTrade.finalPnl := finalPnl |} ]) e) ;;
  modifyEngine (fun e => withPositions (delete index (positions e)) e).

(** [position.size * 0.5 * 0.005] *)
Definition tp1Profit (position : Position.t) : num :=
  mul (mul (Position.size position) (Fin 0.5)) (Fin 0.005).

Definition tp1Crossed (position : Position.t) (currentPrice : num) : bool :=
  match Position.direction position with
  | LONG => ge currentPrice (Position.tp1 position)
  | SHORT => le currentPrice (Position.tp1 position)
  end.

Definition tp2Crossed (position : Position.t) (currentPrice : num) : bool :=
  (isLong (Position.direction position) && ge currentPrice (Position.tp2 position))
  || (isShort (Position.direction position) && le currentPrice (Position.tp2 position)).

Definition stopCrossed (position : Position.t) (currentPrice : num) : bool :=
  (isLong (Position.direction position) && le currentPrice (Position.stopLoss position))
  || (isShort (Position.direction position) && ge currentPrice (Position.stopLoss position)).

(** The first-tier block of the callback: mark the tier, book half the
    size at 0.5%, move the stop to the entry price. *)
Definition checkTp1 (index : nat) (position : Position.t) (currentPrice : num)
  : M Position.t :=
  if negb (Position.tp1Hit position) && tp1Crossed position currentPrice then
    let position := Position.withTp1Hit true position in
    storePosition index position ;;
    modifyRisk (recordTrade (tp1Profit position)) ;;
    let position := Position.withStopLoss (Position.entryPrice position) position in
    storePosition index position ;;
    mret position
  else mret position.

(** The callback of [this.positions.forEach((position, index) => ...)]. *)
Definition updatePosition (index : nat) (position : Position.t) : M unit :=
  e ← getEngine;
  asset ← defined "price" (getAsset (Position.symbol position) (dataEngine e));
  let currentPrice := Asset.price asset in
  let position := Position.withPnl (markToMarket position currentPrice) position in
  storePosition index position ;;
  position ← checkTp1 index position currentPrice;
  (if tp2Crossed position currentPrice then closePosition index TP2 else mret tt) ;;
  (if stopCrossed position currentPrice then closePosition index SL else mret tt).

(** [Array.prototype.forEach]: the length is read once; index [k] is
    visited when the array, as it is by then, still has an element there. *)
Fixpoint forEachPosition (callback : nat -> Position.t -> M unit) (k count : nat)
  : M unit :=
  match count with
  | O => mret tt
  | S count' =>
      e ← getEngine;
      match positions e !! k with
      | Some position =>
          callback k position ;; forEachPosition callback (S k) count'
      | None => forEachPosition callback (S k) count'
      end
  end.

Definition updatePositions : M unit :=
  e ← getEngine;
  forEachPosition updatePosition 0 (length (positions e)).

Definition manualClosePosition (slotIndex : Z) : M unit :=
  e ← getEngine;
  if (0 <=? slotIndex)%Z && (slotIndex <? Z.of_nat (length (positions e)))%Z
  then closePosition (Z.to_nat slotIndex) MANUAL
  else mret tt.

Definition updateMarketSentiment : M unit :=
  r ← mathRandom;
  modifyEngine (fun e =>
    let moved := add (fearGreedIndex e) (mul (sub r (Fin 0.5)) (Fin 5)) in
    withFearGreedIndex (max (Fin 0) (min (Fin 100) moved)) e).

(** [generateCandle(asset)]: the asset with its new price, and the candle. *)
Definition generateCandle (asset : Asset.t) : M (Asset.t * Candle.t) :=
  let volatility := mul (Asset.price asset) (Fin 0.002) in
  r ← mathRandom;
  let trend := mul (sub r (Fin 0.48)) volatility in
  r ← mathRandom;
  let change := add trend (mul (sub r (Fin 0.5)) volatility) in
  let price :=
    max (add (Asset.price asset) change) (mul (Asset.basePrice asset) (Fin 0.7)) in
  r ← mathRandom;
  let high := mul price (add (Fin 1) (mul r (Fin 0.001))) in
  r ← mathRandom;
  let low := mul price (sub (Fin 1) (mul r (Fin 0.001))) in
  time ← dateNow;
  r ← mathRandom;
  mret (Asset.withPrice price asset,
        {| Candle.time := time;
           Candle.open := sub price (mul change (Fin 0.5));
           Candle.high := high;
           Candle.low := low;
           Candle.close := price;
           Candle.volume := add (mul r (Fin 1000000)) (Fin 500000) |}).

(** ** DataEngine: the price feed

    The methods of the data engine run on the data engine of the system.
    [Math.sqrt] has no rational model; the feed takes it as a parameter. *)

Definition modifyData (f : DataEngine -> DataEngine) : M unit :=
  modifyEngine (fun e => withDataEngine (f (dataEngine e)) e).

Definition withAssets (v : list Asset.t) (de : DataEngine) : DataEngine :=
  mkDataEngine v (priceHistory de) (indicators de).

Definition withPriceHistory (v : gmap string (list Candle.t)) (de : DataEngine)
  : DataEngine :=
  mkDataEngine (assets de) v (indicators de).

Definition withIndicators (v : gmap string Indicators.t) (de : DataEngine)
  : DataEngine :=
  mkDataEngine (assets de) (priceHistory de) v.

(** [history.slice(-period).reduce((sum, candle) => sum + candle.close, 0)] *)
Definition sumCloses (candles : list Candle.t) : num :=
  fold_left (fun sum candle => add sum (Candle.close candle)) candles (Fin 0).

Definition sumVolumes (candles : list Candle.t) : num :=
  fold_left (fun sum c => add sum (Candle.volume c)) candles (Fin 0).

(** [calculateMA(history, period)], for a period of at least 1; [None] is
    the [TypeError] of reading [close] of [history[-1]]. *)
Definition calculateMA (history : list Candle.t) (period : nat) : option num :=
  if (length history <? period)%nat
  then Candle.close <$> last history
  else Some (div (sumCloses (sliceLast period history)) (ofNat period)).

Section Feed.

Variable sqrt : num -> num.

(** [calculateVolatility(history, period)], for a period of at least 1. *)
Definition calculateVolatility (history : list Candle.t) (period : nat) : num :=
  if (length history <? period)%nat then Fin 0
  else
    let prices := map Candle.close (sliceLast period history) in
    let mean := div (fold_left (fun sum p => add sum p) prices (Fin 0)) (ofNat period) in
    let variance :=
      div (fold_left (fun sum p => add sum (mul (sub p mean) (sub p mean)))
                     prices (Fin 0))
          (ofNat period) in
    mul (div (sqrt variance) mean) (Fin 100).

Definition calculateIndicators (symbol : string) : M unit :=
  e ← getEngine;
  history ← defined "length" (priceHistory (dataEngine e) !! symbol);
  if (length history <? 21)%nat then mret tt
  else
    rsi ← defined "close" (calculateRSI history 14);
    ma9 ← defined "close" (calculateMA history 9);
    ma21 ← defined "close" (calculateMA history 21);
    let avgVolume := div (sumVolumes (sliceLast 20 history)) (Fin 20) in
    currentVolume ← defined "volume" (Candle.volume <$> last history);
    let volatility := calculateVolatility history 20 in
    modifyData (fun de =>
      withIndicators
        (<[symbol :=
             {| Indicators.rsi := rsi;
                Indicators.ma9 := ma9;
                Indicators.ma21 := ma21;
                Indicators.avgVolume := avgVolume;
                Indicators.currentVolume := currentVolume;
                Indicators.volatility := volatility;
                Indicators.trend := if gt ma9 ma21 then Some bullish else Some bearish |}]>
           (indicators de)) de).

(** [generateCandle] on the instrument at an index of [this.assets]: the
    instrument is the object the candle generator mutates. *)
Definition generateCandleAt (index : nat) (asset : Asset.t) : M Candle.t :=
  '(moved, candle) ← generateCandle asset;
  modifyData (fun de => withAssets (<[index := moved]> (assets de)) de) ;;
  mret candle.

(** The callback of [this.assets.forEach] in [updatePrices]. *)
Definition updatePrice (index : nat) (asset : Asset.t) : M unit :=
  newCandle ← generateCandleAt index asset;
  e ← getEngine;
  history ← defined "push" (priceHistory (dataEngine e) !! Asset.symbol asset);
  let history := history ++ [newCandle] in
  let history := if (100 <? length history)%nat then drop 1 history else history in
  modifyData (fun de =>
    withPriceHistory (<[Asset.symbol asset := history]> (priceHistory de)) de) ;;
  calculateIndicators (Asset.symbol asset).

(** [this.assets.forEach(callback)]: the callbacks never change the length
    of the array. *)
Fixpoint forEachAsset (callback : nat -> Asset.t -> M unit) (k count : nat) : M unit :=
  match count with
  | O => mret tt
  | S count' =>
      e ← getEngine;
      match assets (dataEngine e) !! k with
      | Some asset => callback k asset ;; forEachAsset callback (S k) count'
      | None => forEachAsset callback (S k) count'
      end
  end.

Definition updatePrices : M unit :=
  e ← getEngine;
  forEachAsset updatePrice 0 (length (assets (dataEngine e))).

(** [for (let i = 0; i < n; i++) this.priceHistory[symbol].push(
    this.generateCandle(asset))] *)
Fixpoint pushCandles (index : nat) (symbol : string) (n : nat) : M unit :=
  match n with
  | O => mret tt
  | S n' =>
      e ← getEngine;
      _ ← defined "push" (priceHistory (dataEngine e) !! symbol);
      asset ← defined "price" (assets (dataEngine e) !! index);
      candle ← generateCandleAt index asset;
      e ← getEngine;
      history ← defined "push" (priceHistory (dataEngine e) !! symbol);
      modifyData (fun de =>
        withPriceHistory (<[symbol := history ++ [candle]]> (priceHistory de)) de) ;;
      pushCandles index symbol n'
  end.

(** The callback of [this.assets.forEach] in [initializePriceHistory]. *)
Definition initializeHistory (index : nat) (asset : Asset.t) : M unit :=
  modifyData (fun de =>
    withPriceHistory (<[Asset.symbol asset := []]> (priceHistory de)) de) ;;
  pushCandles index (Asset.symbol asset) 100 ;;
  calculateIndicators (Asset.symbol asset).

Definition initializePriceHistory : M unit :=
  e ← getEngine;
  forEachAsset initializeHistory 0 (length (assets (dataEngine e))).

End Feed.

(** ** TradingEngine: the analysis cycle *)

Inductive LevelResult (A : Type) : Type :=
| LevelPassed (a : A)
| LevelFailed (reason : string).

Arguments LevelPassed {A} a.
Arguments LevelFailed {A} reason.

Definition levelState {A} (r : LevelResult A) : LevelState :=
  match r with LevelPassed _ => passed | LevelFailed _ => failed end.

Definition setLevel1 (v : LevelState) : M unit :=
  modifyEngine (fun e => withAnalysisState (AnalysisState.withLevel1 v (analysisState e)) e).
Definition setLevel2 (v : LevelState) : M unit :=
  modifyEngine (fun e => withAnalysisState (AnalysisState.withLevel2 v (analysisState e)) e).
Definition setLevel3 (v : LevelState) : M unit :=
  modifyEngine (fun e => withAnalysisState (AnalysisState.withLevel3 v (analysisState e)) e).
Definition setLevel4 (v : LevelState) : M unit :=
  modifyEngine (fun e => withAnalysisState (AnalysisState.withLevel4 v (analysisState e)) e).

(** The callback of the [setTimeout(..., 2000)] that follows an opened
    position; the event loop runs it as a task of its own. *)
Definition resetAnalysisState : M unit :=
  modifyEngine (withAnalysisState AnalysisState.allWaiting).

(** [this.riskManager.canTrade()] *)
Definition engineCanTrade : M bool :=
  e ← getEngine;
  modifyEngine (withRiskManager (snd (canTrade (riskManager e)))) ;;
  mret (fst (canTrade (riskManager e))).

Definition selectAsset : M (option Asset.t) :=
  e ← getEngine;
  let availableAssets :=
    List.filter
      (fun asset =>
         negb (existsb (fun pos => String.eqb (Position.symbol pos) (Asset.symbol asset))
                       (positions e)))
      (assets (dataEngine e)) in
  if (length availableAssets =? 0)%nat then mret None
  else if (length (positions e) =? 1)%nat then randomElement availableAssets
  else randomElement availableAssets.

Definition level1SafetyGates (asset : Asset.t) : M (LevelResult unit) :=
  e ← getEngine;
  let indicators := getIndicators (Asset.symbol asset) (dataEngine e) in
  let rm := riskManager e in
  if lt (Indicators.rsi indicators) (Fin 30) || gt (Indicators.rsi indicators) (Fin 70)
  then mret (LevelFailed "RSI outside safe range")
  else if lt (Indicators.currentVolume indicators)
             (mul (Indicators.avgVolume indicators) (Fin 0.5))
  then mret (LevelFailed "Insufficient volume")
  else if (3 <=? consecutiveLosses rm)%nat
  then mret (LevelFailed "Max consecutive losses reached")
  else if le (getDailyDrawdown rm) dailyLossLimit
  then mret (LevelFailed "Daily loss limit reached")
  else if le (getMonthlyDrawdown rm) maxDrawdownAlert
  then mret (LevelFailed "Max drawdown alert triggered")
  else mret (LevelPassed tt).

Definition patterns : list string :=
  [ "Liquidity_Sweep"; "Break_of_Block"; "Anti_Order_Block"; "Chain_Block";
    "Swing_Block"; "Impulse_Block" ].

Definition level2StructuralAnalysis (asset : Asset.t)
  : M (LevelResult (Direction * option string)) :=
  e ← getEngine;
  let indicators := getIndicators (Asset.symbol asset) (dataEngine e) in
  history ← defined "slice" (getPriceHistory (Asset.symbol asset) 20 (dataEngine e));
  let direction :=
    match Indicators.trend indicators with Some bullish => LONG | _ => SHORT end in
  selectedPattern ← randomElement patterns;
  alignmentScore ← mathRandom;
  if lt alignmentScore (Fin 0.4)
  then mret (LevelFailed "Insufficient timeframe alignment")
  else mret (LevelPassed (direction, selectedPattern)).

Definition level3RiskAssessment (asset : Asset.t) (direction : Direction)
  : M (LevelResult num) :=
  e ← getEngine;
  let positionSize := calculatePositionSize (riskManager e) in
  let riskRewardRatio := Fin 2.5 in
  if lt riskRewardRatio (Fin 2.0)
  then mret (LevelFailed "Risk/Reward ratio too low")
  else
    signalQuality ← mathRandom;
    if lt signalQuality (Fin 0.5)
    then mret (LevelFailed "Entry signal quality insufficient")
    else mret (LevelPassed positionSize).

Definition level4SentimentCheck : M (LevelResult unit) :=
  e ← getEngine;
  if lt (fearGreedIndex e) (Fin 20) || gt (fearGreedIndex e) (Fin 80)
  then mret (LevelFailed "Extreme market sentiment")
  else mret (LevelPassed tt).

(** *** The 23-point checklist *)

Module ChecklistResult.
Record t : Type := mk {
  passed : bool;
  score : nat;
  checks : list Check.t;
  reason : string
}.
End ChecklistResult.

Definition showNat (n : nat) : string := NilZero.string_of_uint (Nat.to_uint n).

(** [checks.push({name, passed}); if (passed) score++] *)
Definition addCheck (name : string) (ok : bool) (acc : nat * list Check.t)
  : nat * list Check.t :=
  ((if ok then S (fst acc) else fst acc), snd acc ++ [Check.mk name ok]).

Definition timeframeChecks (alignmentScore : nat) (acc : nat * list Check.t)
  : nat * list Check.t :=
  fold_left
    (fun acc i =>
       addCheck ("Timeframe " +:+ showNat (i + 1) +:+ " Aligned")
                (i <? alignmentScore)%nat acc)
    (seq 0 4) acc.

Definition run23PointChecklist (asset : Asset.t) (direction : Direction)
  : M ChecklistResult.t :=
  e ← getEngine;
  let indicators := getIndicators (Asset.symbol asset) (dataEngine e) in
  let rm := riskManager e in
  let acc := (0%nat, []) in
  let acc := addCheck "RSI Safe Range"
    (ge (Indicators.rsi indicators) (Fin 30) && le (Indicators.rsi indicators) (Fin 70)) acc in
  let acc := addCheck "Volume Sufficient"
    (ge (Indicators.currentVolume indicators)
        (mul (Indicators.avgVolume indicators) (Fin 1.0))) acc in
  let acc := addCheck "Loss Streak OK" (consecutiveLosses rm <? 2)%nat acc in
  let acc := addCheck "Daily Loss OK" (gt (getDailyDrawdown rm) (Fin (-3.0))) acc in
  let acc := addCheck "Drawdown Safe" (gt (getMonthlyDrawdown rm) (Fin (-12.0))) acc in
  let acc := addCheck "Volatility Normal"
    (gt (Indicators.volatility indicators) (Fin 0.5)
     && lt (Indicators.volatility indicators) (Fin 5.0)) acc in
  r ← mathRandom;
  let alignmentScore := if gt r (Fin 0.3) then 4%nat else 2%nat in
  let acc := timeframeChecks alignmentScore acc in
  let acc := addCheck "Trend Confirmed" true acc in
  let acc := addCheck "Structure Break Valid" true acc in
  let acc := addCheck "Pattern Identified" true acc in
  r ← mathRandom;
  let entryQuality := gt r (Fin 0.3) in
  let acc := addCheck "Entry Quality High" entryQuality acc in
  let acc := addCheck "S/R Level Clear" true acc in
  r ← mathRandom;
  let orderFlow := gt r (Fin 0.4) in
  let acc := addCheck "Order Flow Positive" orderFlow acc in
  let acc := addCheck "Liquidity Adequate" true acc in
  let acc := addCheck "R:R >= 1:2" true acc in
  let acc := addCheck "Position Size Valid" true acc in
  let acc := addCheck "Stop Loss Optimal" true acc in
  let currentExposure :=
    fold_left (fun sum pos => add sum (Position.size pos)) (positions e) (Fin 0) in
  let exposureOK := lt currentExposure (mul (currentBalance rm) (Fin 0.7)) in
  let acc := addCheck "Exposure Under 70%" exposureOK acc in
  hour ← getHours;
  let goodSession :=
    ((13 <=? hour)%Z && (hour <=? 20)%Z) || ((7 <=? hour)%Z && (hour <=? 12)%Z) in
  let acc := addCheck "Active Trading Session" goodSession acc in
  let sentimentOK :=
    ge (fearGreedIndex e) (Fin 25) && le (fearGreedIndex e) (Fin 75) in
  let acc := addCheck "Sentiment Neutral" sentimentOK acc in
  let score := fst acc in
  let ok := (20 <=? score)%nat in
  mret {| ChecklistResult.passed := ok;
          ChecklistResult.score := score;
          ChecklistResult.checks := snd acc;
          ChecklistResult.reason :=
            if ok then "All checks passed"
            else "Only " +:+ showNat score +:+ "/23 checks passed (need 20+)" |}.

(** *** The cycle *)

Inductive LevelTag : Type :=
| LevelNumber (n : nat)
| LevelChecklist.

(** What [runAnalysisCycle] resolves to: [null]; [{asset, level, reason}];
    [{asset, level: 'checklist', reason, checklistScore}];
    [{asset, position, allPassed: true}]. *)
Inductive CycleResult : Type :=
| NoResult
| RejectedAtLevel (asset : Asset.t) (level : LevelTag) (reason : string)
| RejectedAtChecklist (asset : Asset.t) (level : LevelTag) (reason : string)
                      (checklistScore : nat)
| AllPassed (asset : Asset.t) (position : Position.t).

Definition firstTp1Hit (ps : list Position.t) : bool :=
  match ps with
  | p :: _ => Position.tp1Hit p
  | [] => false
  end.

(** The part of the cycle that follows the selection of an asset.  The
    [await]s only yield to microtasks, none of which touches the engine, so
    the levels run as one sequence. *)
Definition analyse (asset : Asset.t) : M CycleResult :=
  setLevel1 analyzing ;;
  level1 ← level1SafetyGates asset;
  setLevel1 (levelState level1) ;;
  match level1 with
  | LevelFailed reason => mret (RejectedAtLevel asset (LevelNumber 1) reason)
  | LevelPassed _ =>
  setLevel2 analyzing ;;
  level2 ← level2StructuralAnalysis asset;
  setLevel2 (levelState level2) ;;
  match level2 with
  | LevelFailed reason => mret (RejectedAtLevel asset (LevelNumber 2) reason)
  | LevelPassed (direction, pattern) =>
  setLevel3 analyzing ;;
  level3 ← level3RiskAssessment asset direction;
  setLevel3 (levelState level3) ;;
  match level3 with
  | LevelFailed reason => mret (RejectedAtLevel asset (LevelNumber 3) reason)
  | LevelPassed _ =>
  setLevel4 analyzing ;;
  level4 ← level4SentimentCheck;
  setLevel4 (levelState level4) ;;
  match level4 with
  | LevelFailed reason => mret (RejectedAtLevel asset (LevelNumber 4) reason)
  | LevelPassed _ =>
  checklistResult ← run23PointChecklist asset direction;
  if negb (ChecklistResult.passed checklistResult)
  then mret (RejectedAtChecklist asset LevelChecklist
               (ChecklistResult.reason checklistResult)
               (ChecklistResult.score checklistResult))
  else
    position ← openPosition asset direction pattern;
    let position :=
      Position.withChecklistScore (Some (ChecklistResult.score checklistResult))
                                  position in
    e ← getEngine;
    storePosition (length (positions e) - 1) position ;;
    mret (AllPassed asset position)
  end end end end.

Definition runAnalysisCycle : M CycleResult :=
  e ← getEngine;
  if negb (isRunning e) then mret NoResult
  else
    ok ← engineCanTrade;
    if negb ok then mret NoResult
    else
      e ← getEngine;
      if (maxPositions <=? length (positions e))%nat then mret NoResult
      else if (length (positions e) =? 1)%nat && negb (firstTp1Hit (positions e))
      then mret NoResult
      else
        now ← dateNow;
        if (now - lastAnalysisTime e <? 5000)%Z then mret NoResult
        else
          modifyEngine (withLastAnalysisTime now) ;;
          modifyEngine (withChecklist (Some (Checklist.mk 0 23 []))) ;;
          asset ← selectAsset;
          match asset with
          | None => mret NoResult
          | Some asset => analyse asset
          end.

(** ** TradingEngine.getStatistics *)

(** A field of the statistics object: a number, or the string that
    [toFixed] returns. *)
Inductive Shown : Type :=
| Number (n : num)
| Text (s : string).

Module Statistics.
Record t : Type := mk {
  totalTrades : nat;
  winRate : Shown;
  profitFactor : Shown;
  avgWin : Shown;
  avgLoss : Shown;
  dailyRoi : Shown;
  monthlyRoi : Shown
}.
End Statistics.

(** [Math.abs] *)
Definition abs (a : num) : num :=
  match a with Fin x => Fin (Qabs x) | NaN => NaN end.

(** [t.finalPnl] where a number is expected. *)
Definition pnlOf (t : ClosedTrade.t) : num := toNumber (ClosedTrade.finalPnl t).

(** [this.closedTrades.filter(t => t.finalPnl > 0)] *)
Definition wins (trades : list ClosedTrade.t) : list ClosedTrade.t :=
  List.filter (fun t => gt (pnlOf t) (Fin 0)) trades.

(** [this.closedTrades.filter(t => t.finalPnl < 0)] *)
Definition losses (trades : list ClosedTrade.t) : list ClosedTrade.t :=
  List.filter (fun t => lt (pnlOf t) (Fin 0)) trades.

(** [trades.reduce((sum, t) => sum + t.finalPnl, 0)] *)
Definition sumPnl (trades : list ClosedTrade.t) : num :=
  fold_left (fun sum t => add sum (pnlOf t)) trades (Fin 0).

Definition totalWins (trades : list ClosedTrade.t) : num := sumPnl (wins trades).

Definition totalLosses (trades : list ClosedTrade.t) : num :=
  abs (sumPnl (losses trades)).

Definition winRate (trades : list ClosedTrade.t) : num :=
  mul (div (ofNat (length (wins trades))) (ofNat (length trades))) (Fin 100).

Definition profitFactor (trades : list ClosedTrade.t) : num :=
  if gt (totalLosses trades) (Fin 0)
  then div (totalWins trades) (totalLosses trades)
  else if gt (totalWins trades) (Fin 0) then Fin 999 else Fin 0.

(** [((currentBalance - start) / start) * 100] *)
Definition roi (rm : RiskManager) (start : num) : num :=
  mul (div (sub (currentBalance rm) start) start) (Fin 100).

Section Statistics.

(** [x.toFixed(digits)] *)
Variable toFixed : nat -> num -> string.

Definition getStatistics (e : TradingEngine) : Statistics.t :=
  let trades := closedTrades e in
  if (length trades =? 0)%nat
  then
    {| Statistics.totalTrades := 0;
       Statistics.winRate := Number (Fin 0);
       Statistics.profitFactor := Number (Fin 0);
       Statistics.avgWin := Number (Fin 0);
       Statistics.avgLoss := Number (Fin 0);
       Statistics.dailyRoi := Number (Fin 0);
       Statistics.monthlyRoi := Number (Fin 0) |}
  else
    {| Statistics.totalTrades := length trades;
       Statistics.winRate := Text (toFixed 1 (winRate trades));
       Statistics.profitFactor := Text (toFixed 2 (profitFactor trades));
       Statistics.avgWin :=
         if (0 <? length (wins trades))%nat
         then Text (toFixed 2 (div (totalWins trades) (ofNat (length (wins trades)))))
         else Number (Fin 0);
       Statistics.avgLoss :=
         if (0 <? length (losses trades))%nat
         then Text (toFixed 2 (div (totalLosses trades) (ofNat (length (losses trades)))))
         else Number (Fin 0);
       Statistics.dailyRoi :=
         Text (toFixed 2 (roi (riskManager e) (dailyStartBalance (riskManager e))));
       Statistics.monthlyRoi :=
         Text (toFixed 2 (roi (riskManager e) (monthlyStartBalance (riskManager e)))) |}.

End Statistics.

(** ** The state after a close *)

(** What the reasons book: the fixed second tier, the move of the price,
    and for a manual close [undefined]. *)
Definition bookedPnl (position : Position.t) (asset : Asset.t) (reason : CloseReason)
  : option num :=
  match reason with
  | TP2 => Some (mul (mul (Position.size position) (Fin 0.5)) (Fin 0.012))
  | SL => Some (markToMarket position (Asset.price asset))
  | MANUAL => None
  end.

(** The system after [closePosition(index, reason)] has closed [position],
    an instrument of which is [asset]. *)
Definition closedSys (s : Sys) (index : nat) (position : Position.t) (asset : Asset.t)
    (reason : CloseReason) : Sys :=
  let e := engine s in
  let w := world s in
  {| engine :=
       {| dataEngine := dataEngine e;
          riskManager :=
            recordTrade (toNumber (bookedPnl position asset reason)) (riskManager e);
          positions := delete index (positions e);
          closedTrades :=
            closedTrades e ++
            [ {| ClosedTrade.position := position;
                 ClosedTrade.closePrice := Asset.price asset;
                 ClosedTrade.closeTime := clock w (clockReads w);
                 ClosedTrade.closeReason := reason;
                 ClosedTrade.finalPnl := bookedPnl position asset reason |} ];
          isRunning := isRunning e;
          analysisState := analysisState e;
          fearGreedIndex := fearGreedIndex e;
          lastAnalysisTime := lastAnalysisTime e;
          checklist := checklist e |};
     world := mkWorld (clock w) (S (clockReads w)) (draws w) (drawsTaken w) (hourOf w) |}.

(** ** The state after the marking part of a tick *)

(** Whether the callback books the first tier for [position] at a price. *)
Definition tp1Booked (position : Position.t) (currentPrice : num) : bool :=
  negb (Position.tp1Hit position) && tp1Crossed position currentPrice.

(** The position after the callback has written its live P&L and, when the
    first tier is booked, its flag and its stop. *)
Definition markedPosition (position : Position.t) (currentPrice : num) : Position.t :=
  let marked := Position.withPnl (markToMarket position currentPrice) position in
  if tp1Booked position currentPrice
  then Position.withStopLoss (Position.entryPrice position)
         (Position.withTp1Hit true marked)
  else marked.

Definition markedSys (s : Sys) (index : nat) (position : Position.t)
    (currentPrice : num) : Sys :=
  let e := engine s in
  {| engine :=
       {| dataEngine := dataEngine e;
          riskManager :=
            if tp1Booked position currentPrice
            then recordTrade (tp1Profit position) (riskManager e)
            else riskManager e;
          positions := <[index := markedPosition position currentPrice]> (positions e);
          closedTrades := closedTrades e;
          isRunning := isRunning e;
          analysisState := analysisState e;
          fearGreedIndex := fearGreedIndex e;
          lastAnalysisTime := lastAnalysisTime e;
          checklist := checklist e |};
     world := world s |}.

(** ** The ordering of the levels of a position, and reachable systems *)

(** The strict ordering: for [LONG] [stopLoss < entryPrice < tp1 < tp2],
    for [SHORT] the mirror image. *)
Definition strictOrder (p : Position.t) : Prop :=
  match Position.stopLoss p, Position.entryPrice p, Position.tp1 p, Position.tp2 p with
  | Fin sl, Fin e, Fin t1, Fin t2 =>
      match Position.direction p with
      | LONG => sl < e /\ e < t1 /\ t1 < t2
      | SHORT => e < sl /\ t1 < e /\ t2 < t1
      end
  | _, _, _, _ => False
  end.

(** The ordering with the breakeven stop: as [strictOrder] while the first
    tier is not hit, and with the stop at the entry price once it is. *)
Definition breakevenOrder (p : Position.t) : Prop :=
  match Position.stopLoss p, Position.entryPrice p, Position.tp1 p, Position.tp2 p with
  | Fin sl, Fin e, Fin t1, Fin t2 =>
      match Position.direction p with
      | LONG => (if Position.tp1Hit p then sl == e else sl < e) /\ e < t1 /\ t1 < t2
      | SHORT => (if Position.tp1Hit p then sl == e else e < sl) /\ t1 < e /\ t2 < t1
      end
  | _, _, _, _ => False
  end.

Definition positivePrice (a : Asset.t) : Prop :=
  match Asset.price a with
  | Fin q => 0 < q
  | NaN => False
  end.

(** The system after the price feed has replaced the instruments. *)
Definition reprice (assets' : list Asset.t) (s : Sys) : Sys :=
  mkSys (withDataEngine
           (mkDataEngine assets' (priceHistory (dataEngine (engine s)))
                         (indicators (dataEngine (engine s))))
           (engine s))
        (world s).

(** A system before any position is opened. *)
Definition initial (s : Sys) : Prop :=
  positions (engine s) = [] /\ Forall positivePrice (assets (dataEngine (engine s))).

(** The moves of the position life cycle: a position is opened on one of
    the instruments, the open positions are ticked, or the feed moves the
    prices, which stay positive. *)
Inductive step : Sys -> Sys -> Prop :=
| step_open s asset direction pattern :
    In asset (assets (dataEngine (engine s))) ->
    step s (after (openPosition asset direction pattern) s)
| step_tick s :
    step s (after updatePositions s)
| step_prices s assets' :
    Forall positivePrice assets' ->
    step s (reprice assets' s).

Inductive reachable : Sys -> Prop :=
| reachable_initial s : initial s -> reachable s
| reachable_step s s' : reachable s -> step s s' -> reachable s'.

(** A method keeps a property of the system, however it ends. *)
Definition preserves {A} (P : Sys -> Prop) (m : M A) : Prop :=
  forall s, P s -> P (snd (m s)).

(** The levels of the open positions are ordered and the prices positive. *)
Definition orderedSys (s : Sys) : Prop :=
  Forall positivePrice (assets (dataEngine (engine s))) /\
  Forall breakevenOrder (positions (engine s)).

(** ** Sequences of risk-manager calls *)

(** The profit a call books, when it books a finite one. *)
Definition opProfit (op : RiskOp) : Q :=
  match op with
  | OpRecordTrade (Fin q) => q
  | _ => 0
  end.

Definition finiteOp (op : RiskOp) : Prop :=
  match op with
  | OpRecordTrade NaN => False
  | _ => True
  end.

(** Every open position is on an instrument of the data engine. *)
Definition knownSymbols (s : Sys) : Prop :=
  Forall (fun p => is_Some (getAsset (Position.symbol p) (dataEngine (engine s))))
         (positions (engine s)).

(** What a tick can rely on: ordered levels, positive prices, known
    symbols. *)
Definition soundSys (s : Sys) : Prop := orderedSys s /\ knownSymbols s.

(** The bookkeeping of positions a method must respect: the data engine
    is left alone, the history only grows, and open plus closed positions
    stay as many as they were in [s0]. *)
Definition accounted (s0 s : Sys) : Prop :=
  dataEngine (engine s) = dataEngine (engine s0) /\
  closedTrades (engine s0) `prefix_of` closedTrades (engine s) /\
  (length (positions (engine s)) + length (closedTrades (engine s))
   = length (positions (engine s0)) + length (closedTrades (engine s0)))%nat /\
  (length (positions (engine s)) <= length (positions (engine s0)))%nat.

(** ** Pre- and postconditions of methods *)

(** From a system in [P], the method returns [a] in a system in [Q a], or
    throws in a system in [E]. *)
Definition triple {A} (P : Sys -> Prop) (m : M A) (Q : A -> Sys -> Prop)
    (E : Sys -> Prop) : Prop :=
  forall s, P s ->
    match m s with
    | (Returned a, s') => Q a s'
    | (Thrown _, s') => E s'
    end.

(** The books of the engine are as in [s0]: only the analysis display, the
    checklist board and the world may differ. *)
Definition sameBooks (s0 s : Sys) : Prop :=
  dataEngine (engine s) = dataEngine (engine s0) /\
  riskManager (engine s) = riskManager (engine s0) /\
  positions (engine s) = positions (engine s0) /\
  closedTrades (engine s) = closedTrades (engine s0) /\
  isRunning (engine s) = isRunning (engine s0) /\
  fearGreedIndex (engine s) = fearGreedIndex (engine s0) /\
  lastAnalysisTime (engine s) = lastAnalysisTime (engine s0).

(** The books are as in [s0] but for one more open position. *)
Definition oneMorePosition (s0 s : Sys) (position : Position.t) : Prop :=
  dataEngine (engine s) = dataEngine (engine s0) /\
  riskManager (engine s) = riskManager (engine s0) /\
  positions (engine s) = positions (engine s0) ++ [position] /\
  closedTrades (engine s) = closedTrades (engine s0) /\
  isRunning (engine s) = isRunning (engine s0) /\
  fearGreedIndex (engine s) = fearGreedIndex (engine s0) /\
  lastAnalysisTime (engine s) = lastAnalysisTime (engine s0).

(** An instrument no open position is on. *)
Definition freeAsset (e : TradingEngine) (asset : Asset.t) : Prop :=
  In asset (assets (dataEngine e)) /\
  Forall (fun p => Position.symbol p <> Asset.symbol asset) (positions e).

(** What a cycle that went into the analysis of [asset] may leave behind,
    by its result, relative to the system [s0] it started the analysis
    in: an opened position on [asset], appended to the open positions, or
    the books as they were. *)
Definition analysed (s0 : Sys) (asset : Asset.t) (result : CycleResult) (s : Sys)
  : Prop :=
  match result with
  | NoResult => False
  | RejectedAtLevel a level _ =>
      a = asset /\ (exists n, level = LevelNumber n /\ (1 <= n <= 4)%nat) /\
      sameBooks s0 s
  | RejectedAtChecklist a level _ score =>
      a = asset /\ level = LevelChecklist /\ (score < 20)%nat /\ sameBooks s0 s
  | AllPassed a position =>
      a = asset /\
      oneMorePosition s0 s position /\
      Position.symbol position = Asset.symbol asset /\
      Position.slot position = (length (positions (engine s0)) + 1)%nat /\
      Position.tp1Hit position = false /\
      (exists score, Position.checklistScore position = Some score /\
                     (20 <= score)%nat)
  end.

(** What a whole cycle may leave behind, by its result, relative to the
    system [s] it started in. *)
Definition cycled (s : Sys) (result : CycleResult) (s' : Sys) : Prop :=
  match result with
  | AllPassed asset position =>
      positions (engine s') = positions (engine s) ++ [position] /\
      (length (positions (engine s)) < maxPositions)%nat /\
      (positions (engine s) = [] \/ firstTp1Hit (positions (engine s)) = true) /\
      isRunning (engine s) = true /\
      canTrade (riskManager (engine s)) = (true, riskManager (engine s)) /\
      freeAsset (engine s) asset /\
      Position.symbol position = Asset.symbol asset /\
      Position.slot position = (length (positions (engine s)) + 1)%nat /\
      Position.tp1Hit position = false
  | _ => positions (engine s') = positions (engine s)
  end.

(** The system in which a cycle that passed its preconditions selects an
    instrument: the clock read once, the reading stored, the checklist
    board reset. *)
Definition startedSys (s : Sys) : Sys :=
  let w := world s in
  mkSys (withChecklist (Some (Checklist.mk 0 23 []))
           (withLastAnalysisTime (clock w (clockReads w))
              (withRiskManager (riskManager (engine s)) (engine s))))
        (mkWorld (clock w) (S (clockReads w)) (draws w) (drawsTaken w) (hourOf w)).

(** The reasons level 1 can give once [canTrade()] has answered true. *)
Definition level1Reason (reason : string) : Prop :=
  reason = "RSI outside safe range" \/
  reason = "Insufficient volume" \/
  reason = "Max drawdown alert triggered".

(** ** The tally of the checklist *)

(** The accumulator of the checklist holds [len] entries, its score is the
    number of entries that passed, and the score is between [lo] and
    [hi]. *)
Definition tallied (lo hi len : nat) (acc : nat * list Check.t) : Prop :=
  (lo <= fst acc <= hi)%nat /\
  length (snd acc) = len /\
  fst acc = length (List.filter Check.passed (snd acc)).

(** ** What the price feed keeps *)

(** The price of the instrument is at least 70% of its positive base
    price. *)
Definition flooredAsset (a : Asset.t) : Prop :=
  match Asset.price a, Asset.basePrice a with
  | Fin p, Fin b => 0 < b /\ b * 0.7 <= p
  | _, _ => False
  end.

(** Every instrument respects its floor and no history holds more than
    100 candles. *)
Definition feedSound (s : Sys) : Prop :=
  Forall flooredAsset (assets (dataEngine (engine s))) /\
  map_Forall (fun _ (history : list Candle.t) => (length history <= 100)%nat)
             (priceHistory (dataEngine (engine s))).

(** The engine is as in [s0] but for its data engine. *)
Definition sameTrading (s0 s : Sys) : Prop :=
  engine s = withDataEngine (dataEngine (engine s)) (engine s0).

(** The instruments before index [k] have a history of 100 candles and
    indicators. *)
Definition initialised (k : nat) (s : Sys) : Prop :=
  forall j a,
    (j < k)%nat -> assets (dataEngine (engine s)) !! j = Some a ->
    exists history,
      priceHistory (dataEngine (engine s)) !! Asset.symbol a = Some history /\
      length history = 100%nat /\
      is_Some (indicators (dataEngine (engine s)) !! Asset.symbol a).

(** ** Concrete scenarios *)

(** A manager of 10000 that lost 350 (a daily drawdown of -3.5%), asked
    whether it can trade, and then rebased on all three periods. *)
Definition rmTripped : RiskManager :=
  snd (canTrade (recordTrade (Fin (-350)) (newRiskManager (Fin 10000)))).

Definition rmTrippedReset : RiskManager :=
  resetMonthly (resetWeekly (resetDaily rmTripped)).

(** The manager of the consecutive-loss test: 10000 and three trades of -50. *)
Definition rmThreeLosses : RiskManager :=
  recordTrade (Fin (-50)) (recordTrade (Fin (-50)) (recordTrade (Fin (-50))
    (newRiskManager (Fin 10000)))).

(** A manager of 10000 that lost its whole balance in one trade. *)
Definition rmBroke : RiskManager :=
  recordTrade (Fin (-10000)) (newRiskManager (Fin 10000)).

(** A world whose clock advances three seconds per reading from 1000000,
    whose draws are all 0.5 and where it is always 14 o'clock. *)
Definition sampleWorld : World :=
  {| clock := fun k => (1000000 + 3000 * Z.of_nat k)%Z;
     clockReads := 0;
     draws := fun _ => 0.5;
     drawsTaken := 0;
     hourOf := fun _ => 14%Z |}.

Definition sampleIndicators : Indicators.t :=
  {| Indicators.rsi := Fin 50;
     Indicators.ma9 := Fin 101;
     Indicators.ma21 := Fin 100;
     Indicators.avgVolume := Fin 1000000;
     Indicators.currentVolume := Fin 1200000;
     Indicators.volatility := Fin 1;
     Indicators.trend := Some bullish |}.

(** A data engine with the three instruments at their base prices. *)
Definition sampleDataEngine : DataEngine :=
  {| assets := initialAssets;
     priceHistory := list_to_map [("BTC", []); ("ETH", []); ("SOL", [])];
     indicators :=
       list_to_map [("BTC", sampleIndicators); ("ETH", sampleIndicators);
                    ("SOL", sampleIndicators)] |}.

Definition sampleEngine : TradingEngine := newTradingEngine sampleDataEngine (Fin 10000).

Definition sampleSys : Sys := mkSys sampleEngine sampleWorld.

Definition bitcoin : Asset.t := Asset.mk "BTC" "Bitcoin" (Fin 65000) (Fin 65000).
Definition ethereum : Asset.t := Asset.mk "ETH" "Ethereum" (Fin 3200) (Fin 3200).

(** [asset.price = p] on the asset with the given symbol. *)
Definition setPrice (symbol : string) (p : num) : M unit :=
  modifyEngine (fun e =>
    withDataEngine
      (mkDataEngine
         (map (fun a => if String.eqb (Asset.symbol a) symbol
                        then Asset.withPrice p a else a)
              (assets (dataEngine e)))
         (priceHistory (dataEngine e))
         (indicators (dataEngine e))) e).

(** The engine of the position tests: a LONG position on BTC opened at
    65000, and the price then moved to 65100. *)
Definition sysLongOpen : Sys :=
  after (openPosition bitcoin LONG (Some "Test_Pattern")) sampleSys.

Definition sysLongMoved : Sys := after (setPrice "BTC" (Fin 65100)) sysLongOpen.

(** The dual-position scenario: BTC moves to 65400 and its first tier is
    booked on the tick; a LONG position on ETH is opened at 3200; then BTC
    moves to 65900, beyond its second tier, and ETH to 3220, beyond its
    first tier. *)
Definition sysTp1Booked : Sys :=
  after updatePositions (after (setPrice "BTC" (Fin 65400)) sysLongOpen).

Definition sysTwoOpen : Sys :=
  after (openPosition ethereum LONG (Some "Pattern2")) sysTp1Booked.

Definition sysTwoMoved : Sys :=
  after (setPrice "ETH" (Fin 3220)) (after (setPrice "BTC" (Fin 65900)) sysTwoOpen).

(** The position at an index of the array of a system; the blank position
    stands for an index outside the array. *)
Definition blankPosition : Position.t :=
  Position.mk 0 0 "" LONG None NaN NaN NaN NaN NaN false 0 NaN None.

Definition positionAt (i : nat) (s : Sys) : Position.t :=
  nth i (positions (engine s)) blankPosition.

(** A candle that closes at a given price. *)
Definition candleAt (q : Q) : Candle.t :=
  Candle.mk 0 (Fin q) (Fin q) (Fin q) (Fin q) (Fin 1000000).

(** Fourteen candles closing at 1, 2, ..., 14. *)
Definition risingCloses : list Q := map (fun k => inject_Z (Z.of_nat k)) (seq 1 14).

Definition risingHistory : list Candle.t := map candleAt risingCloses.

(** Sixteen closes that rise and fall. *)
Definition mixedCloses : list Q :=
  [100; 101; 103; 102; 102; 105; 104; 106; 107; 105; 108; 110; 109; 111; 112; 110].

Definition mixedHistory : list Candle.t := map candleAt mixedCloses.

(** The running sample engine in a world whose clock advances one second
    per reading. *)
Definition quickSys : Sys :=
  mkSys (engine (after start sampleSys))
        {| clock := fun k => (1000000 + 1000 * Z.of_nat k)%Z;
           clockReads := 0;
           draws := fun _ => 0.5;
           drawsTaken := 0;
           hourOf := fun _ => 14%Z |}.

(** The running sample engine with an RSI of 75 on every instrument. *)
Definition overboughtSys : Sys :=
  let hot := Indicators.mk (Fin 75) (Fin 101) (Fin 100) (Fin 1000000) (Fin 1200000)
                           (Fin 1) (Some bullish) in
  mkSys (withDataEngine
           (mkDataEngine initialAssets (priceHistory sampleDataEngine)
              (list_to_map [("BTC", hot); ("ETH", hot); ("SOL", hot)]))
           (engine (after start sampleSys)))
        sampleWorld.

(** A trade closed at its stop with a loss of 25. *)
Definition lostTrade : ClosedTrade.t :=
  ClosedTrade.mk (positionAt 0 sysLongOpen) (Fin 64000) 0 SL (Some (Fin (-25))).


(** * Properties *)

(** ** Facts about numbers *)

Lemma Qltb_lt x y : Qltb x y = true <-> x < y.
Proof.
  unfold Qltb. rewrite negb_true_iff, <- not_true_iff_false, Qle_bool_iff.
  split; [apply Qnot_le_lt | apply Qlt_not_le].
Qed.

Lemma Qltb_ge x y : Qltb x y = false <-> y <= x.
Proof.
  unfold Qltb. rewrite negb_false_iff. apply Qle_bool_iff.
Qed.

Lemma Qleb_le x y : Qle_bool x y = true <-> x <= y.
Proof. apply Qle_bool_iff. Qed.

Lemma Qleb_gt x y : Qle_bool x y = false <-> y < x.
Proof.
  rewrite <- not_true_iff_false, Qle_bool_iff.
  split; [apply Qnot_le_lt | apply Qlt_not_le].
Qed.

Lemma Qeqb_eq x y : Qeq_bool x y = true <-> x == y.
Proof. apply Qeq_bool_iff. Qed.

Lemma Qeqb_neq x y : Qeq_bool x y = false <-> ~ x == y.
Proof. rewrite <- not_true_iff_false, Qeq_bool_iff. tauto. Qed.

Lemma lt_Fin x y : lt (Fin x) (Fin y) = true <-> x < y.
Proof. apply Qltb_lt. Qed.

Lemma le_Fin x y : le (Fin x) (Fin y) = true <-> x <= y.
Proof. apply Qleb_le. Qed.

Lemma lt_NaN_l b : lt NaN b = false.
Proof. reflexivity. Qed.

Lemma lt_NaN_r a : lt a NaN = false.
Proof. destruct a; reflexivity. Qed.

Lemma le_NaN_r a : le a NaN = false.
Proof. destruct a; reflexivity. Qed.

Lemma add_NaN_r a : add a NaN = NaN.
Proof. destruct a; reflexivity. Qed.

Lemma same_refl a : same a a.
Proof. destruct a; simpl; [reflexivity | exact I]. Qed.

(** Turning the boolean comparisons of a goal and its hypotheses into
    propositions over [Q], for [lra]. *)
Ltac q_bools :=
  repeat match goal with
  | H : Qltb _ _ = true |- _ => apply Qltb_lt in H
  | H : Qltb _ _ = false |- _ => apply Qltb_ge in H
  | H : Qle_bool _ _ = true |- _ => apply Qleb_le in H
  | H : Qle_bool _ _ = false |- _ => apply Qleb_gt in H
  | H : Qeq_bool _ _ = true |- _ => apply Qeqb_eq in H
  | H : Qeq_bool _ _ = false |- _ => apply Qeqb_neq in H
  | |- Qltb _ _ = true => apply Qltb_lt
  | |- Qltb _ _ = false => apply Qltb_ge
  | |- Qle_bool _ _ = true => apply Qleb_le
  | |- Qle_bool _ _ = false => apply Qleb_gt
  | |- Qeq_bool _ _ = true => apply Qeqb_eq
  | |- Qeq_bool _ _ = false => apply Qeqb_neq
  end.


(** Splitting a conjunction of closed facts and evaluating each. *)
Ltac evaluate :=
  cbv zeta;
  repeat match goal with |- _ /\ _ => split end;
  vm_compute; try reflexivity; try exact I.

(** ** RiskManager *)

Section RiskManagerFacts.

Lemma canTrade_disabled rm :
  tradingEnabled rm = false -> canTrade rm = (false, rm).
Proof. intros H. unfold canTrade. rewrite H. reflexivity. Qed.

Lemma canTrade_keeps_disabled rm :
  tradingEnabled rm = false -> tradingEnabled (snd (canTrade rm)) = false.
Proof. intros H. rewrite canTrade_disabled; assumption. Qed.

Lemma canTrade_true_enabled rm :
  fst (canTrade rm) = true -> tradingEnabled rm = true.
Proof.
  unfold canTrade. destruct (tradingEnabled rm); simpl; [reflexivity | discriminate].
Qed.

(** No method of the manager turns the switch back on. *)
Lemma runRiskOp_keeps_disabled op rm :
  tradingEnabled rm = false -> tradingEnabled (runRiskOp op rm) = false.
Proof.
  intros H. destruct op; simpl; try assumption.
  apply canTrade_keeps_disabled, H.
Qed.

Lemma runRiskOps_keeps_disabled ops : forall rm,
  tradingEnabled rm = false -> tradingEnabled (runRiskOps ops rm) = false.
Proof.
  unfold runRiskOps.
  induction ops as [|op ops IH]; intros rm H; simpl; [assumption|].
  apply IH, runRiskOp_keeps_disabled, H.
Qed.

Lemma canTrade_trips rm :
  le (getDailyDrawdown rm) dailyLossLimit = true \/
  le (getMonthlyDrawdown rm) monthlyKillSwitch = true ->
  fst (canTrade rm) = false /\ tradingEnabled (snd (canTrade rm)) = false.
Proof.
  intros H. unfold canTrade.
  destruct (tradingEnabled rm) eqn:E; simpl; [|auto].
  destruct (le (getDailyDrawdown rm) dailyLossLimit); simpl; [auto|].
  destruct H as [H|H]; [discriminate|]. rewrite H. simpl. auto.
Qed.

End RiskManagerFacts.

(** C3, as stated, fails: the manager whose switch tripped at -3.5% is
    rebased by [resetDaily], [resetWeekly] and [resetMonthly]; all three
    drawdowns are then 0 and the loss streak is 1, and still
    [tradingEnabled] is false and [canTrade()] answers false. *)
Lemma C3_reset_does_not_restore :
  fst (canTrade (recordTrade (Fin (-350)) (newRiskManager (Fin 10000)))) = false /\
  tradingEnabled rmTripped = false /\
  same (getDailyDrawdown rmTrippedReset) (Fin 0) /\
  same (getWeeklyDrawdown rmTrippedReset) (Fin 0) /\
  same (getMonthlyDrawdown rmTrippedReset) (Fin 0) /\
  consecutiveLosses rmTrippedReset = 1%nat /\
  tradingEnabled rmTrippedReset = false /\
  fst (canTrade rmTrippedReset) = false.
Proof. vm_compute. repeat split; reflexivity. Qed.

(** C3, amended: once [canTrade()] observes a daily drawdown <= -3.0% or a
    monthly drawdown <= -15.0% it answers false and leaves [tradingEnabled]
    false, and after any sequence of [canTrade], [recordTrade],
    [resetDaily], [resetWeekly] and [resetMonthly] calls the switch is still
    off and [canTrade()] still answers false: no reset restores it. *)
Theorem C3_kill_switch_is_permanent (rm : RiskManager) (ops : list RiskOp) :
  le (getDailyDrawdown rm) dailyLossLimit = true \/
  le (getMonthlyDrawdown rm) monthlyKillSwitch = true ->
  fst (canTrade rm) = false /\
  tradingEnabled (snd (canTrade rm)) = false /\
  tradingEnabled (runRiskOps ops (snd (canTrade rm))) = false /\
  fst (canTrade (runRiskOps ops (snd (canTrade rm)))) = false.
Proof.
  intros H. destruct (canTrade_trips rm H) as [H1 H2].
  repeat split; try assumption.
  - apply runRiskOps_keeps_disabled, H2.
  - rewrite canTrade_disabled; [reflexivity|].
    apply runRiskOps_keeps_disabled, H2.
Qed.

Lemma C3_kill_switch_is_permanent_witness :
  le (getDailyDrawdown (recordTrade (Fin (-350)) (newRiskManager (Fin 10000))))
     dailyLossLimit = true /\
  fst (canTrade (runRiskOps [OpResetDaily; OpRecordTrade (Fin 500); OpResetMonthly]
                            rmTripped)) = false.
Proof.
  split; [reflexivity|].
  apply (C3_kill_switch_is_permanent
           (recordTrade (Fin (-350)) (newRiskManager (Fin 10000)))
           [OpResetDaily; OpRecordTrade (Fin 500); OpResetMonthly]).
  left. reflexivity.
Defined.

(** C6: from a fresh manager with balance 10000, three [recordTrade(-50)]
    calls leave the loss streak at 3 and the drawdowns at -1.5%, above the
    daily and the monthly limit; [canTrade()] answers false and
    [tradingEnabled] stays true; a following [recordTrade(pnl)] with
    [pnl >= 0] sets the streak to zero. *)
Theorem C6_three_losses_block_without_disabling :
  consecutiveLosses rmThreeLosses = 3%nat /\
  same (getDailyDrawdown rmThreeLosses) (Fin (-1.5)) /\
  same (getMonthlyDrawdown rmThreeLosses) (Fin (-1.5)) /\
  gt (getDailyDrawdown rmThreeLosses) dailyLossLimit = true /\
  gt (getMonthlyDrawdown rmThreeLosses) monthlyKillSwitch = true /\
  fst (canTrade rmThreeLosses) = false /\
  tradingEnabled (snd (canTrade rmThreeLosses)) = true /\
  forall pnl, ge pnl (Fin 0) = true ->
    consecutiveLosses (recordTrade pnl rmThreeLosses) = 0%nat.
Proof.
  repeat split; try reflexivity.
  intros pnl H. unfold recordTrade; simpl.
  destruct pnl as [p|]; [|discriminate H].
  unfold ge in H. simpl in H |- *. q_bools.
  replace (Qltb p 0) with false; [reflexivity|].
  symmetry. q_bools. exact H.
Qed.

Lemma C6_three_losses_block_without_disabling_witness :
  ge (Fin 25) (Fin 0) = true /\
  consecutiveLosses (recordTrade (Fin 25) rmThreeLosses) = 0%nat.
Proof.
  split; [reflexivity|].
  apply (proj2 (proj2 (proj2 (proj2 (proj2 (proj2 (proj2
           C6_three_losses_block_without_disabling))))))).
  reflexivity.
Defined.

(** The loss streak is reset by any trade that is not a loss, on every
    manager. *)
Lemma recordTrade_resets_streak rm pnl :
  ge pnl (Fin 0) = true -> consecutiveLosses (recordTrade pnl rm) = 0%nat.
Proof.
  intros H. unfold recordTrade; simpl.
  destruct pnl as [p|]; [|discriminate H].
  unfold ge in H. simpl in H |- *.
  replace (Qltb p 0) with false; [reflexivity|].
  symmetry. q_bools. exact H.
Qed.

Lemma recordTrade_balance rm pnl :
  currentBalance (recordTrade pnl rm) = add (currentBalance rm) pnl.
Proof. reflexivity. Qed.

(** The base size: 0.5% of the current balance. *)
Lemma calculatePositionSize_base rm :
  le (getWeeklyDrawdown rm) weeklyDrawdownLimit = false ->
  calculatePositionSize rm = mul (currentBalance rm) (Fin (0.5 / 100)).
Proof. intros H. unfold calculatePositionSize. rewrite H. reflexivity. Qed.

Lemma calculatePositionSize_reduced rm :
  le (getWeeklyDrawdown rm) weeklyDrawdownLimit = true ->
  calculatePositionSize rm =
  mul (mul (currentBalance rm) (Fin (0.5 / 100))) (Fin 0.7).
Proof. intros H. unfold calculatePositionSize. rewrite H. reflexivity. Qed.

Lemma risk_fraction : 0.5 / 100 == 5 # 1000.
Proof. reflexivity. Qed.

Lemma gt_not_le a b : gt a b = true -> le a b = false.
Proof.
  destruct a as [x|], b as [y|]; simpl; try discriminate.
  unfold gt; simpl. intros H. q_bools. exact H.
Qed.

(** C7, as stated, fails at balance zero: after [recordTrade(-10000)] on a
    manager of 10000 the weekly drawdown is -100%, the reduced size
    [0 * 0.7] is computed, and it is not strictly less than the base size
    [0.5% * 0 = 0]. *)
Lemma C7_reduced_size_not_smaller_at_zero :
  same (currentBalance rmBroke) (Fin 0) /\
  le (getWeeklyDrawdown rmBroke) weeklyDrawdownLimit = true /\
  same (calculatePositionSize rmBroke) (Fin 0) /\
  lt (calculatePositionSize rmBroke)
     (mul (currentBalance rmBroke) (Fin (0.5 / 100))) = false.
Proof. vm_compute. repeat split; reflexivity. Qed.

(** C7, amended: for every balance [b], [calculatePositionSize()] returns
    0.5% of [b] when the weekly drawdown is strictly above -8%, and 70% of
    that amount, 0.35% of [b], when the weekly drawdown is at or below -8%;
    the reduced size is strictly less than the base size when [b] is
    positive. *)
Theorem C7_position_size (rm : RiskManager) (b : Q) :
  currentBalance rm = Fin b ->
  (gt (getWeeklyDrawdown rm) weeklyDrawdownLimit = true ->
     same (calculatePositionSize rm) (Fin (b * (5 # 1000)))) /\
  (le (getWeeklyDrawdown rm) weeklyDrawdownLimit = true ->
     same (calculatePositionSize rm) (Fin ((7 # 10) * (b * (5 # 1000)))) /\
     same (calculatePositionSize rm) (Fin (b * (35 # 10000))) /\
     (0 < b ->
      lt (calculatePositionSize rm) (Fin (b * (5 # 1000))) = true)).
Proof.
  intros Hb. split.
  - intros H. rewrite calculatePositionSize_base by (apply gt_not_le, H).
    rewrite Hb. simpl. change (0.5 / 100) with ((5 # 10) * (1 # 100)). lra.
  - intros H. rewrite calculatePositionSize_reduced by exact H.
    rewrite Hb. simpl. change (0.5 / 100) with ((5 # 10) * (1 # 100)).
    repeat split; try lra.
    intros Hpos. q_bools. lra.
Qed.

Lemma C7_position_size_witness :
  same (calculatePositionSize (newRiskManager (Fin 10000))) (Fin 50) /\
  same (calculatePositionSize (recordTrade (Fin (-900)) (newRiskManager (Fin 10000))))
       (Fin (3185 # 100)) /\
  lt (calculatePositionSize (recordTrade (Fin (-900)) (newRiskManager (Fin 10000))))
     (Fin (9100 * (5 # 1000))) = true.
Proof.
  split; [|split].
  - assert (H := proj1 (C7_position_size (newRiskManager (Fin 10000)) 10000 eq_refl)
                   eq_refl).
    simpl in H |- *. lra.
  - assert (H := proj1 (proj2 (proj2 (C7_position_size
                   (recordTrade (Fin (-900)) (newRiskManager (Fin 10000)))
                   (10000 + -900) eq_refl) eq_refl))).
    simpl in H |- *. lra.
  - assert (H := proj2 (proj2 (proj2 (C7_position_size
                   (recordTrade (Fin (-900)) (newRiskManager (Fin 10000)))
                   (10000 + -900) eq_refl) eq_refl))).
    exact (H eq_refl).
Defined.

(** ** The monad of engine methods *)

Lemma bind_returned {A B} (m : M A) (k : A -> M B) s a s' :
  m s = (Returned a, s') -> (m ≫= k) s = k a s'.
Proof. intros H. unfold mbind, M_bind. rewrite H. reflexivity. Qed.

Lemma bind_thrown {A B} (m : M A) (k : A -> M B) s ex s' :
  m s = (Thrown ex, s') -> (m ≫= k) s = (Thrown ex, s').
Proof. intros H. unfold mbind, M_bind. rewrite H. reflexivity. Qed.

Lemma bind_getEngine {B} (k : TradingEngine -> M B) s :
  (getEngine ≫= k) s = k (engine s) s.
Proof. reflexivity. Qed.

Lemma bind_modifyEngine {B} f (k : unit -> M B) s :
  (modifyEngine f ≫= k) s = k tt (mkSys (f (engine s)) (world s)).
Proof. reflexivity. Qed.

Lemma bind_mret {A B} (a : A) (k : A -> M B) s :
  (mret a ≫= k) s = k a s.
Proof. reflexivity. Qed.

(** ** The analysis cycle *)

Lemma engineCanTrade_run s :
  engineCanTrade s =
  (Returned (fst (canTrade (riskManager (engine s)))),
   mkSys (withRiskManager (snd (canTrade (riskManager (engine s)))) (engine s))
         (world s)).
Proof. reflexivity. Qed.

(** C5: [runAnalysisCycle()] resolves to [null] (no level, no reason)
    whenever the engine is not running, or [canTrade()] is false, or two
    positions are open, or exactly one position is open and its [tp1Hit]
    is false, or the clock reading of the cycle is less than 5000 ms after
    [lastAnalysisTime], the reading at which the previous cycle started. *)
Theorem C5_preconditions_give_no_result (s : Sys) :
  isRunning (engine s) = false \/
  fst (canTrade (riskManager (engine s))) = false \/
  (2 <= length (positions (engine s)))%nat \/
  (exists p, positions (engine s) = [p] /\ Position.tp1Hit p = false) \/
  (clock (world s) (clockReads (world s)) - lastAnalysisTime (engine s) < 5000)%Z ->
  fst (runAnalysisCycle s) = Returned NoResult.
Proof.
  intros H. unfold runAnalysisCycle. rewrite bind_getEngine.
  destruct (isRunning (engine s)) eqn:Hrun; [|reflexivity]. cbn [negb].
  rewrite (bind_returned _ _ _ _ _ (engineCanTrade_run s)).
  destruct (fst (canTrade (riskManager (engine s)))) eqn:Hcan; [|reflexivity].
  cbn [negb]. rewrite bind_getEngine.
  cbn [engine world withRiskManager positions lastAnalysisTime].
  destruct (maxPositions <=? length (positions (engine s)))%nat eqn:Hmax;
    [reflexivity|].
  destruct ((length (positions (engine s)) =? 1)%nat
            && negb (firstTp1Hit (positions (engine s)))) eqn:Hgate; [reflexivity|].
  erewrite bind_returned by reflexivity.
  cbn [engine world withRiskManager positions lastAnalysisTime].
  destruct (clock (world s) (clockReads (world s)) - lastAnalysisTime (engine s) <? 5000)%Z
    eqn:Hcad; [reflexivity|].
  exfalso.
  destruct H as [H | [H | [H | [[p [Hp Ht]] | H]]]].
  - discriminate H.
  - discriminate H.
  - apply Nat.leb_gt in Hmax. unfold maxPositions in Hmax. lia.
  - rewrite Hp in Hgate. cbn in Hgate. rewrite Ht in Hgate. discriminate Hgate.
  - apply Z.ltb_ge in Hcad. lia.
Qed.

Lemma C5_preconditions_give_no_result_witness :
  isRunning (engine sampleSys) = false /\
  fst (runAnalysisCycle sampleSys) = Returned NoResult.
Proof.
  split; [reflexivity|].
  apply (C5_preconditions_give_no_result sampleSys). left. reflexivity.
Defined.

(** ** Closing a position *)

Section ClosePosition.

Variable s : Sys.
Variable index : nat.
Variable position : Position.t.
Variable asset : Asset.t.

Hypothesis Hposition : positions (engine s) !! index = Some position.
Hypothesis Hasset :
  getAsset (Position.symbol position) (dataEngine (engine s)) = Some asset.

Lemma closePosition_run reason :
  closePosition index reason s = (Returned tt, closedSys s index position asset reason).
Proof.
  unfold closePosition. rewrite bind_getEngine, Hposition. simpl.
  unfold mbind, M_bind. simpl. rewrite Hasset.
  destruct reason; reflexivity.
Qed.

Lemma manualClosePosition_run :
  manualClosePosition (Z.of_nat index) s = (Returned tt, closedSys s index position asset MANUAL).
Proof.
  unfold manualClosePosition. rewrite bind_getEngine.
  assert (Hlt : (index < length (positions (engine s)))%nat)
    by (eapply lookup_lt_Some; exact Hposition).
  replace ((0 <=? Z.of_nat index)%Z
           && (Z.of_nat index <? Z.of_nat (length (positions (engine s))))%Z)
    with true.
  - rewrite Nat2Z.id. apply closePosition_run.
  - symmetry. apply andb_true_iff. split; [apply Z.leb_le | apply Z.ltb_lt]; lia.
Qed.

End ClosePosition.

(** A manual close of an index that holds no position changes nothing. *)
Lemma manualClosePosition_empty_slot (s : Sys) (slotIndex : Z) :
  (slotIndex < 0 \/ Z.of_nat (length (positions (engine s))) <= slotIndex)%Z ->
  manualClosePosition slotIndex s = (Returned tt, s).
Proof.
  intros H. unfold manualClosePosition. rewrite bind_getEngine.
  replace ((0 <=? slotIndex)%Z
           && (slotIndex <? Z.of_nat (length (positions (engine s))))%Z)
    with false; [reflexivity|].
  symmetry. apply andb_false_iff.
  destruct H; [left; apply Z.leb_gt | right; apply Z.ltb_ge]; lia.
Qed.

(** C1, what the code does: for every state in which index [i] holds an
    open position of a known instrument, [manualClosePosition(i)] appends
    exactly one [ClosedTrade] with reason [MANUAL] and removes the position,
    but it books no realized P&L: [finalPnl] is [undefined] and
    [recordTrade(undefined)] turns the balance into [NaN], whatever the
    mark-to-market value of the position is. *)
Theorem C1_manual_close_books_undefined (s : Sys) (i : nat)
    (position : Position.t) (asset : Asset.t) :
  positions (engine s) !! i = Some position ->
  getAsset (Position.symbol position) (dataEngine (engine s)) = Some asset ->
  let s' := after (manualClosePosition (Z.of_nat i)) s in
  fst (manualClosePosition (Z.of_nat i) s) = Returned tt /\
  positions (engine s') = delete i (positions (engine s)) /\
  (exists trade,
     closedTrades (engine s') = closedTrades (engine s) ++ [trade] /\
     ClosedTrade.position trade = position /\
     ClosedTrade.closeReason trade = MANUAL /\
     ClosedTrade.finalPnl trade = None) /\
  currentBalance (riskManager (engine s')) = NaN /\
  consecutiveLosses (riskManager (engine s')) = 0%nat.
Proof.
  intros Hp Ha s'. subst s'. unfold after.
  rewrite (manualClosePosition_run s i position asset Hp Ha). simpl.
  repeat split.
  - eexists. repeat split.
  - apply add_NaN_r.
Qed.

(** The failing input of C1: the LONG position opened at 65000 (entry
    65032.5, size 50), the price at 65100: the position is worth a positive
    amount mark-to-market, and the manual close leaves the balance [NaN]
    instead of adding that amount to 10000. *)
Lemma C1_manual_close_books_undefined_witness :
  (exists p,
     positions (engine sysLongMoved) = [p] /\
     gt (markToMarket p (Fin 65100)) (Fin 0) = true /\
     isFin (add (currentBalance (riskManager (engine sysLongMoved)))
                (markToMarket p (Fin 65100)))) /\
  currentBalance
    (riskManager (engine (after (manualClosePosition 0) sysLongMoved))) = NaN.
Proof.
  split.
  - eexists. split; [reflexivity|]. split; [reflexivity | exact I].
  - eapply (C1_manual_close_books_undefined sysLongMoved 0); reflexivity.
Defined.

(** ** One tick of a position *)

Section UpdatePosition.

Variable s : Sys.
Variable index : nat.
Variable position : Position.t.
Variable asset : Asset.t.

Hypothesis Hposition : positions (engine s) !! index = Some position.
Hypothesis Hasset :
  getAsset (Position.symbol position) (dataEngine (engine s)) = Some asset.

Let currentPrice : num := Asset.price asset.
Let marked : Position.t := markedPosition position currentPrice.
Let s1 : Sys := markedSys s index position currentPrice.

Lemma markedSys_lookup : positions (engine s1) !! index = Some marked.
Proof.
  unfold s1, marked. simpl. apply list_lookup_insert_eq.
  eapply lookup_lt_Some, Hposition.
Qed.

Lemma markedSys_asset :
  getAsset (Position.symbol marked) (dataEngine (engine s1)) = Some asset.
Proof.
  unfold s1, marked, markedPosition. simpl.
  destruct (tp1Booked position currentPrice); simpl; exact Hasset.
Qed.

(** The callback is the marking followed by the two close checks. *)
Lemma updatePosition_run :
  updatePosition index position s =
  ((if tp2Crossed marked currentPrice then closePosition index TP2 else mret tt) ≫=
   (fun _ => if stopCrossed marked currentPrice then closePosition index SL else mret tt))
    s1.
Proof.
  unfold updatePosition. rewrite bind_getEngine, Hasset. simpl.
  unfold mbind at 1. unfold M_bind at 1. simpl.
  unfold storePosition at 1. rewrite bind_modifyEngine.
  unfold checkTp1. fold currentPrice.
  unfold s1, marked, markedSys, markedPosition, tp1Booked, tp1Crossed. simpl.
  destruct (negb (Position.tp1Hit position)
            && match Position.direction position with
               | LONG => ge currentPrice (Position.tp1 position)
               | SHORT => le currentPrice (Position.tp1 position)
               end) eqn:Hb.
  - unfold storePosition, modifyRisk. unfold mbind, M_bind. simpl.
    rewrite !list_insert_insert_eq. reflexivity.
  - unfold mbind, M_bind. simpl. reflexivity.
Qed.

Lemma updatePosition_stays :
  tp2Crossed marked currentPrice = false ->
  stopCrossed marked currentPrice = false ->
  updatePosition index position s = (Returned tt, s1).
Proof.
  intros H2 Hs. rewrite updatePosition_run, H2, Hs. reflexivity.
Qed.

Lemma updatePosition_tp2 :
  tp2Crossed marked currentPrice = true ->
  stopCrossed marked currentPrice = false ->
  updatePosition index position s =
  (Returned tt, closedSys s1 index marked asset TP2).
Proof.
  intros H2 Hs. rewrite updatePosition_run, H2, Hs.
  erewrite bind_returned;
    [| apply closePosition_run; [apply markedSys_lookup | apply markedSys_asset]].
  reflexivity.
Qed.

Lemma updatePosition_stop :
  tp2Crossed marked currentPrice = false ->
  stopCrossed marked currentPrice = true ->
  updatePosition index position s =
  (Returned tt, closedSys s1 index marked asset SL).
Proof.
  intros H2 Hs. rewrite updatePosition_run, H2, Hs.
  rewrite bind_mret.
  apply closePosition_run; [apply markedSys_lookup | apply markedSys_asset].
Qed.

End UpdatePosition.

(** ** A tick of the whole position array *)

Lemma forEachPosition_visit callback k count s position :
  positions (engine s) !! k = Some position ->
  forEachPosition callback k (S count) s =
  (callback k position ≫= (fun _ => forEachPosition callback (S k) count)) s.
Proof. intros H. simpl. rewrite bind_getEngine, H. reflexivity. Qed.

Lemma forEachPosition_skip callback k count s :
  positions (engine s) !! k = None ->
  forEachPosition callback k (S count) s = forEachPosition callback (S k) count s.
Proof. intros H. simpl. rewrite bind_getEngine, H. reflexivity. Qed.

(** Past the end of the array nothing is visited. *)
Lemma forEachPosition_past_end callback count : forall k s,
  (length (positions (engine s)) <= k)%nat ->
  forEachPosition callback k count s = (Returned tt, s).
Proof.
  induction count as [|count IH]; intros k s H; [reflexivity|].
  rewrite forEachPosition_skip by (apply lookup_ge_None; exact H).
  apply IH. lia.
Qed.

Lemma updatePositions_single s position :
  positions (engine s) = [position] ->
  updatePositions s = (updatePosition 0 position ≫= (fun _ => mret tt)) s.
Proof.
  intros H. unfold updatePositions. rewrite bind_getEngine, H. simpl.
  rewrite bind_getEngine, H. reflexivity.
Qed.

Lemma updatePositions_pair s first second :
  positions (engine s) = [first; second] ->
  updatePositions s =
  (updatePosition 0 first ≫= (fun _ => forEachPosition updatePosition 1 1)) s.
Proof.
  intros H. unfold updatePositions. rewrite bind_getEngine, H.
  change (length [first; second]) with 2%nat.
  apply forEachPosition_visit. rewrite H. reflexivity.
Qed.

(** The reason a position that closes once is closed for. *)
Lemma xorb_cases a b :
  xorb a b = true -> (a = true /\ b = false) \/ (a = false /\ b = true).
Proof. destruct a, b; simpl; intros H; try discriminate H; auto. Qed.

(** C10: in a call of [updatePositions()] with two open positions that
    closes the position at index 0 (for [TP2] or for [SL]), the position
    that was at index 1 is not evaluated: the call returns with that
    position, unchanged in every field, as the only open position, and with
    only one trade appended to the history, the one of the closed position;
    the position is evaluated, at index 0, by the next call. *)
Theorem C10_position_after_a_close_is_skipped (s : Sys)
    (first second : Position.t) (asset : Asset.t) :
  positions (engine s) = [first; second] ->
  getAsset (Position.symbol first) (dataEngine (engine s)) = Some asset ->
  xorb (tp2Crossed (markedPosition first (Asset.price asset)) (Asset.price asset))
       (stopCrossed (markedPosition first (Asset.price asset)) (Asset.price asset))
    = true ->
  let s' := after updatePositions s in
  let reason :=
    if tp2Crossed (markedPosition first (Asset.price asset)) (Asset.price asset)
    then TP2 else SL in
  updatePositions s =
    (Returned tt,
     closedSys (markedSys s 0 first (Asset.price asset)) 0
               (markedPosition first (Asset.price asset)) asset reason) /\
  positions (engine s') = [second] /\
  (exists trade,
     closedTrades (engine s') = closedTrades (engine s) ++ [trade] /\
     ClosedTrade.position trade = markedPosition first (Asset.price asset) /\
     ClosedTrade.closeReason trade = reason) /\
  updatePositions s' = (updatePosition 0 second ≫= (fun _ => mret tt)) s'.
Proof.
  intros Hps Ha Hx s' reason.
  assert (Hl : positions (engine s) !! 0%nat = Some first) by (rewrite Hps; reflexivity).
  assert (Hrun : updatePositions s =
    (Returned tt,
     closedSys (markedSys s 0 first (Asset.price asset)) 0
               (markedPosition first (Asset.price asset)) asset reason)).
  { rewrite (updatePositions_pair s first second Hps).
    destruct (xorb_cases _ _ Hx) as [[H2 Hs] | [H2 Hs]]; subst reason; rewrite H2.
    - erewrite bind_returned by (apply updatePosition_tp2; eassumption).
      apply forEachPosition_past_end. simpl. rewrite Hps. simpl. lia.
    - erewrite bind_returned by (apply updatePosition_stop; eassumption).
      apply forEachPosition_past_end. simpl. rewrite Hps. simpl. lia. }
  assert (Hpos : positions (engine s') = [second]).
  { subst s'. unfold after. rewrite Hrun. simpl. rewrite Hps. reflexivity. }
  split; [exact Hrun|]. split; [exact Hpos|]. split.
  - subst s'. unfold after. rewrite Hrun. simpl. eexists. repeat split.
  - apply updatePositions_single, Hpos.
Qed.

Lemma C10_position_after_a_close_is_skipped_witness :
  positions (engine sysTwoMoved) = [positionAt 0 sysTwoMoved; positionAt 1 sysTwoMoved] /\
  positions (engine (after updatePositions sysTwoMoved)) = [positionAt 1 sysTwoMoved].
Proof.
  split; [vm_compute; reflexivity|].
  refine (proj1 (proj2 (C10_position_after_a_close_is_skipped
                          sysTwoMoved (positionAt 0 sysTwoMoved)
                          (positionAt 1 sysTwoMoved)
                          (Asset.mk "BTC" "Bitcoin" (Fin 65900) (Fin 65000)) _ _ _)));
    vm_compute; reflexivity.
Defined.

(** The first tier on a position the call evaluates: with the first tier
    not yet hit, the price across it, short of the second tier and on the
    profit side of the entry, the callback marks the tier, books
    [size * 0.5 * 0.005] with [recordTrade] and moves the stop to the entry
    price; the position stays open. *)
Lemma updatePosition_books_tp1 (s : Sys) (index : nat) (position : Position.t)
    (asset : Asset.t) :
  positions (engine s) !! index = Some position ->
  getAsset (Position.symbol position) (dataEngine (engine s)) = Some asset ->
  Position.tp1Hit position = false ->
  tp1Crossed position (Asset.price asset) = true ->
  tp2Crossed position (Asset.price asset) = false ->
  (if isLong (Position.direction position)
   then gt (Asset.price asset) (Position.entryPrice position)
   else lt (Asset.price asset) (Position.entryPrice position)) = true ->
  exists position',
    fst (updatePosition index position s) = Returned tt /\
    positions (engine (after (updatePosition index position) s))
      = <[index := position']> (positions (engine s)) /\
    Position.tp1Hit position' = true /\
    Position.stopLoss position' = Position.entryPrice position /\
    Position.entryPrice position' = Position.entryPrice position /\
    Position.pnl position' = markToMarket position (Asset.price asset) /\
    riskManager (engine (after (updatePosition index position) s))
      = recordTrade (mul (mul (Position.size position) (Fin 0.5)) (Fin 0.005))
                    (riskManager (engine s)) /\
    closedTrades (engine (after (updatePosition index position) s))
      = closedTrades (engine s).
Proof.
  intros Hp Ha Hhit H1 H2 Hside.
  assert (Hb : tp1Booked position (Asset.price asset) = true).
  { unfold tp1Booked. rewrite Hhit, H1. reflexivity. }
  assert (Hrun : updatePosition index position s =
                 (Returned tt, markedSys s index position (Asset.price asset))).
  { apply updatePosition_stays; try assumption.
    - unfold markedPosition. rewrite Hb. exact H2.
    - unfold markedPosition. rewrite Hb.
      unfold stopCrossed. cbn [Position.direction Position.stopLoss
        Position.withStopLoss Position.withTp1Hit Position.withPnl].
      destruct (Position.direction position); cbn [isLong isShort] in *.
      + rewrite andb_true_l, andb_false_l, orb_false_r.
        apply gt_not_le, Hside.
      + rewrite andb_true_l, andb_false_l, orb_false_l.
        unfold ge. apply gt_not_le. exact Hside. }
  exists (markedPosition position (Asset.price asset)).
  unfold after. rewrite Hrun. unfold markedSys, markedPosition. rewrite Hb.
  cbn. repeat split.
Qed.

(** C4, the failing input: the position on ETH (LONG, first tier not hit)
    sits at index 1 behind the position on BTC; the price of ETH, 3220, is
    across its first tier, short of its second tier and above its stop.  The
    call closes BTC at its second tier and returns without evaluating ETH:
    the ETH position is unchanged ([tp1Hit] false, stop not moved) and the
    balance grew by the BTC profit only. *)
Theorem C4_tp1_not_booked_after_a_close :
  let btc := positionAt 0 sysTwoMoved in
  let eth := positionAt 1 sysTwoMoved in
  positions (engine sysTwoMoved) = [btc; eth] /\
  Position.direction eth = LONG /\
  Position.tp1Hit eth = false /\
  (Asset.price <$> getAsset (Position.symbol eth) (dataEngine (engine sysTwoMoved)))
    = Some (Fin 3220) /\
  ge (Fin 3220) (Position.tp1 eth) = true /\
  lt (Fin 3220) (Position.tp2 eth) = true /\
  gt (Fin 3220) (Position.stopLoss eth) = true /\
  fst (updatePositions sysTwoMoved) = Returned tt /\
  positions (engine (after updatePositions sysTwoMoved)) = [eth] /\
  lt (Position.stopLoss eth) (Position.entryPrice eth) = true /\
  same (currentBalance (riskManager (engine (after updatePositions sysTwoMoved))))
       (add (currentBalance (riskManager (engine sysTwoMoved)))
            (mul (mul (Position.size btc) (Fin 0.5)) (Fin 0.012))).
Proof. evaluate. Qed.

(** ** Opening a position *)

(** The entry price after slippage. *)
Lemma openPosition_run (s : Sys) (asset : Asset.t) (direction : Direction)
    (pattern : option string) :
  exists position,
    openPosition asset direction pattern s =
      (Returned position, after (openPosition asset direction pattern) s) /\
    engine (after (openPosition asset direction pattern) s)
      = withPositions (positions (engine s) ++ [position]) (engine s) /\
    Position.slot position = (length (positions (engine s)) + 1)%nat /\
    Position.symbol position = Asset.symbol asset /\
    Position.direction position = direction /\
    Position.tp1Hit position = false /\
    Position.size position = calculatePositionSize (riskManager (engine s)) /\
    Position.entryPrice position =
      (if isLong direction
       then add (Asset.price asset) (mul (Asset.price asset) (Fin 0.0005))
       else sub (Asset.price asset) (mul (Asset.price asset) (Fin 0.0005))) /\
    Position.stopLoss position =
      mul (Position.entryPrice position)
          (if isLong direction then Fin (1 - 1.0 / 100) else Fin (1 + 1.0 / 100)) /\
    Position.tp1 position =
      mul (Position.entryPrice position)
          (if isLong direction then Fin 1.005 else Fin 0.995) /\
    Position.tp2 position =
      mul (Position.entryPrice position)
          (if isLong direction then Fin 1.012 else Fin 0.988).
Proof.
  unfold after, openPosition. rewrite !bind_getEngine.
  unfold mbind, M_bind, dateNow, modifyEngine, mret, M_ret.
  cbn [fst snd engine world].
  eexists. split; [reflexivity|].
  cbn [Position.slot Position.symbol Position.direction Position.tp1Hit
       Position.size Position.entryPrice Position.stopLoss Position.tp1 Position.tp2].
  repeat match goal with |- _ /\ _ => split end; try reflexivity;
    destruct direction; reflexivity.
Qed.

(** C9: [openPosition] gives the new position the slot number one plus the
    number of positions open before the call; so when the position at index
    0 of two is closed and a position is opened next, the new position gets
    slot 2, the slot number the remaining position already has. *)
Theorem C9_slot_is_count_plus_one :
  (forall (s : Sys) (asset : Asset.t) (direction : Direction) (pattern : option string),
     exists position,
       fst (openPosition asset direction pattern s) = Returned position /\
       positions (engine (after (openPosition asset direction pattern) s))
         = positions (engine s) ++ [position] /\
       Position.slot position = (length (positions (engine s)) + 1)%nat) /\
  (forall (s : Sys) (first second : Position.t) (held : Asset.t)
          (reason : CloseReason)
          (asset : Asset.t) (direction : Direction) (pattern : option string),
     positions (engine s) = [first; second] ->
     Position.slot second = 2%nat ->
     getAsset (Position.symbol first) (dataEngine (engine s)) = Some held ->
     exists position,
       fst (closePosition 0 reason s) = Returned tt /\
       positions (engine (after (closePosition 0 reason) s)) = [second] /\
       positions (engine (after (openPosition asset direction pattern)
                                (after (closePosition 0 reason) s)))
         = [second; position] /\
       Position.slot position = 2%nat /\
       Position.slot position = Position.slot second).
Proof.
  split.
  - intros s asset direction pattern.
    destruct (openPosition_run s asset direction pattern)
      as [position (Hrun & He & Hslot & _)].
    exists position. rewrite Hrun, He. repeat split. exact Hslot.
  - intros s first second held reason asset direction pattern Hps Hslot Hheld.
    assert (Hl : positions (engine s) !! 0%nat = Some first)
      by (rewrite Hps; reflexivity).
    pose proof (closePosition_run s 0 first held Hl Hheld reason) as Hclose.
    assert (Hafter : positions (engine (after (closePosition 0 reason) s)) = [second]).
    { unfold after. rewrite Hclose. cbn. rewrite Hps. reflexivity. }
    destruct (openPosition_run (after (closePosition 0 reason) s) asset direction pattern)
      as [position (Hrun & He & Hs & _)].
    exists position. rewrite Hclose. split; [reflexivity|]. split; [exact Hafter|].
    rewrite He, Hafter in *. cbn in Hs |- *. repeat split; congruence.
Qed.

Lemma C9_slot_is_count_plus_one_witness :
  positions (engine sysTwoMoved) = [positionAt 0 sysTwoMoved; positionAt 1 sysTwoMoved] /\
  Position.slot (positionAt 1 sysTwoMoved) = 2%nat /\
  exists position,
    positions (engine (after (openPosition (Asset.mk "SOL" "Solana" (Fin 150) (Fin 150))
                                SHORT (Some "Pattern3"))
                             (after (closePosition 0 TP2) sysTwoMoved)))
      = [positionAt 1 sysTwoMoved; position] /\
    Position.slot position = 2%nat.
Proof.
  split; [vm_compute; reflexivity|]. split; [vm_compute; reflexivity|].
  destruct (proj2 C9_slot_is_count_plus_one
              sysTwoMoved (positionAt 0 sysTwoMoved) (positionAt 1 sysTwoMoved)
              (Asset.mk "BTC" "Bitcoin" (Fin 65900) (Fin 65000)) TP2
              (Asset.mk "SOL" "Solana" (Fin 150) (Fin 150)) SHORT (Some "Pattern3"))
    as [position (_ & _ & Hopen & Hslot & _)];
    [vm_compute; reflexivity ..|].
  exists position. split; assumption.
Defined.

(** ** The ordering of the levels *)

Lemma preserves_bind {A B} (P : Sys -> Prop) (m : M A) (k : A -> M B) :
  preserves P m -> (forall a, preserves P (k a)) -> preserves P (m ≫= k).
Proof.
  intros Hm Hk s HP. unfold mbind, M_bind.
  specialize (Hm s HP). destruct (m s) as [[a|ex] s']; simpl in *.
  - apply Hk, Hm.
  - exact Hm.
Qed.

Lemma preserves_mret {A} (P : Sys -> Prop) (a : A) : preserves P (mret a).
Proof. intros s HP. exact HP. Qed.

Lemma preserves_throw {A} (P : Sys -> Prop) ex : preserves P (@throw A ex).
Proof. intros s HP. exact HP. Qed.

Lemma preserves_defined {A} (P : Sys -> Prop) reading (v : option A) :
  preserves P (defined reading v).
Proof. destruct v; [apply preserves_mret | apply preserves_throw]. Qed.

Lemma preserves_if {A} (P : Sys -> Prop) (b : bool) (m1 m2 : M A) :
  preserves P m1 -> preserves P m2 -> preserves P (if b then m1 else m2).
Proof. destruct b; auto. Qed.

Lemma preserves_modifyEngine (P : Sys -> Prop) f :
  (forall s, P s -> P (mkSys (f (engine s)) (world s))) ->
  preserves P (modifyEngine f).
Proof. intros H s HP. apply H, HP. Qed.

Lemma ordered_dateNow : preserves orderedSys dateNow.
Proof. intros s H. exact H. Qed.

Lemma ordered_modifyRisk f : preserves orderedSys (modifyRisk f).
Proof. intros s H. exact H. Qed.

Lemma ordered_closePosition index reason :
  preserves orderedSys (closePosition index reason).
Proof.
  unfold closePosition.
  apply preserves_bind; [intros s H; exact H|]. intros e.
  apply preserves_bind; [apply preserves_defined|]. intros position.
  apply preserves_bind.
  { destruct reason; try apply preserves_mret.
    apply preserves_bind; [apply preserves_defined|].
    intros a. apply preserves_mret. }
  intros finalPnl.
  apply preserves_bind; [apply ordered_modifyRisk|]. intros _.
  apply preserves_bind; [apply preserves_defined|]. intros a.
  apply preserves_bind; [apply ordered_dateNow|]. intros closeTime.
  apply preserves_bind; [intros s H; exact H|]. intros _.
  intros s [Hp Ho]. split; [exact Hp|]. cbn. apply Forall_delete, Ho.
Qed.

Lemma breakevenOrder_marked position currentPrice :
  breakevenOrder position -> breakevenOrder (markedPosition position currentPrice).
Proof.
  unfold breakevenOrder, markedPosition, tp1Booked.
  destruct (Position.tp1Hit position) eqn:Hhit; cbn [negb andb].
  - cbn. rewrite Hhit. auto.
  - destruct (tp1Crossed position currentPrice); cbn.
    + destruct (Position.stopLoss position), (Position.entryPrice position),
        (Position.tp1 position), (Position.tp2 position); try tauto.
      destruct (Position.direction position); intros (_ & H1 & H2);
        repeat split; try assumption; reflexivity.
    + rewrite Hhit. auto.
Qed.

Lemma ordered_updatePosition s index position :
  positions (engine s) !! index = Some position ->
  orderedSys s -> orderedSys (snd (updatePosition index position s)).
Proof.
  intros Hl Hs.
  destruct (getAsset (Position.symbol position) (dataEngine (engine s)))
    as [asset|] eqn:Ha.
  - rewrite (updatePosition_run s index position asset Ha).
    apply preserves_bind.
    + apply preserves_if; [apply ordered_closePosition | apply preserves_mret].
    + intros _. apply preserves_if; [apply ordered_closePosition | apply preserves_mret].
    + destruct Hs as [Hp Ho]. split; [exact Hp|]. cbn.
      apply Forall_insert; [exact Ho|].
      apply breakevenOrder_marked. eapply Forall_lookup_1; eassumption.
  - unfold updatePosition. rewrite bind_getEngine, Ha. exact Hs.
Qed.

Lemma ordered_forEachPosition count : forall k s,
  orderedSys s -> orderedSys (snd (forEachPosition updatePosition k count s)).
Proof.
  induction count as [|count IH]; intros k s Hs; [exact Hs|].
  destruct (positions (engine s) !! k) as [position|] eqn:Hl.
  - rewrite (forEachPosition_visit _ _ _ _ _ Hl).
    pose proof (ordered_updatePosition s k position Hl Hs) as H1.
    unfold mbind, M_bind.
    destruct (updatePosition k position s) as [[[]|ex] s1]; cbn in H1 |- *.
    + apply IH, H1.
    + exact H1.
  - rewrite (forEachPosition_skip _ _ _ _ Hl). apply IH, Hs.
Qed.

Lemma ordered_updatePositions : preserves orderedSys updatePositions.
Proof.
  intros s Hs. unfold updatePositions. rewrite bind_getEngine.
  apply ordered_forEachPosition, Hs.
Qed.

(** On an instrument with a positive price the levels of a new position
    are strictly ordered. *)
Lemma openPosition_strictOrder s asset direction pattern position :
  positivePrice asset ->
  fst (openPosition asset direction pattern s) = Returned position ->
  strictOrder position /\ Position.tp1Hit position = false.
Proof.
  intros Hpos Hrun.
  destruct (openPosition_run s asset direction pattern)
    as [p (Hp & _ & _ & _ & Hd & Hhit & _ & He & Hsl & H1 & H2)].
  rewrite Hp in Hrun. cbn in Hrun. injection Hrun as <-.
  split; [|exact Hhit].
  unfold strictOrder. rewrite Hsl, H1, H2, He, Hd.
  unfold positivePrice in Hpos.
  destruct (Asset.price asset) as [q|]; [|contradiction].
  destruct direction; cbn;
    change (1.0 / 100) with ((10 # 10) * (1 # 100)); repeat split; lra.
Qed.

Lemma strictOrder_breakevenOrder p :
  strictOrder p -> Position.tp1Hit p = false -> breakevenOrder p.
Proof.
  unfold strictOrder, breakevenOrder. intros H Hhit. rewrite Hhit. exact H.
Qed.

Lemma ordered_openPosition s asset direction pattern :
  In asset (assets (dataEngine (engine s))) ->
  orderedSys s -> orderedSys (after (openPosition asset direction pattern) s).
Proof.
  intros Hin [Hp Ho].
  destruct (openPosition_run s asset direction pattern) as [p (Hrun & He & _)].
  unfold orderedSys. rewrite He. cbn. split; [exact Hp|].
  apply Forall_app_2; [exact Ho|]. apply Forall_cons_2; [|constructor].
  assert (Hpos : positivePrice asset).
  { rewrite List.Forall_forall in Hp. apply Hp, Hin. }
  destruct (openPosition_strictOrder s asset direction pattern p Hpos) as [H1 H2].
  { rewrite Hrun. reflexivity. }
  apply strictOrder_breakevenOrder; assumption.
Qed.

Lemma reachable_ordered s : reachable s -> orderedSys s.
Proof.
  induction 1 as [s [Hps Hpr] | s s' _ IH Hstep].
  - split; [exact Hpr|]. rewrite Hps. constructor.
  - destruct Hstep as [s asset direction pattern Hin | s | s assets' Hpos].
    + apply ordered_openPosition; assumption.
    + apply ordered_updatePositions, IH.
    + destruct IH as [_ Ho]. split; [exact Hpos | exact Ho].
Qed.

(** The system of the first-tier test is reachable: open LONG on BTC at
    65000, price to 65400, tick. *)
Lemma sysTp1Booked_reachable : reachable sysTp1Booked.
Proof.
  apply (reachable_step (after (setPrice "BTC" (Fin 65400)) sysLongOpen));
      [|apply step_tick].
    apply (reachable_step sysLongOpen);
      [|apply (step_prices sysLongOpen
                 [Asset.mk "BTC" "Bitcoin" (Fin 65400) (Fin 65000);
                  Asset.mk "ETH" "Ethereum" (Fin 3200) (Fin 3200);
                  Asset.mk "SOL" "Solana" (Fin 150) (Fin 150)]);
       repeat constructor].
    apply (reachable_step sampleSys).
    - apply reachable_initial. split; [reflexivity|]. repeat constructor.
    - apply (step_open sampleSys bitcoin LONG (Some "Test_Pattern")).
      left. reflexivity.
Qed.

(** C2, as stated, fails: the system of the first-tier test is reachable
    (open LONG on BTC at 65000, price to 65400, tick), its position is open
    and LONG, and its stop is at the entry price, not below it. *)
Lemma C2_stop_at_entry_after_tp1 :
  reachable sysTp1Booked /\
  positions (engine sysTp1Booked) = [positionAt 0 sysTp1Booked] /\
  Position.direction (positionAt 0 sysTp1Booked) = LONG /\
  Position.stopLoss (positionAt 0 sysTp1Booked)
    = Position.entryPrice (positionAt 0 sysTp1Booked) /\
  lt (Position.stopLoss (positionAt 0 sysTp1Booked))
     (Position.entryPrice (positionAt 0 sysTp1Booked)) = false /\
  ~ strictOrder (positionAt 0 sysTp1Booked).
Proof.
  split; [apply sysTp1Booked_reachable|].
  split; [vm_compute; reflexivity|]. split; [vm_compute; reflexivity|].
  split; [vm_compute; reflexivity|]. split; [vm_compute; reflexivity|].
  vm_compute. intros (H & _). discriminate H.
Qed.

(** C2, amended: in every system reachable by [openPosition] (on an
    instrument of the engine), [updatePositions] and moves of the prices
    that keep them positive, every open LONG position has
    [entryPrice < tp1 < tp2] and its stop below the entry price while the
    first tier is not hit, at the entry price once it is; every open SHORT
    position has the mirrored ordering. *)
Theorem C2_levels_ordered_up_to_breakeven (s : Sys) :
  reachable s ->
  Forall breakevenOrder (positions (engine s)) /\
  Forall (fun p => Position.tp1Hit p = false -> strictOrder p) (positions (engine s)).
Proof.
  intros H. apply reachable_ordered in H. destruct H as [_ Ho].
  split; [exact Ho|].
  eapply Forall_impl; [exact Ho|].
  intros p Hp Hhit. unfold breakevenOrder in Hp. unfold strictOrder.
  rewrite Hhit in Hp. exact Hp.
Qed.

Lemma C2_levels_ordered_up_to_breakeven_witness :
  reachable sysTp1Booked /\
  Forall breakevenOrder (positions (engine sysTp1Booked)).
Proof.
  split; [apply sysTp1Booked_reachable|].
  apply (proj1 (C2_levels_ordered_up_to_breakeven sysTp1Booked sysTp1Booked_reachable)).
Defined.

(** ** The RSI *)

Lemma deltas_lookup closes : forall j x y,
  closes !! j = Some x -> closes !! S j = Some y ->
  deltas closes !! j = Some (y - x).
Proof.
  induction closes as [|c0 closes IH]; intros j x y Hx Hy; [discriminate Hx|].
  destruct closes as [|c1 rest]; [discriminate Hy|].
  destruct j as [|j].
  - cbn in Hx, Hy |- *. congruence.
  - cbn [deltas]. change ((c1 - c0 :: deltas (c1 :: rest)) !! S j)
      with (deltas (c1 :: rest) !! j).
    apply IH; assumption.
Qed.

Lemma deltas_length closes : length (deltas closes) = (length closes - 1)%nat.
Proof.
  induction closes as [|c0 closes IH]; [reflexivity|].
  destruct closes as [|c1 rest]; [reflexivity|].
  cbn [deltas length] in *. lia.
Qed.

Lemma sumQ_nonneg l : Forall (fun q => 0 <= q) l -> 0 <= sumQ l.
Proof.
  induction 1 as [|q l Hq _ IH]; [cbn; lra|].
  change (sumQ (q :: l)) with (q + sumQ l). lra.
Qed.

Lemma specGains_nonneg ds : 0 <= specGains ds.
Proof.
  apply sumQ_nonneg. apply List.Forall_forall. intros d Hd.
  apply List.filter_In in Hd. destruct Hd as [_ Hd]. q_bools. lra.
Qed.

Lemma specLosses_nonneg ds : 0 <= specLosses ds.
Proof.
  apply sumQ_nonneg. apply List.Forall_forall. intros d Hd.
  apply List.in_map_iff in Hd. destruct Hd as [x [<- _]]. apply Qabs_nonneg.
Qed.

Lemma specGains_cons d ds :
  specGains (d :: ds) == (if Qltb 0 d then d else 0) + specGains ds.
Proof.
  unfold specGains. cbn [List.filter].
  destruct (Qltb 0 d).
  - change (sumQ (d :: List.filter (fun d0 => Qltb 0 d0) ds))
      with (d + sumQ (List.filter (fun d0 => Qltb 0 d0) ds)). lra.
  - lra.
Qed.

Lemma specLosses_cons d ds :
  specLosses (d :: ds) == (if Qltb 0 d then 0 else - d) + specLosses ds.
Proof.
  unfold specLosses. cbn [List.filter].
  destruct (Qltb d 0) eqn:Hneg, (Qltb 0 d) eqn:Hpos; q_bools; try lra.
  change (sumQ (map Qabs (d :: List.filter (fun d0 => Qltb d0 0) ds)))
    with (Qabs d + sumQ (map Qabs (List.filter (fun d0 => Qltb d0 0) ds))).
  rewrite Qabs_neg by lra. lra.
Qed.

Section RSI.

Variable history : list Candle.t.
Variable closes : list Q.
Hypothesis Hcloses : Candle.close <$> history = Fin <$> closes.

Lemma history_length : length history = length closes.
Proof.
  rewrite <- (length_fmap Candle.close history), Hcloses. apply length_fmap.
Qed.

Lemma history_lookup i :
  (i < length closes)%nat ->
  exists c q, history !! i = Some c /\ closes !! i = Some q /\ Candle.close c = Fin q.
Proof.
  intros Hi.
  destruct (lookup_lt_is_Some_2 closes i Hi) as [q Hq].
  assert (Hh : (Candle.close <$> history) !! i = Some (Fin q))
    by (rewrite Hcloses, list_lookup_fmap, Hq; reflexivity).
  rewrite list_lookup_fmap in Hh.
  destruct (history !! i) as [c|]; [|discriminate Hh].
  cbn in Hh. injection Hh as Hh. eauto.
Qed.

(** The loop, from index [S a] on for [m] rounds, adds to the gains and the
    losses what the specification sums over the [m] deltas from the
    [a]-th. *)
Lemma rsi_loop m : forall a g l,
  (a + m < length closes)%nat ->
  exists g' l',
    fold_left (rsiStep history) (seq (S a) m) (Some (Fin g, Fin l))
      = Some (Fin g', Fin l') /\
    g' == g + specGains (take m (drop a (deltas closes))) /\
    l' == l + specLosses (take m (drop a (deltas closes))).
Proof.
  induction m as [|m IH]; intros a g l Hlen.
  - exists g, l. rewrite take_0. split; [reflexivity|].
    change (specGains []) with 0. change (specLosses []) with 0. split; lra.
  - destruct (history_lookup a ltac:(lia)) as (cp & qp & Hcp & Hqp & Hclp).
    destruct (history_lookup (S a) ltac:(lia)) as (cc & qc & Hcc & Hqc & Hclc).
    pose proof (deltas_lookup closes a qp qc Hqp Hqc) as Hd.
    rewrite (drop_S _ _ _ Hd). cbn [take seq fold_left].
    unfold rsiStep at 2. cbn [mbind option_bind]. rewrite Hcc. cbn [mbind option_bind].
    rewrite Hcp. cbn [mbind option_bind]. rewrite Hclc, Hclp.
    cbn [sub gt lt add].
    destruct (Qltb 0 (qc - qp)) eqn:Hpos.
    + destruct (IH (S a) (g + (qc - qp)) l ltac:(lia)) as (g' & l' & Hf & Hg & Hl).
      exists g', l'. split; [exact Hf|].
      rewrite specGains_cons, specLosses_cons, Hpos. split; lra.
    + destruct (IH (S a) g (l - (qc - qp)) ltac:(lia)) as (g' & l' & Hf & Hg & Hl).
      exists g', l'. split; [exact Hf|].
      rewrite specGains_cons, specLosses_cons, Hpos. split; lra.
Qed.

End RSI.

Lemma period_positive period : (0 < period)%nat -> 0 < inject_Z (Z.of_nat period).
Proof.
  intros H. change 0 with (inject_Z 0). rewrite <- Zlt_Qlt. lia.
Qed.

Lemma ratio_nonneg a b : 0 <= a -> 0 < b -> 0 <= a / b.
Proof.
  intros Ha Hb. apply Qle_shift_div_l; [exact Hb | lra].
Qed.

(** For a non-negative relative strength the oscillator is within 0 and
    100. *)
Lemma oscillator_range rs : 0 <= rs -> 0 <= 100 - 100 / (1 + rs) <= 100.
Proof.
  intros Hrs.
  assert (Hpos : 0 < 1 + rs) by lra.
  assert (H1 : 100 / (1 + rs) <= 100).
  { apply Qle_shift_div_r; [exact Hpos | lra]. }
  assert (H2 : 0 <= 100 / (1 + rs)).
  { apply ratio_nonneg; lra. }
  lra.
Qed.

Lemma specRSI_range closes period :
  (0 < period)%nat -> 0 <= specRSI closes period <= 100.
Proof.
  intros Hp. unfold specRSI.
  set (ds := sliceLast period (deltas closes)).
  pose proof (period_positive period Hp) as HP.
  pose proof (specGains_nonneg ds) as Hg.
  pose proof (specLosses_nonneg ds) as Hl.
  destruct (Qeq_bool (specLosses ds / inject_Z (Z.of_nat period)) 0) eqn:Hz; [lra|].
  q_bools.
  assert (Hal : 0 <= specLosses ds / inject_Z (Z.of_nat period))
    by (apply ratio_nonneg; assumption).
  assert (Hag : 0 <= specGains ds / inject_Z (Z.of_nat period))
    by (apply ratio_nonneg; assumption).
  apply oscillator_range. apply ratio_nonneg; [exact Hag|].
  destruct (Qle_lt_or_eq _ _ Hal) as [H|H]; [exact H|]. symmetry in H. contradiction.
Qed.

Section RSIRefinement.

Variable history : list Candle.t.
Variable closes : list Q.
Variable period : nat.
Hypothesis Hcloses : Candle.close <$> history = Fin <$> closes.
Hypothesis Hperiod : (0 < period)%nat.

Lemma calculateRSI_short :
  (length history <= period)%nat -> calculateRSI history period = Some (Fin 50).
Proof.
  intros H. unfold calculateRSI.
  replace (length history <? period + 1)%nat with true; [reflexivity|].
  symmetry. apply Nat.ltb_lt. clear Hperiod Hcloses. lia.
Qed.

Lemma calculateRSI_refines :
  (period < length history)%nat ->
  exists r, calculateRSI history period = Some (Fin r) /\ r == specRSI closes period.
Proof.
  intros Hlen.
  pose proof (history_length history closes Hcloses) as Hn.
  pose proof (period_positive period Hperiod) as HP.
  unfold calculateRSI.
  replace (length history <? period + 1)%nat with false
    by (symmetry; apply Nat.ltb_ge; lia).
  replace (length history - period)%nat with (S (length closes - period - 1)) by lia.
  destruct (rsi_loop history closes Hcloses period (length closes - period - 1) 0 0
              ltac:(lia)) as (g & l & Hfold & Hg & Hl).
  rewrite Hfold. cbn [mbind option_bind].
  rewrite take_ge in Hg, Hl by (rewrite length_drop, deltas_length; lia).
  unfold specRSI, sliceLast. rewrite deltas_length.
  replace (length closes - 1 - period)%nat with (length closes - period - 1)%nat by lia.
  set (ds := drop (length closes - period - 1) (deltas closes)) in *.
  set (P := inject_Z (Z.of_nat period)) in *.
  assert (Hg' : g == specGains ds) by lra.
  assert (Hl' : l == specLosses ds) by lra.
  unfold ofNat. fold P. cbn [div].
  replace (Qeq_bool P 0) with false by (symmetry; q_bools; lra).
  cbn [strictEq].
  assert (Hsame : Qeq_bool (l / P) 0 = Qeq_bool (specLosses ds / P) 0).
  { destruct (Qeq_bool (specLosses ds / P) 0) eqn:E; q_bools.
    - rewrite Hl'. exact E.
    - rewrite Hl'. exact E. }
  rewrite <- Hsame.
  destruct (Qeq_bool (l / P) 0) eqn:Hz.
  - exists 100. split; reflexivity.
  - cbn [div add sub]. rewrite Hz. cbn [add].
    pose proof (specGains_nonneg ds) as Hgn.
    pose proof (specLosses_nonneg ds) as Hln.
    assert (Hrs : 0 <= (g / P) / (l / P)).
    { q_bools. apply ratio_nonneg.
      - apply ratio_nonneg; lra.
      - assert (0 <= l / P) by (apply ratio_nonneg; lra).
        destruct (Qle_lt_or_eq 0 (l / P)) as [H1|H1]; [assumption | exact H1 |].
        symmetry in H1. contradiction. }
    replace (Qeq_bool (1 + g / P / (l / P)) 0) with false
      by (symmetry; q_bools; lra).
    eexists. split; [reflexivity|].
    rewrite Hg', Hl'. reflexivity.
Qed.

End RSIRefinement.

(** C8, as stated, fails on a history of exactly [period] candles: the
    fourteen closes 1, ..., 14 only rise, so no delta among them is
    negative and the average loss is zero, for which the claim says 100;
    the guard [history.length < period + 1] makes [calculateRSI] return
    50. *)
Lemma C8_short_history_returns_50 :
  length risingHistory = 14%nat /\
  Candle.close <$> risingHistory = Fin <$> risingCloses /\
  specLosses (deltas risingCloses) == 0 /\
  specRSI risingCloses 14 == 100 /\
  calculateRSI risingHistory 14 = Some (Fin 50) /\
  ~ 50 == specRSI risingCloses 14.
Proof.
  split; [reflexivity|]. split; [reflexivity|].
  split; [vm_compute; reflexivity|]. split; [vm_compute; reflexivity|].
  split; [vm_compute; reflexivity|]. vm_compute. discriminate.
Qed.

(** C8, amended: for every candle history with finite closes and every
    positive [period], [calculateRSI] returns a number in [0,100]; when the
    history has more than [period] candles it is the RSI of the
    specification (gains and losses summed over the deltas of the most
    recent [period] closes, each averaged over [period], 100 when the
    average loss is zero and [100 - 100/(1 + avgGain/avgLoss)] otherwise),
    and when the history has at most [period] candles it is 50. *)
Theorem C8_rsi_refines_spec_and_is_bounded
    (history : list Candle.t) (closes : list Q) (period : nat) :
  Candle.close <$> history = Fin <$> closes ->
  (0 < period)%nat ->
  ((period < length history)%nat ->
     exists r, calculateRSI history period = Some (Fin r) /\
               r == specRSI closes period) /\
  ((length history <= period)%nat ->
     calculateRSI history period = Some (Fin 50)) /\
  (exists r, calculateRSI history period = Some (Fin r) /\ 0 <= r <= 100).
Proof.
  intros Hc Hp. split; [|split].
  - apply calculateRSI_refines; assumption.
  - apply calculateRSI_short.
  - destruct (Nat.lt_ge_cases period (length history)) as [Hlong|Hshort].
    + destruct (calculateRSI_refines history closes period Hc Hp Hlong) as (r & Hr & He).
      exists r. split; [exact Hr|].
      pose proof (specRSI_range closes period Hp). lra.
    + exists 50. split; [apply calculateRSI_short, Hshort | lra].
Qed.

Lemma C8_rsi_refines_spec_and_is_bounded_witness :
  Candle.close <$> mixedHistory = Fin <$> mixedCloses /\
  (14 < length mixedHistory)%nat /\
  exists r, calculateRSI mixedHistory 14 = Some (Fin r) /\
            r == specRSI mixedCloses 14 /\ 0 <= specRSI mixedCloses 14 <= 100.
Proof.
  split; [reflexivity|]. split; [vm_compute; lia|].
  destruct (proj1 (C8_rsi_refines_spec_and_is_bounded mixedHistory mixedCloses 14
                     eq_refl ltac:(lia)))
    as (r & Hr & He); [vm_compute; lia|].
  exists r. split; [exact Hr|]. split; [exact He|].
  apply specRSI_range. lia.
Defined.

(** * Further properties *)

(** ** RiskManager *)

(** The balance is the sum of what was recorded: through any sequence of
    [canTrade], [recordTrade] (of finite profits) and reset calls the
    current balance is the balance before plus the recorded profits, and
    the initial balance is never touched. *)
Theorem balance_is_sum_of_recorded_profits (ops : list RiskOp) :
  forall (rm : RiskManager) (b : Q),
  currentBalance rm = Fin b ->
  Forall finiteOp ops ->
  exists b',
    currentBalance (runRiskOps ops rm) = Fin b' /\
    b' == b + sumQ (map opProfit ops) /\
    initialBalance (runRiskOps ops rm) = initialBalance rm.
Proof.
  unfold runRiskOps.
  induction ops as [|op ops IH]; intros rm b Hb Hfin.
  - exists b. cbn. repeat split; [assumption | lra].
  - apply Forall_cons in Hfin. destruct Hfin as [Hop Hfin].
    cbn [fold_left map].
    change (sumQ (opProfit op :: map opProfit ops))
      with (opProfit op + sumQ (map opProfit ops)).
    assert (Hstep : currentBalance (runRiskOp op rm) = Fin (b + opProfit op) /\
                    initialBalance (runRiskOp op rm) = initialBalance rm \/
                    currentBalance (runRiskOp op rm) = Fin b /\ opProfit op = 0 /\
                    initialBalance (runRiskOp op rm) = initialBalance rm).
    { destruct op as [|[q|]| | |]; cbn in Hop |- *; try contradiction.
      - right. unfold canTrade.
        destruct (negb (tradingEnabled rm)); [auto|].
        destruct (le (getDailyDrawdown rm) dailyLossLimit); [auto|].
        destruct (le (getMonthlyDrawdown rm) monthlyKillSwitch); [auto|].
        destruct (3 <=? consecutiveLosses rm)%nat; auto.
      - left. rewrite Hb. auto.
      - right. auto.
      - right. auto.
      - right. auto. }
    destruct Hstep as [[H1 H2] | (H1 & H0 & H2)].
    + destruct (IH (runRiskOp op rm) _ H1 Hfin) as (b' & Hb' & Hsum & Hinit).
      exists b'. repeat split; [exact Hb' | lra | congruence].
    + destruct (IH (runRiskOp op rm) _ H1 Hfin) as (b' & Hb' & Hsum & Hinit).
      exists b'. rewrite H0. repeat split; [exact Hb' | lra | congruence].
Qed.

Lemma balance_is_sum_of_recorded_profits_witness :
  exists b',
    currentBalance
      (runRiskOps [OpRecordTrade (Fin 40); OpCanTrade; OpResetDaily;
                   OpRecordTrade (Fin (-15))] (newRiskManager (Fin 10000)))
      = Fin b' /\ b' == 10025.
Proof.
  destruct (balance_is_sum_of_recorded_profits
              [OpRecordTrade (Fin 40); OpCanTrade; OpResetDaily; OpRecordTrade (Fin (-15))]
              (newRiskManager (Fin 10000)) 10000 eq_refl)
    as (b' & Hb & Hsum & _).
  - repeat constructor.
  - exists b'. split; [exact Hb|]. rewrite Hsum. reflexivity.
Defined.

(** Asking twice changes nothing: a second [canTrade()] right after a
    first gives the same answer and leaves the manager as the first did. *)
Theorem canTrade_idempotent (rm : RiskManager) :
  canTrade (snd (canTrade rm)) = (fst (canTrade rm), snd (canTrade rm)).
Proof.
  unfold canTrade.
  destruct (tradingEnabled rm) eqn:He; cbn [negb]; [|cbn; rewrite He; reflexivity].
  destruct (le (getDailyDrawdown rm) dailyLossLimit) eqn:Hd; [reflexivity|].
  destruct (le (getMonthlyDrawdown rm) monthlyKillSwitch) eqn:Hm; [reflexivity|].
  destruct (3 <=? consecutiveLosses rm)%nat eqn:Hc; cbn [fst snd];
    rewrite He, Hd, Hm, Hc; reflexivity.
Qed.

Lemma drawdown_at_baseline b : ~ b == 0 -> same (drawdown (Fin b) (Fin b)) (Fin 0).
Proof.
  intros Hb. unfold drawdown. cbn.
  replace (Qeq_bool b 0) with false by (symmetry; q_bools; exact Hb).
  cbn. field. exact Hb.
Qed.

(** A reset rebases its own period only: after [resetDaily()] on a finite
    non-zero balance the daily drawdown is 0 and the weekly and monthly
    drawdowns, the balance, the loss streak and the switch are as before;
    likewise for [resetWeekly()] and [resetMonthly()]. *)
Theorem reset_rebases_one_period (rm : RiskManager) (b : Q) :
  currentBalance rm = Fin b -> ~ b == 0 ->
  (same (getDailyDrawdown (resetDaily rm)) (Fin 0) /\
   getWeeklyDrawdown (resetDaily rm) = getWeeklyDrawdown rm /\
   getMonthlyDrawdown (resetDaily rm) = getMonthlyDrawdown rm) /\
  (same (getWeeklyDrawdown (resetWeekly rm)) (Fin 0) /\
   getDailyDrawdown (resetWeekly rm) = getDailyDrawdown rm /\
   getMonthlyDrawdown (resetWeekly rm) = getMonthlyDrawdown rm) /\
  (same (getMonthlyDrawdown (resetMonthly rm)) (Fin 0) /\
   getDailyDrawdown (resetMonthly rm) = getDailyDrawdown rm /\
   getWeeklyDrawdown (resetMonthly rm) = getWeeklyDrawdown rm) /\
  (forall reset, In reset [resetDaily; resetWeekly; resetMonthly] ->
     currentBalance (reset rm) = currentBalance rm /\
     consecutiveLosses (reset rm) = consecutiveLosses rm /\
     tradingEnabled (reset rm) = tradingEnabled rm).
Proof.
  intros Hb Hnz.
  assert (H0 : same (drawdown (currentBalance rm) (currentBalance rm)) (Fin 0))
    by (rewrite Hb; apply drawdown_at_baseline, Hnz).
  split; [|split; [|split]].
  - split; [exact H0 | split; reflexivity].
  - split; [exact H0 | split; reflexivity].
  - split; [exact H0 | split; reflexivity].
  - intros reset [<- | [<- | [<- | []]]]; repeat split.
Qed.

Lemma reset_rebases_one_period_witness :
  same (getDailyDrawdown (resetDaily (recordTrade (Fin (-200)) (newRiskManager (Fin 10000)))))
       (Fin 0) /\
  same (getWeeklyDrawdown (resetDaily (recordTrade (Fin (-200)) (newRiskManager (Fin 10000)))))
       (Fin (-2)).
Proof.
  split.
  - refine (proj1 (proj1 (reset_rebases_one_period
             (recordTrade (Fin (-200)) (newRiskManager (Fin 10000))) (10000 + -200)
             eq_refl _))).
    vm_compute. discriminate.
  - vm_compute. reflexivity.
Defined.

Lemma drawdown_NaN baseline : drawdown NaN baseline = NaN.
Proof. reflexivity. Qed.

Lemma runRiskOp_NaN_balance op rm :
  currentBalance rm = NaN ->
  currentBalance (runRiskOp op rm) = NaN /\
  tradingEnabled (runRiskOp op rm) = tradingEnabled rm.
Proof.
  intros Hb. destruct op; cbn; try (split; [exact Hb | reflexivity]).
  - unfold canTrade, getDailyDrawdown, getMonthlyDrawdown. rewrite Hb, !drawdown_NaN.
    cbn [le]. destruct (negb (tradingEnabled rm)); [auto|].
    destruct (3 <=? consecutiveLosses rm)%nat; auto.
  - rewrite Hb. auto.
Qed.

Lemma nan_balance_facts (ops : list RiskOp) : forall (rm : RiskManager),
  currentBalance rm = NaN ->
  currentBalance (runRiskOps ops rm) = NaN /\
  tradingEnabled (runRiskOps ops rm) = tradingEnabled rm /\
  calculatePositionSize (runRiskOps ops rm) = NaN /\
  fst (canTrade (runRiskOps ops rm))
    = tradingEnabled rm && (consecutiveLosses (runRiskOps ops rm) <? 3)%nat.
Proof.
  assert (Hfold : forall rm, currentBalance rm = NaN ->
            currentBalance (runRiskOps ops rm) = NaN /\
            tradingEnabled (runRiskOps ops rm) = tradingEnabled rm).
  { unfold runRiskOps. induction ops as [|op ops IH]; intros rm Hb; [auto|].
    cbn [fold_left]. destruct (runRiskOp_NaN_balance op rm Hb) as [H1 H2].
    destruct (IH _ H1) as [H3 H4]. split; congruence. }
  intros rm Hb. destruct (Hfold rm Hb) as [H1 H2].
  split; [exact H1|]. split; [exact H2|]. split.
  - unfold calculatePositionSize, getWeeklyDrawdown. rewrite H1. reflexivity.
  - unfold canTrade, getDailyDrawdown, getMonthlyDrawdown.
    rewrite H1, H2, !drawdown_NaN. cbn [le].
    destruct (tradingEnabled rm); cbn [negb andb fst]; [|reflexivity].
    rewrite Nat.ltb_antisym.
    destruct (3 <=? consecutiveLosses (runRiskOps ops rm))%nat; reflexivity.
Qed.

(** A balance that is [NaN] switches the limits off for good: whatever is
    called afterwards, the balance stays [NaN], [tradingEnabled] keeps its
    value (the daily limit and the monthly kill switch never trip), the
    position size is [NaN], and [canTrade()] only looks at the loss
    streak. *)
Theorem nan_balance_disarms_limits (ops : list RiskOp) : forall (rm : RiskManager),
  currentBalance rm = NaN ->
  currentBalance (runRiskOps ops rm) = NaN /\
  tradingEnabled (runRiskOps ops rm) = tradingEnabled rm /\
  calculatePositionSize (runRiskOps ops rm) = NaN /\
  fst (canTrade (runRiskOps ops rm))
    = tradingEnabled rm && (consecutiveLosses (runRiskOps ops rm) <? 3)%nat.
Proof. apply nan_balance_facts. Qed.

Lemma nan_balance_disarms_limits_witness :
  tradingEnabled
    (runRiskOps [OpRecordTrade (Fin (-9000)); OpCanTrade]
       (recordTrade NaN (newRiskManager (Fin 10000)))) = true.
Proof.
  apply (proj1 (proj2 (nan_balance_disarms_limits
           [OpRecordTrade (Fin (-9000)); OpCanTrade]
           (recordTrade NaN (newRiskManager (Fin 10000))) eq_refl))).
Defined.

(** ** Positions *)

(** A manual close disarms the risk limits: after [manualClosePosition(i)]
    on an open position the loss streak is 0 and the balance [NaN], so
    [canTrade()] answers what [tradingEnabled] was, whatever the drawdown
    and the streak were, and no later call of the risk manager trips the
    switch. *)
Theorem manual_close_disarms_risk_limits (s : Sys) (i : nat)
    (position : Position.t) (asset : Asset.t) (ops : list RiskOp) :
  positions (engine s) !! i = Some position ->
  getAsset (Position.symbol position) (dataEngine (engine s)) = Some asset ->
  let rm' := riskManager (engine (after (manualClosePosition (Z.of_nat i)) s)) in
  fst (canTrade rm') = tradingEnabled (riskManager (engine s)) /\
  tradingEnabled (runRiskOps ops rm') = tradingEnabled (riskManager (engine s)) /\
  calculatePositionSize (runRiskOps ops rm') = NaN.
Proof.
  intros Hp Ha rm'. subst rm'. unfold after.
  rewrite (manualClosePosition_run s i position asset Hp Ha).
  cbn [snd engine closedSys riskManager bookedPnl toNumber].
  set (rm' := recordTrade NaN (riskManager (engine s))).
  assert (Hb : currentBalance rm' = NaN) by apply add_NaN_r.
  destruct (nan_balance_facts ops rm' Hb) as (_ & H2 & H3 & _).
  destruct (nan_balance_facts [] rm' Hb) as (_ & _ & _ & H4).
  split; [|split; assumption].
  cbn [runRiskOps fold_left] in H4. rewrite H4. cbn. apply andb_true_r.
Qed.

Lemma manual_close_disarms_risk_limits_witness :
  fst (canTrade (riskManager (engine (after (manualClosePosition 0) sysLongMoved)))) = true.
Proof.
  refine (proj1 (manual_close_disarms_risk_limits sysLongMoved 0
                   (positionAt 0 sysLongMoved)
                   (Asset.mk "BTC" "Bitcoin" (Fin 65100) (Fin 65000)) [] _ _));
    vm_compute; reflexivity.
Defined.

(** The levels of a new position match what a tick books at them: on an
    instrument with a positive price, the position marked at its first tier
    is worth 0.5% of its size, at its second tier 1.2%, and at its stop
    -1%. *)
Theorem levels_match_booked_profits (s : Sys) (asset : Asset.t)
    (direction : Direction) (pattern : option string) (position : Position.t)
    (size : Q) :
  positivePrice asset ->
  fst (openPosition asset direction pattern s) = Returned position ->
  Position.size position = Fin size ->
  same (markToMarket position (Position.tp1 position)) (Fin (size * 0.005)) /\
  same (markToMarket position (Position.tp2 position)) (Fin (size * 0.012)) /\
  same (markToMarket position (Position.stopLoss position)) (Fin (- (size * 0.01))).
Proof.
  intros Hpos Hrun Hsize.
  destruct (openPosition_run s asset direction pattern)
    as [p (Hp & _ & _ & _ & Hd & _ & _ & He & Hsl & H1 & H2)].
  rewrite Hp in Hrun. cbn in Hrun. injection Hrun as <-.
  unfold markToMarket. rewrite Hsl, H1, H2, Hsize, He, Hd.
  unfold positivePrice in Hpos.
  destruct (Asset.price asset) as [q|]; [|contradiction].
  destruct direction; cbn [isLong add sub mul div];
    change (1.0 / 100) with ((10 # 10) * (1 # 100)).
  - replace (Qeq_bool (q + q * 0.0005) 0) with false by (symmetry; q_bools; lra).
    cbn [mul same]. repeat split; field; lra.
  - replace (Qeq_bool (q - q * 0.0005) 0) with false by (symmetry; q_bools; lra).
    cbn [mul same]. repeat split; field; lra.
Qed.

Lemma levels_match_booked_profits_witness :
  same (markToMarket (positionAt 0 sysLongOpen) (Position.tp1 (positionAt 0 sysLongOpen)))
       (Fin (10000 * (0.5 / 100) * 0.005)).
Proof.
  refine (proj1 (levels_match_booked_profits sampleSys bitcoin LONG (Some "Test_Pattern")
                   (positionAt 0 sysLongOpen) (10000 * (0.5 / 100)) _ _ _));
    vm_compute; reflexivity.
Defined.

(** *** What a tick keeps *)

Lemma accounted_refl s : accounted s s.
Proof. repeat split; auto. Qed.

(** [closePosition] either closes the position or throws with the
    positions and the history untouched. *)
Lemma closePosition_outcome index reason s :
  (exists position asset,
     positions (engine s) !! index = Some position /\
     getAsset (Position.symbol position) (dataEngine (engine s)) = Some asset /\
     closePosition index reason s
       = (Returned tt, closedSys s index position asset reason)) \/
  (exists ex s',
     closePosition index reason s = (Thrown ex, s') /\
     positions (engine s') = positions (engine s) /\
     closedTrades (engine s') = closedTrades (engine s) /\
     dataEngine (engine s') = dataEngine (engine s)).
Proof.
  destruct (positions (engine s) !! index) as [position|] eqn:Hp.
  - destruct (getAsset (Position.symbol position) (dataEngine (engine s)))
      as [asset|] eqn:Ha.
    + left. exists position, asset. split; [reflexivity|]. split; [exact Ha|].
      apply closePosition_run; assumption.
    + right. unfold closePosition. rewrite bind_getEngine, Hp. cbn [defined].
      rewrite bind_mret, Ha.
      destruct reason; cbn; eexists _, _; repeat split.
  - right. unfold closePosition. rewrite bind_getEngine, Hp.
    eexists _, _. repeat split.
Qed.

Lemma accounted_closePosition s0 index reason :
  preserves (accounted s0) (closePosition index reason).
Proof.
  intros s (Hd & Hpre & Hcount & Hle).
  destruct (closePosition_outcome index reason s)
    as [(position & asset & Hp & _ & Hrun) | (ex & s' & Hrun & H1 & H2 & H3)];
    rewrite Hrun; cbn [snd].
  - pose proof (lookup_lt_Some _ _ _ Hp) as Hlt.
    unfold accounted. cbn [closedSys engine dataEngine closedTrades positions].
    rewrite length_delete by (rewrite Hp; eauto).
    rewrite length_app. cbn [length].
    repeat split; [exact Hd | | lia | lia].
    etransitivity; [exact Hpre|]. apply prefix_app_r. reflexivity.
  - unfold accounted. rewrite H1, H2, H3. repeat split; assumption.
Qed.

Lemma accounted_markedSys s0 s index position currentPrice :
  accounted s0 s -> accounted s0 (markedSys s index position currentPrice).
Proof.
  intros (Hd & Hpre & Hcount & Hle). unfold accounted.
  cbn [markedSys engine dataEngine closedTrades positions].
  rewrite length_insert. repeat split; assumption.
Qed.

Lemma accounted_updatePosition s0 index position :
  preserves (accounted s0) (updatePosition index position).
Proof.
  intros s Hs.
  destruct (getAsset (Position.symbol position) (dataEngine (engine s)))
    as [asset|] eqn:Ha.
  - rewrite (updatePosition_run s index position asset Ha).
    apply preserves_bind.
    + apply preserves_if; [apply accounted_closePosition | apply preserves_mret].
    + intros _. apply preserves_if; [apply accounted_closePosition | apply preserves_mret].
    + apply accounted_markedSys, Hs.
  - unfold updatePosition. rewrite bind_getEngine, Ha. exact Hs.
Qed.

Lemma preserves_forEachPosition (P : Sys -> Prop) callback :
  (forall k position, preserves P (callback k position)) ->
  forall count k, preserves P (forEachPosition callback k count).
Proof.
  intros Hcb. induction count as [|count IH]; intros k s Hs; [exact Hs|].
  cbn [forEachPosition]. rewrite bind_getEngine.
  destruct (positions (engine s) !! k) as [position|].
  - apply preserves_bind; [apply Hcb | intros _; apply IH | exact Hs].
  - apply IH, Hs.
Qed.

Lemma accounted_updatePositions s : accounted s (after updatePositions s).
Proof.
  unfold after, updatePositions. rewrite bind_getEngine.
  apply (preserves_forEachPosition (accounted s) updatePosition
           (accounted_updatePosition s)).
  apply accounted_refl.
Qed.

(** A tick neither loses nor invents a position, however it ends: the
    history of closed trades only grows, every position that left the open
    set is one new closed trade, no position is added, and the data engine
    is not touched. *)
Theorem tick_accounts_for_every_position (s : Sys) :
  dataEngine (engine (after updatePositions s)) = dataEngine (engine s) /\
  closedTrades (engine s) `prefix_of` closedTrades (engine (after updatePositions s)) /\
  (length (positions (engine (after updatePositions s)))
   + length (closedTrades (engine (after updatePositions s)))
   = length (positions (engine s)) + length (closedTrades (engine s)))%nat /\
  (length (positions (engine (after updatePositions s)))
   <= length (positions (engine s)))%nat.
Proof. apply accounted_updatePositions. Qed.

(** *** A tick on a sound system *)

Lemma no_double_close position currentPrice :
  breakevenOrder position ->
  tp2Crossed position currentPrice && stopCrossed position currentPrice = false.
Proof.
  unfold breakevenOrder, tp2Crossed, stopCrossed, ge.
  destruct (Position.stopLoss position) as [sl|], (Position.entryPrice position) as [e|],
    (Position.tp1 position) as [t1|], (Position.tp2 position) as [t2|]; try tauto.
  destruct currentPrice as [c|];
    [|destruct (Position.direction position); reflexivity].
  destruct (Position.direction position), (Position.tp1Hit position);
    cbn [isLong isShort andb orb le]; intros (H0 & H1 & H2);
    rewrite ?andb_false_r, ?orb_false_r;
    destruct (Qle_bool t2 c) eqn:Ha, (Qle_bool c sl) eqn:Hb,
             (Qle_bool c t2) eqn:Hc, (Qle_bool sl c) eqn:Hd;
    try reflexivity; q_bools; lra.
Qed.

Lemma knownSymbols_markedSys s index position currentPrice :
  positions (engine s) !! index = Some position ->
  knownSymbols s -> knownSymbols (markedSys s index position currentPrice).
Proof.
  intros Hl Hk. unfold knownSymbols in *.
  cbn [markedSys engine positions dataEngine].
  apply Forall_insert; [exact Hk|].
  pose proof (Forall_lookup_1 _ _ _ _ Hk Hl) as Hp.
  unfold markedPosition.
  destruct (tp1Booked position currentPrice); exact Hp.
Qed.

Lemma knownSymbols_closedSys s index position asset reason :
  knownSymbols s -> knownSymbols (closedSys s index position asset reason).
Proof.
  intros Hk. unfold knownSymbols in *.
  cbn [closedSys engine positions dataEngine]. apply Forall_delete, Hk.
Qed.

Lemma orderedSys_closedSys s index position asset reason :
  orderedSys s -> orderedSys (closedSys s index position asset reason).
Proof.
  intros [Hp Ho]. split; [exact Hp|].
  cbn [closedSys engine positions]. apply Forall_delete, Ho.
Qed.

Lemma orderedSys_markedSys s index position currentPrice :
  positions (engine s) !! index = Some position ->
  orderedSys s -> orderedSys (markedSys s index position currentPrice).
Proof.
  intros Hl [Hp Ho]. split; [exact Hp|].
  cbn [markedSys engine positions]. apply Forall_insert; [exact Ho|].
  apply breakevenOrder_marked. eapply Forall_lookup_1; eassumption.
Qed.

Lemma sound_updatePosition s index position :
  positions (engine s) !! index = Some position ->
  soundSys s ->
  fst (updatePosition index position s) = Returned tt /\
  soundSys (snd (updatePosition index position s)).
Proof.
  intros Hl [Ho Hk].
  destruct (Forall_lookup_1 _ _ _ _ Hk Hl) as [asset Ha].
  pose proof (orderedSys_markedSys s index position (Asset.price asset) Hl Ho) as Ho1.
  pose proof (knownSymbols_markedSys s index position (Asset.price asset) Hl Hk) as Hk1.
  assert (Hm : breakevenOrder (markedPosition position (Asset.price asset))).
  { apply breakevenOrder_marked. destruct Ho as [_ Ho].
    eapply Forall_lookup_1; eassumption. }
  pose proof (no_double_close _ (Asset.price asset) Hm) as Hnd.
  destruct (tp2Crossed (markedPosition position (Asset.price asset)) (Asset.price asset))
    eqn:H2,
    (stopCrossed (markedPosition position (Asset.price asset)) (Asset.price asset))
    eqn:Hs; [discriminate Hnd | | |].
  - rewrite (updatePosition_tp2 s index position asset Hl Ha H2 Hs).
    split; [reflexivity|].
    split; [apply orderedSys_closedSys | apply knownSymbols_closedSys]; assumption.
  - rewrite (updatePosition_stop s index position asset Hl Ha H2 Hs).
    split; [reflexivity|].
    split; [apply orderedSys_closedSys | apply knownSymbols_closedSys]; assumption.
  - rewrite (updatePosition_stays s index position asset Ha H2 Hs).
    split; [reflexivity|]. split; assumption.
Qed.

Lemma sound_forEachPosition count : forall k s,
  soundSys s ->
  fst (forEachPosition updatePosition k count s) = Returned tt /\
  soundSys (snd (forEachPosition updatePosition k count s)).
Proof.
  induction count as [|count IH]; intros k s Hs; [split; [reflexivity | exact Hs]|].
  destruct (positions (engine s) !! k) as [position|] eqn:Hl.
  - rewrite (forEachPosition_visit _ _ _ _ _ Hl).
    destruct (sound_updatePosition s k position Hl Hs) as [Hr Hs1].
    unfold mbind, M_bind.
    destruct (updatePosition k position s) as [[[]|ex] s1]; cbn in Hr, Hs1;
      [|discriminate Hr].
    apply IH, Hs1.
  - rewrite (forEachPosition_skip _ _ _ _ Hl). apply IH, Hs.
Qed.

Lemma getAsset_In asset de :
  In asset (assets de) -> is_Some (getAsset (Asset.symbol asset) de).
Proof.
  intros Hin. unfold getAsset.
  destruct (List.find (fun a => String.eqb (Asset.symbol a) (Asset.symbol asset))
                      (assets de)) eqn:Hf; [eauto|].
  exfalso. pose proof (List.find_none _ _ Hf asset Hin) as Hn.
  cbn in Hn. rewrite String.eqb_refl in Hn. discriminate Hn.
Qed.

(** On a sound system (prices positive, levels of every open position
    ordered, every open position on an instrument of the engine) no method
    of the position life cycle throws, and each leaves the system sound:
    [updatePositions()], [manualClosePosition(i)] for every integer [i],
    and [openPosition] on an instrument of the engine. *)
Theorem sound_system_never_throws (s : Sys) :
  soundSys s ->
  (fst (updatePositions s) = Returned tt /\ soundSys (after updatePositions s)) /\
  (forall slotIndex : Z,
     fst (manualClosePosition slotIndex s) = Returned tt /\
     soundSys (after (manualClosePosition slotIndex) s)) /\
  (forall asset direction pattern,
     In asset (assets (dataEngine (engine s))) ->
     soundSys (after (openPosition asset direction pattern) s)).
Proof.
  intros Hs. split; [|split].
  - unfold after, updatePositions. rewrite bind_getEngine.
    apply sound_forEachPosition, Hs.
  - intros slotIndex.
    destruct (Z.ltb_spec slotIndex 0) as [Hneg|Hnn].
    { unfold after. rewrite manualClosePosition_empty_slot by (left; exact Hneg).
      split; [reflexivity | exact Hs]. }
    destruct (Z.leb_spec (Z.of_nat (length (positions (engine s)))) slotIndex)
      as [Hout|Hin].
    { unfold after. rewrite manualClosePosition_empty_slot by (right; exact Hout).
      split; [reflexivity | exact Hs]. }
    destruct (lookup_lt_is_Some_2 (positions (engine s)) (Z.to_nat slotIndex)
                ltac:(lia)) as [position Hl].
    destruct Hs as [Ho Hk].
    destruct (Forall_lookup_1 _ _ _ _ Hk Hl) as [asset Ha].
    pose proof (manualClosePosition_run s (Z.to_nat slotIndex) position asset Hl Ha)
      as Hrun.
    rewrite Z2Nat.id in Hrun by lia.
    unfold after. rewrite Hrun. split; [reflexivity|].
    split; [apply orderedSys_closedSys | apply knownSymbols_closedSys]; assumption.
  - intros asset direction pattern Hin. destruct Hs as [Ho Hk].
    split; [apply ordered_openPosition; assumption|].
    destruct (openPosition_run s asset direction pattern)
      as [p (_ & He & _ & Hsym & _)].
    unfold knownSymbols. rewrite He.
    cbn [withPositions positions dataEngine].
    apply Forall_app_2; [exact Hk|]. apply Forall_cons_2; [|constructor].
    rewrite Hsym. apply getAsset_In, Hin.
Qed.

Lemma sound_system_never_throws_witness :
  soundSys sysTwoMoved /\ fst (updatePositions sysTwoMoved) = Returned tt.
Proof.
  assert (H : soundSys sysTwoMoved).
  { split; [split|]; vm_compute; repeat constructor; try discriminate; eauto. }
  split; [exact H|].
  apply (proj1 (proj1 (sound_system_never_throws sysTwoMoved H))).
Defined.

(** *** Winning and losing ticks *)

(** A price that jumps past the second tier books both tiers in one tick:
    for a single open position with ordered levels whose first tier is not
    hit, the tick marks the first tier, books [size * 0.5 * 0.005], moves
    the stop to the entry price, and closes the position for [TP2] with
    [size * 0.5 * 0.012]; the closed trade records the position as the tick
    left it. *)
Theorem tick_past_tp2_books_both_tiers (s : Sys) (position : Position.t)
    (asset : Asset.t) :
  positions (engine s) = [position] ->
  getAsset (Position.symbol position) (dataEngine (engine s)) = Some asset ->
  Position.tp1Hit position = false ->
  strictOrder position ->
  tp2Crossed position (Asset.price asset) = true ->
  fst (updatePositions s) = Returned tt /\
  positions (engine (after updatePositions s)) = [] /\
  riskManager (engine (after updatePositions s))
    = recordTrade (mul (mul (Position.size position) (Fin 0.5)) (Fin 0.012))
        (recordTrade (mul (mul (Position.size position) (Fin 0.5)) (Fin 0.005))
           (riskManager (engine s))) /\
  exists trade,
    closedTrades (engine (after updatePositions s)) = closedTrades (engine s) ++ [trade] /\
    ClosedTrade.closeReason trade = TP2 /\
    ClosedTrade.finalPnl trade
      = Some (mul (mul (Position.size position) (Fin 0.5)) (Fin 0.012)) /\
    Position.tp1Hit (ClosedTrade.position trade) = true /\
    Position.stopLoss (ClosedTrade.position trade) = Position.entryPrice position /\
    Position.pnl (ClosedTrade.position trade)
      = markToMarket position (Asset.price asset).
Proof.
  intros Hps Ha Hhit Hord H2.
  assert (Hl : positions (engine s) !! 0%nat = Some position)
    by (rewrite Hps; reflexivity).
  assert (Hfacts : tp1Crossed position (Asset.price asset) = true /\
                   (if isLong (Position.direction position)
                    then gt (Asset.price asset) (Position.entryPrice position)
                    else lt (Asset.price asset) (Position.entryPrice position)) = true).
  { unfold strictOrder in Hord. unfold tp2Crossed, tp1Crossed, ge, gt in *.
    destruct (Position.stopLoss position) as [sl|], (Position.entryPrice position) as [e|],
      (Position.tp1 position) as [t1|], (Position.tp2 position) as [t2|]; try tauto.
    destruct (Asset.price asset) as [c|];
      [|destruct (Position.direction position); discriminate H2].
    destruct (Position.direction position); cbn [isLong isShort andb orb le lt] in *;
      destruct Hord as (H0 & H1 & H3);
      rewrite ?orb_false_r in H2; q_bools; split; q_bools; lra. }
  destruct Hfacts as [H1 Hside].
  assert (Hb : tp1Booked position (Asset.price asset) = true)
    by (unfold tp1Booked; rewrite Hhit, H1; reflexivity).
  assert (Hm2 : tp2Crossed (markedPosition position (Asset.price asset))
                           (Asset.price asset) = true).
  { unfold markedPosition. rewrite Hb. exact H2. }
  assert (Hms : stopCrossed (markedPosition position (Asset.price asset))
                            (Asset.price asset) = false).
  { unfold markedPosition. rewrite Hb. unfold stopCrossed.
    cbn [Position.direction Position.stopLoss Position.withStopLoss
         Position.withTp1Hit Position.withPnl].
    destruct (Position.direction position); cbn [isLong isShort] in *.
    - rewrite andb_true_l, andb_false_l, orb_false_r. apply gt_not_le, Hside.
    - rewrite andb_true_l, andb_false_l, orb_false_l. unfold ge.
      apply gt_not_le. exact Hside. }
  assert (Hrun : updatePositions s =
    (Returned tt,
     closedSys (markedSys s 0 position (Asset.price asset)) 0
               (markedPosition position (Asset.price asset)) asset TP2)).
  { rewrite (updatePositions_single s position Hps).
    erewrite bind_returned by (apply updatePosition_tp2; eassumption).
    reflexivity. }
  unfold after. rewrite Hrun.
  cbn [fst snd closedSys markedSys engine positions riskManager closedTrades
       bookedPnl toNumber].
  rewrite Hps, Hb. unfold markedPosition. rewrite Hb.
  split; [reflexivity|]. split; [reflexivity|]. split; [reflexivity|].
  eexists. repeat split.
Qed.

Lemma tick_past_tp2_books_both_tiers_witness :
  positions (engine (after updatePositions
                       (after (setPrice "BTC" (Fin 65900)) sysLongOpen))) = [].
Proof.
  refine (proj1 (proj2 (tick_past_tp2_books_both_tiers
                          (after (setPrice "BTC" (Fin 65900)) sysLongOpen)
                          (positionAt 0 sysLongOpen)
                          (Asset.mk "BTC" "Bitcoin" (Fin 65900) (Fin 65000)) _ _ _ _ _)));
    vm_compute; try reflexivity.
  repeat split.
Defined.

Lemma stopCrossed_NaN position : stopCrossed position NaN = false.
Proof.
  unfold stopCrossed, ge. rewrite le_NaN_r. cbn [le].
  rewrite !andb_false_r. reflexivity.
Qed.

(** A stop never books a profit: when the tick closes a single open
    position of ordered levels, positive entry price and non-negative size
    for [SL], the booked P&L is at most zero; it is added to the balance,
    and no first-tier profit is booked on that tick. *)
Theorem stop_books_no_profit (s : Sys) (position : Position.t) (asset : Asset.t)
    (entry size : Q) :
  positions (engine s) = [position] ->
  getAsset (Position.symbol position) (dataEngine (engine s)) = Some asset ->
  breakevenOrder position ->
  Position.entryPrice position = Fin entry -> 0 < entry ->
  Position.size position = Fin size -> 0 <= size ->
  stopCrossed (markedPosition position (Asset.price asset)) (Asset.price asset) = true ->
  exists pnl,
    pnl <= 0 /\
    fst (updatePositions s) = Returned tt /\
    positions (engine (after updatePositions s)) = [] /\
    riskManager (engine (after updatePositions s))
      = recordTrade (Fin pnl) (riskManager (engine s)) /\
    exists trade,
      closedTrades (engine (after updatePositions s))
        = closedTrades (engine s) ++ [trade] /\
      ClosedTrade.closeReason trade = SL /\
      ClosedTrade.finalPnl trade = Some (Fin pnl).
Proof.
  intros Hps Ha Hord He Hepos Hz Hznn Hstop.
  assert (Hl : positions (engine s) !! 0%nat = Some position)
    by (rewrite Hps; reflexivity).
  pose proof (breakevenOrder_marked position (Asset.price asset) Hord) as Hm.
  pose proof (no_double_close _ (Asset.price asset) Hm) as Hnd.
  rewrite Hstop, andb_true_r in Hnd.
  assert (Hrun : updatePositions s =
    (Returned tt,
     closedSys (markedSys s 0 position (Asset.price asset)) 0
               (markedPosition position (Asset.price asset)) asset SL)).
  { rewrite (updatePositions_single s position Hps).
    erewrite bind_returned by (apply updatePosition_stop; eassumption).
    reflexivity. }
  assert (Hfacts : tp1Booked position (Asset.price asset) = false /\
                   exists pnl, pnl <= 0 /\
                     markToMarket position (Asset.price asset) = Fin pnl).
  { clear Hrun Hnd Hm.
    destruct (Asset.price asset) as [c|];
      [|rewrite stopCrossed_NaN in Hstop; discriminate Hstop].
    unfold markedPosition in Hstop.
    unfold breakevenOrder in Hord. unfold tp1Booked, tp1Crossed, ge in *.
    unfold markToMarket. rewrite He, Hz in *.
    unfold stopCrossed in Hstop. unfold ge in Hstop.
    destruct (Position.stopLoss position) as [sl|] eqn:Esl,
      (Position.tp1 position) as [t1|] eqn:Et1,
      (Position.tp2 position) as [t2|] eqn:Et2; try tauto.
    cbn [div sub mul].
    replace (Qeq_bool entry 0) with false by (symmetry; q_bools; lra).
    destruct (Position.direction position) eqn:Ed, (Position.tp1Hit position) eqn:Eh;
      cbn [negb andb isLong isShort le] in *; destruct Hord as (H0 & H1 & H3).
    - cbn in Hstop. rewrite ?Ed, ?Esl, ?He in Hstop. cbn in Hstop.
      rewrite orb_false_r in Hstop. q_bools.
      split; [reflexivity|]. eexists. split; [|reflexivity].
      assert ((c - entry) / entry <= 0) by (apply Qle_shift_div_r; lra). nra.
    - destruct (Qle_bool t1 c) eqn:Ec.
      + cbn in Hstop. rewrite ?Ed, ?Esl, ?He in Hstop. cbn in Hstop.
        rewrite orb_false_r in Hstop. q_bools. lra.
      + cbn in Hstop. rewrite ?Ed, ?Esl, ?He in Hstop. cbn in Hstop.
        rewrite orb_false_r in Hstop. q_bools.
        split; [reflexivity|]. eexists. split; [|reflexivity].
        assert ((c - entry) / entry <= 0) by (apply Qle_shift_div_r; lra). nra.
    - cbn in Hstop. rewrite ?Ed, ?Esl, ?He in Hstop. cbn in Hstop. q_bools.
      split; [reflexivity|]. eexists. split; [|reflexivity].
      assert ((entry - c) / entry <= 0) by (apply Qle_shift_div_r; lra). nra.
    - destruct (Qle_bool c t1) eqn:Ec.
      + cbn in Hstop. rewrite ?Ed, ?Esl, ?He in Hstop. cbn in Hstop. q_bools. lra.
      + cbn in Hstop. rewrite ?Ed, ?Esl, ?He in Hstop. cbn in Hstop. q_bools.
        split; [reflexivity|]. eexists. split; [|reflexivity].
        assert ((entry - c) / entry <= 0) by (apply Qle_shift_div_r; lra). nra. }
  destruct Hfacts as (Hb & pnl & Hpnl & Hmark).
  exists pnl. split; [exact Hpnl|].
  unfold after. rewrite Hrun.
  cbn [fst snd closedSys markedSys engine positions riskManager closedTrades
       bookedPnl toNumber].
  rewrite Hps, Hb. unfold markedPosition. rewrite Hb.
  assert (Hmm : markToMarket
                  (Position.withPnl (markToMarket position (Asset.price asset)) position)
                  (Asset.price asset) = Fin pnl) by exact Hmark.
  rewrite Hmm.
  split; [reflexivity|]. split; [reflexivity|]. split; [reflexivity|].
  eexists. repeat split.
Qed.

Lemma stop_books_no_profit_witness :
  exists pnl,
    pnl <= 0 /\
    riskManager (engine (after updatePositions
                           (after (setPrice "BTC" (Fin 64000)) sysLongOpen)))
      = recordTrade (Fin pnl) (riskManager (engine sysLongOpen)).
Proof.
  assert (Hord : breakevenOrder (positionAt 0 sysLongOpen))
    by (vm_compute; repeat split).
  assert (Hentry : 0 < 65000 + 65000 * 0.0005) by reflexivity.
  assert (Hsize : 0 <= 10000 * (0.5 / 100)) by (vm_compute; discriminate).
  destruct (stop_books_no_profit
              (after (setPrice "BTC" (Fin 64000)) sysLongOpen)
              (positionAt 0 sysLongOpen)
              (Asset.mk "BTC" "Bitcoin" (Fin 64000) (Fin 65000))
              (65000 + 65000 * 0.0005) (10000 * (0.5 / 100))
              ltac:(vm_compute; reflexivity) ltac:(vm_compute; reflexivity) Hord
              ltac:(vm_compute; reflexivity) Hentry
              ltac:(vm_compute; reflexivity) Hsize
              ltac:(vm_compute; reflexivity))
    as (pnl & Hpnl & _ & _ & Hrm & _).
  exists pnl. split; [exact Hpnl | exact Hrm].
Defined.

(** ** The analysis cycle: what it may change *)

Lemma triple_bind {A B} (P : Sys -> Prop) (m : M A) (Q : A -> Sys -> Prop)
    (k : A -> M B) (R : B -> Sys -> Prop) (E : Sys -> Prop) :
  triple P m Q E -> (forall a, triple (Q a) (k a) R E) -> triple P (m ≫= k) R E.
Proof.
  intros Hm Hk s HP. unfold mbind, M_bind.
  specialize (Hm s HP). destruct (m s) as [[a|ex] s'].
  - apply Hk, Hm.
  - exact Hm.
Qed.

Lemma triple_mret {A} (P : Sys -> Prop) (a : A) (Q : A -> Sys -> Prop) E :
  (forall s, P s -> Q a s) -> triple P (mret a) Q E.
Proof. intros H s HP. apply H, HP. Qed.

Lemma triple_weaken {A} (P P' : Sys -> Prop) (m : M A) (Q Q' : A -> Sys -> Prop)
    (E E' : Sys -> Prop) :
  triple P m Q E ->
  (forall s, P' s -> P s) -> (forall a s, Q a s -> Q' a s) ->
  (forall s, E s -> E' s) ->
  triple P' m Q' E'.
Proof.
  intros H HP HQ HE s Hs. specialize (H s (HP s Hs)).
  destruct (m s) as [[a|ex] s']; auto.
Qed.

Lemma triple_preserves {A} (P : Sys -> Prop) (m : M A) :
  preserves P m -> triple P m (fun _ => P) P.
Proof.
  intros H s HP. specialize (H s HP). destruct (m s) as [[a|ex] s']; exact H.
Qed.

Lemma preserves_triple {A} (P : Sys -> Prop) (m : M A) Q :
  triple P m Q P -> (forall a s, Q a s -> P s) -> preserves P m.
Proof.
  intros H HQ s HP. specialize (H s HP).
  destruct (m s) as [[a|ex] s']; cbn; eauto.
Qed.

Lemma preserves_getEngine (P : Sys -> Prop) : preserves P getEngine.
Proof. intros s H. exact H. Qed.

(** Methods that only read the world or write the analysis display keep
    the books. *)
Section Books.

Variable s0 : Sys.

Lemma books_world e w w' : sameBooks s0 (mkSys e w) -> sameBooks s0 (mkSys e w').
Proof. intros H. exact H. Qed.

Lemma books_mathRandom : preserves (sameBooks s0) mathRandom.
Proof. intros s H. exact H. Qed.

Lemma books_dateNow : preserves (sameBooks s0) dateNow.
Proof. intros s H. exact H. Qed.

Lemma books_getHours : preserves (sameBooks s0) getHours.
Proof. intros s H. exact H. Qed.

Lemma books_setLevel1 v : preserves (sameBooks s0) (setLevel1 v).
Proof. intros s H. exact H. Qed.

Lemma books_setLevel2 v : preserves (sameBooks s0) (setLevel2 v).
Proof. intros s H. exact H. Qed.

Lemma books_setLevel3 v : preserves (sameBooks s0) (setLevel3 v).
Proof. intros s H. exact H. Qed.

Lemma books_setLevel4 v : preserves (sameBooks s0) (setLevel4 v).
Proof. intros s H. exact H. Qed.

Lemma books_randomElement {A} (l : list A) : preserves (sameBooks s0) (randomElement l).
Proof.
  unfold randomElement. apply preserves_bind; [apply books_mathRandom|].
  intros r. apply preserves_mret.
Qed.

Lemma books_level1 asset : preserves (sameBooks s0) (level1SafetyGates asset).
Proof.
  unfold level1SafetyGates. apply preserves_bind; [apply preserves_getEngine|].
  intros e. repeat (apply preserves_if; [apply preserves_mret|]).
  apply preserves_mret.
Qed.

Lemma books_level2 asset : preserves (sameBooks s0) (level2StructuralAnalysis asset).
Proof.
  unfold level2StructuralAnalysis.
  apply preserves_bind; [apply preserves_getEngine|]. intros e.
  apply preserves_bind; [apply preserves_defined|]. intros history.
  apply preserves_bind; [apply books_randomElement|]. intros selectedPattern.
  apply preserves_bind; [apply books_mathRandom|]. intros alignmentScore.
  apply preserves_if; apply preserves_mret.
Qed.

Lemma books_level3 asset direction :
  preserves (sameBooks s0) (level3RiskAssessment asset direction).
Proof.
  unfold level3RiskAssessment.
  apply preserves_bind; [apply preserves_getEngine|]. intros e.
  apply preserves_if; [apply preserves_mret|].
  apply preserves_bind; [apply books_mathRandom|]. intros signalQuality.
  apply preserves_if; apply preserves_mret.
Qed.

Lemma books_level4 : preserves (sameBooks s0) level4SentimentCheck.
Proof.
  unfold level4SentimentCheck.
  apply preserves_bind; [apply preserves_getEngine|]. intros e.
  apply preserves_if; apply preserves_mret.
Qed.

Lemma books_checklist asset direction :
  preserves (sameBooks s0) (run23PointChecklist asset direction).
Proof.
  unfold run23PointChecklist.
  apply preserves_bind; [apply preserves_getEngine|]. intros e.
  apply preserves_bind; [apply books_mathRandom|]. intros r1.
  apply preserves_bind; [apply books_mathRandom|]. intros r2.
  apply preserves_bind; [apply books_mathRandom|]. intros r3.
  apply preserves_bind; [apply books_getHours|]. intros hour.
  apply preserves_mret.
Qed.

End Books.

Lemma triple_openPosition s0 asset direction pattern :
  triple (sameBooks s0) (openPosition asset direction pattern)
    (fun p s =>
       oneMorePosition s0 s p /\
       Position.symbol p = Asset.symbol asset /\
       Position.slot p = (length (positions (engine s0)) + 1)%nat /\
       Position.tp1Hit p = false)
    (sameBooks s0).
Proof.
  intros s (H1 & H2 & H3 & H4 & H5 & H6 & H7).
  destruct (openPosition_run s asset direction pattern)
    as [p (Hrun & He & Hslot & Hsym & _ & Hhit & _)].
  rewrite Hrun. unfold oneMorePosition. rewrite He.
  cbn [withPositions dataEngine riskManager positions closedTrades isRunning
       fearGreedIndex lastAnalysisTime].
  rewrite H3 in *. repeat split; assumption.
Qed.

Lemma checklist_passed_score asset direction s :
  match run23PointChecklist asset direction s with
  | (Returned r, _) =>
      ChecklistResult.passed r = (20 <=? ChecklistResult.score r)%nat
  | (Thrown _, _) => False
  end.
Proof.
  unfold run23PointChecklist, getHours, localHour, mathRandom, dateNow, getEngine.
  unfold mbind, M_bind, mret, M_ret. cbn [ChecklistResult.passed ChecklistResult.score].
  reflexivity.
Qed.

Lemma triple_checklist s0 asset direction :
  triple (sameBooks s0) (run23PointChecklist asset direction)
    (fun r s => sameBooks s0 s /\
                ChecklistResult.passed r = (20 <=? ChecklistResult.score r)%nat)
    (sameBooks s0).
Proof.
  intros s Hs.
  pose proof (books_checklist s0 asset direction s Hs) as Hb.
  pose proof (checklist_passed_score asset direction s) as Hp.
  destruct (run23PointChecklist asset direction s) as [[r|ex] s']; cbn in Hb;
    [split; assumption | contradiction].
Qed.

Tactic Notation "books_step" constr(lemma) "as" ident(x) :=
  eapply triple_bind; [apply triple_preserves, lemma | intros x].

(** The analysis of an instrument leaves the books alone unless it opens
    a position on that instrument. *)
Lemma triple_analyse s0 asset :
  triple (sameBooks s0) (analyse asset) (analysed s0 asset) (sameBooks s0).
Proof.
  assert (Hrej : forall n reason, (1 <= n <= 4)%nat ->
            triple (sameBooks s0)
                   (mret (RejectedAtLevel asset (LevelNumber n) reason))
                   (analysed s0 asset) (sameBooks s0)).
  { intros n reason Hn. apply triple_mret. intros s Hs. cbn.
    split; [reflexivity|]. split; [|exact Hs]. exists n. split; [reflexivity | exact Hn]. }
  unfold analyse.
  books_step (books_setLevel1 s0) as u. books_step (books_level1 s0) as level1.
  books_step (books_setLevel1 s0) as u1.
  destruct level1 as [[]|reason]; [|apply Hrej; lia].
  books_step (books_setLevel2 s0) as u2. books_step (books_level2 s0) as level2.
  books_step (books_setLevel2 s0) as u3.
  destruct level2 as [[direction pattern]|reason]; [|apply Hrej; lia].
  books_step (books_setLevel3 s0) as u4.
  books_step (books_level3 s0) as level3.
  books_step (books_setLevel3 s0) as u5.
  destruct level3 as [size|reason]; [|apply Hrej; lia].
  books_step (books_setLevel4 s0) as u6. books_step (books_level4 s0) as level4.
  books_step (books_setLevel4 s0) as u7.
  destruct level4 as [[]|reason]; [|apply Hrej; lia].
  eapply triple_bind; [apply triple_checklist|]. intros result.
  destruct (ChecklistResult.passed result) eqn:Hpassed; cbn [negb].
  - eapply triple_bind with
      (Q := fun p s =>
         (20 <= ChecklistResult.score result)%nat /\
         oneMorePosition s0 s p /\
         Position.symbol p = Asset.symbol asset /\
         Position.slot p = (length (positions (engine s0)) + 1)%nat /\
         Position.tp1Hit p = false).
    { intros s [Hs Hp]. rewrite Hpassed in Hp. symmetry in Hp. apply Nat.leb_le in Hp.
      pose proof (triple_openPosition s0 asset direction pattern s Hs) as Ho.
      destruct (openPosition asset direction pattern s) as [[p|ex] s']; [|exact Ho].
      split; [exact Hp | exact Ho]. }
    intros position.
    eapply triple_bind with
      (Q := fun e s =>
         e = engine s /\
         (20 <= ChecklistResult.score result)%nat /\
         oneMorePosition s0 s position /\
         Position.symbol position = Asset.symbol asset /\
         Position.slot position = (length (positions (engine s0)) + 1)%nat /\
         Position.tp1Hit position = false).
    { intros s H. split; [reflexivity | exact H]. }
    intros e.
    eapply triple_bind with
      (Q := fun _ s =>
         analysed s0 asset
           (AllPassed asset
              (Position.withChecklistScore (Some (ChecklistResult.score result))
                                           position)) s).
    { intros s (-> & Hscore & (H1 & H2 & H3 & H4 & H5 & H6 & H7) & Hsym & Hslot & Hhit).
      unfold storePosition, modifyEngine. cbn [analysed].
      split; [reflexivity|]. split; [|split; [exact Hsym|split; [exact Hslot|split;
        [exact Hhit | exists (ChecklistResult.score result); split;
                      [reflexivity | exact Hscore]]]]].
      unfold oneMorePosition.
      cbn [engine withPositions dataEngine riskManager positions closedTrades isRunning
           fearGreedIndex lastAnalysisTime].
      rewrite H3. rewrite length_app. cbn [length].
      replace (length (positions (engine s0)) + 1 - 1)%nat
        with (length (positions (engine s0)) + 0)%nat by lia.
      rewrite insert_app_r. cbn. repeat split; assumption. }
    intros _. apply triple_mret. intros s Hs. exact Hs.
  - apply triple_mret. intros s [Hs Hp]. cbn.
    rewrite Hpassed in Hp. symmetry in Hp. apply Nat.leb_gt in Hp.
    split; [reflexivity|]. split; [reflexivity|]. split; [exact Hp | exact Hs].
Qed.

Lemma randomElement_run {A} (l : list A) s :
  fst (randomElement l s)
  = Returned (floorIndex (mul (Fin (draws (world s) (drawsTaken (world s))))
                              (ofNat (length l)))
              ≫= (fun i => l !! i)).
Proof. reflexivity. Qed.

Lemma randomElement_In {A} (l : list A) s x :
  fst (randomElement l s) = Returned (Some x) -> In x l.
Proof.
  rewrite randomElement_run.
  destruct (floorIndex _) as [i|]; cbn [mbind option_bind]; intros H;
    [|discriminate H].
  assert (Hl : l !! i = Some x) by congruence.
  apply list_elem_of_In. eapply list_elem_of_lookup_2, Hl.
Qed.

Lemma triple_selectAsset s0 :
  triple (sameBooks s0) selectAsset
    (fun r s => sameBooks s0 s /\
                match r with Some a => freeAsset (engine s0) a | None => True end)
    (sameBooks s0).
Proof.
  intros s Hs. unfold selectAsset. rewrite bind_getEngine.
  pose proof Hs as (H1 & H2 & H3 & H4).
  rewrite H1, H3.
  set (available := List.filter _ (assets (dataEngine (engine s0)))).
  assert (Hfree : forall a, In a available -> freeAsset (engine s0) a).
  { intros a Ha. apply List.filter_In in Ha. destruct Ha as [Hin Hb].
    split; [exact Hin|]. apply negb_true_iff in Hb.
    apply List.Forall_forall. intros p Hp Heq.
    assert (Hex : existsb (fun pos => String.eqb (Position.symbol pos) (Asset.symbol a))
                          (positions (engine s0)) = true).
    { apply existsb_exists. exists p. split; [exact Hp|]. apply String.eqb_eq, Heq. }
    congruence. }
  assert (Hrand : match randomElement available s with
                  | (Returned r, s') =>
                      sameBooks s0 s' /\
                      match r with Some a => freeAsset (engine s0) a | None => True end
                  | (Thrown _, s') => sameBooks s0 s'
                  end).
  { pose proof (books_randomElement s0 available s Hs) as Hb.
    pose proof (randomElement_In available s) as Hin.
    destruct (randomElement available s) as [[[a|]|ex] s']; cbn in Hb, Hin.
    - split; [exact Hb|]. apply Hfree, Hin. reflexivity.
    - split; [exact Hb | exact I].
    - exact Hb. }
  destruct (length available =? 0)%nat.
  - cbn. split; [exact Hs | exact I].
  - destruct (length (positions (engine s0)) =? 1)%nat; exact Hrand.
Qed.

Lemma canTrade_true rm : fst (canTrade rm) = true -> canTrade rm = (true, rm).
Proof.
  unfold canTrade.
  destruct (negb (tradingEnabled rm)); [discriminate|].
  destruct (le (getDailyDrawdown rm) dailyLossLimit); [discriminate|].
  destruct (le (getMonthlyDrawdown rm) monthlyKillSwitch); [discriminate|].
  destruct (3 <=? consecutiveLosses rm)%nat; [discriminate | reflexivity].
Qed.

Lemma canTrade_snd rm :
  snd (canTrade rm) = rm \/ snd (canTrade rm) = disableTrading rm.
Proof.
  unfold canTrade.
  destruct (negb (tradingEnabled rm)); [auto|].
  destruct (le (getDailyDrawdown rm) dailyLossLimit); [auto|].
  destruct (le (getMonthlyDrawdown rm) monthlyKillSwitch); [auto|].
  destruct (3 <=? consecutiveLosses rm)%nat; auto.
Qed.

(** The part of the cycle after the preconditions. *)
Lemma cycle_tail s0 :
  triple (sameBooks s0)
    (selectAsset ≫= (fun asset =>
       match asset with
       | Some asset => analyse asset
       | None => mret NoResult
       end))
    (fun r s =>
       match r with
       | NoResult => sameBooks s0 s
       | AllPassed a _ => analysed s0 a r s /\ freeAsset (engine s0) a
       | _ => sameBooks s0 s
       end)
    (sameBooks s0).
Proof.
  eapply triple_bind; [apply triple_selectAsset|].
  intros [asset|].
  - intros s [Hs Hfree].
    pose proof (triple_analyse s0 asset s Hs) as Ha.
    destruct (analyse asset s) as [[r|ex] s']; [|exact Ha].
    destruct r as [|a level reason|a level reason score|a p]; cbn in Ha |- *.
    + contradiction.
    + apply Ha.
    + apply Ha.
    + destruct Ha as [-> Ha]. split; [split; [reflexivity | exact Ha] | exact Hfree].
  - apply triple_mret. intros s [Hs _]. exact Hs.
Qed.

Lemma gate_open (ps : list Position.t) :
  (length ps < maxPositions)%nat ->
  (length ps =? 1)%nat && negb (firstTp1Hit ps) = false ->
  ps = [] \/ firstTp1Hit ps = true.
Proof.
  unfold maxPositions. destruct ps as [|p0 [|p1 rest]]; cbn; intros Hlen Hgate.
  - left. reflexivity.
  - right. destruct (Position.tp1Hit p0); [reflexivity | discriminate Hgate].
  - lia.
Qed.

(** Everything a cycle may do to the engine, by its outcome. *)
Lemma cycle_facts (s : Sys) :
  (dataEngine (engine (after runAnalysisCycle s)) = dataEngine (engine s) /\
   closedTrades (engine (after runAnalysisCycle s)) = closedTrades (engine s) /\
   isRunning (engine (after runAnalysisCycle s)) = isRunning (engine s) /\
   fearGreedIndex (engine (after runAnalysisCycle s)) = fearGreedIndex (engine s) /\
   (riskManager (engine (after runAnalysisCycle s)) = riskManager (engine s) \/
    riskManager (engine (after runAnalysisCycle s))
      = disableTrading (riskManager (engine s)))) /\
  match fst (runAnalysisCycle s) with
  | Returned result => cycled s result (after runAnalysisCycle s)
  | Thrown _ => positions (engine (after runAnalysisCycle s)) = positions (engine s)
  end /\
  ((fst (runAnalysisCycle s) = Returned NoResult /\
    lastAnalysisTime (engine (after runAnalysisCycle s)) = lastAnalysisTime (engine s)) \/
   (lastAnalysisTime (engine (after runAnalysisCycle s))
      = clock (world s) (clockReads (world s)) /\
    (5000 <= clock (world s) (clockReads (world s)) - lastAnalysisTime (engine s))%Z)).
Proof.
  assert (Hearly : forall e w,
            dataEngine e = dataEngine (engine s) ->
            closedTrades e = closedTrades (engine s) ->
            isRunning e = isRunning (engine s) ->
            fearGreedIndex e = fearGreedIndex (engine s) ->
            (riskManager e = riskManager (engine s) \/
             riskManager e = disableTrading (riskManager (engine s))) ->
            positions e = positions (engine s) ->
            lastAnalysisTime e = lastAnalysisTime (engine s) ->
            runAnalysisCycle s = (Returned NoResult, mkSys e w) ->
            (dataEngine (engine (after runAnalysisCycle s)) = dataEngine (engine s) /\
             closedTrades (engine (after runAnalysisCycle s)) = closedTrades (engine s) /\
             isRunning (engine (after runAnalysisCycle s)) = isRunning (engine s) /\
             fearGreedIndex (engine (after runAnalysisCycle s)) = fearGreedIndex (engine s) /\
             (riskManager (engine (after runAnalysisCycle s)) = riskManager (engine s) \/
              riskManager (engine (after runAnalysisCycle s))
                = disableTrading (riskManager (engine s)))) /\
            match fst (runAnalysisCycle s) with
            | Returned result => cycled s result (after runAnalysisCycle s)
            | Thrown _ =>
                positions (engine (after runAnalysisCycle s)) = positions (engine s)
            end /\
            ((fst (runAnalysisCycle s) = Returned NoResult /\
              lastAnalysisTime (engine (after runAnalysisCycle s))
                = lastAnalysisTime (engine s)) \/
             (lastAnalysisTime (engine (after runAnalysisCycle s))
                = clock (world s) (clockReads (world s)) /\
              (5000 <= clock (world s) (clockReads (world s))
                       - lastAnalysisTime (engine s))%Z))).
  { intros e w H1 H2 H3 H4 H5 H6 H7 Hrun. unfold after. rewrite Hrun.
    cbn [fst snd engine cycled].
    split; [repeat split; assumption|]. split; [exact H6|]. left. split; [reflexivity | exact H7]. }
  destruct (isRunning (engine s)) eqn:Hrun.
  2:{ destruct s as [e w]. apply (Hearly e w); try reflexivity; try exact Hrun; [left; reflexivity|].
      unfold runAnalysisCycle. rewrite bind_getEngine. cbn [engine] in Hrun |- *.
      rewrite Hrun. reflexivity. }
  destruct (fst (canTrade (riskManager (engine s)))) eqn:Hcan.
  2:{ apply (Hearly (withRiskManager (snd (canTrade (riskManager (engine s)))) (engine s))
                    (world s)); try reflexivity; try exact Hrun; [apply canTrade_snd|].
      unfold runAnalysisCycle. rewrite bind_getEngine, Hrun. cbn [negb].
      rewrite (bind_returned _ _ _ _ _ (engineCanTrade_run s)), Hcan. reflexivity. }
  pose proof (canTrade_true _ Hcan) as Hct.
  assert (Hstart : runAnalysisCycle s =
            (if (maxPositions <=? length (positions (engine s)))%nat then mret NoResult
             else if (length (positions (engine s)) =? 1)%nat
                     && negb (firstTp1Hit (positions (engine s)))
             then mret NoResult
             else
               dateNow ≫= (fun now =>
                 if (now - lastAnalysisTime (engine s) <? 5000)%Z then mret NoResult
                 else
                   modifyEngine (withLastAnalysisTime now) ;;
                   modifyEngine (withChecklist (Some (Checklist.mk 0 23 []))) ;;
                   asset ← selectAsset;
                   match asset with
                   | None => mret NoResult
                   | Some asset => analyse asset
                   end))
              (mkSys (withRiskManager (riskManager (engine s)) (engine s)) (world s))).
  { unfold runAnalysisCycle. rewrite bind_getEngine, Hrun. cbn [negb].
    rewrite (bind_returned _ _ _ _ _ (engineCanTrade_run s)), Hcan. cbn [negb].
    rewrite Hct. cbn [snd]. rewrite bind_getEngine. reflexivity. }
  destruct (maxPositions <=? length (positions (engine s)))%nat eqn:Hmax.
  { apply (Hearly (withRiskManager (riskManager (engine s)) (engine s)) (world s));
      try reflexivity; try exact Hrun; [left; reflexivity | exact Hstart]. }
  destruct ((length (positions (engine s)) =? 1)%nat
            && negb (firstTp1Hit (positions (engine s)))) eqn:Hgate.
  { apply (Hearly (withRiskManager (riskManager (engine s)) (engine s)) (world s));
      try reflexivity; try exact Hrun; [left; reflexivity | exact Hstart]. }
  erewrite bind_returned in Hstart by reflexivity.
  cbn [engine lastAnalysisTime withRiskManager world] in Hstart.
  destruct (clock (world s) (clockReads (world s)) - lastAnalysisTime (engine s) <? 5000)%Z
    eqn:Hcad.
  { eapply (Hearly (withRiskManager (riskManager (engine s)) (engine s)));
      try reflexivity; try exact Hrun; [left; reflexivity | exact Hstart]. }
  apply Z.ltb_ge in Hcad. apply Nat.leb_gt in Hmax.
  rewrite !bind_modifyEngine in Hstart.
  match type of Hstart with
  | _ = (selectAsset ≫= ?k) ?st => set (tail := selectAsset ≫= k) in *; set (s2 := st) in *
  end.
  assert (Hs2 : sameBooks s2 s2) by (repeat split).
  pose proof (cycle_tail s2 s2 Hs2) as Ht. fold tail in Ht.
  unfold after. rewrite Hstart.
  destruct (tail s2) as [[result|ex] s'].
  - cbn [fst snd].
    assert (Hbooks : dataEngine (engine s') = dataEngine (engine s2) /\
                     riskManager (engine s') = riskManager (engine s2) /\
                     closedTrades (engine s') = closedTrades (engine s2) /\
                     isRunning (engine s') = isRunning (engine s2) /\
                     fearGreedIndex (engine s') = fearGreedIndex (engine s2) /\
                     lastAnalysisTime (engine s') = lastAnalysisTime (engine s2)).
    { destruct result as [|a level reason|a level reason score|a p];
        try (destruct Ht as (H1 & H2 & H3 & H4 & H5 & H6 & H7); auto 7).
      destruct Ht as [(_ & (H1 & H2 & H3 & H4 & H5 & H6 & H7) & _) _]. auto 7. }
    destruct Hbooks as (B1 & B2 & B3 & B4 & B5 & B6).
    rewrite B1, B2, B3, B4, B5, B6. subst s2.
    cbn [engine withChecklist withLastAnalysisTime withRiskManager dataEngine
         riskManager closedTrades isRunning fearGreedIndex positions lastAnalysisTime].
    split; [repeat split; [exact Hrun | left; reflexivity]|].
    split; [|right; split; [reflexivity | exact Hcad]].
    destruct result as [|a level reason|a level reason score|a p]; cbn [cycled].
    + apply Ht.
    + apply Ht.
    + apply Ht.
    + destruct Ht as [(_ & (H1 & H2 & H3 & H4) & Hsym & Hslot & Hhit & _) Hfree].
      split; [exact H3|]. split; [exact Hmax|].
      split; [apply gate_open; assumption|].
      split; [exact Hrun|]. split; [exact Hct|]. split; [exact Hfree|].
      split; [exact Hsym|]. split; [exact Hslot | exact Hhit].
  - cbn [fst snd]. destruct Ht as (H1 & H2 & H3 & H4 & H5 & H6 & H7).
    rewrite H1, H2, H3, H4, H5, H6, H7. subst s2.
    cbn [engine withChecklist withLastAnalysisTime withRiskManager dataEngine
         riskManager closedTrades isRunning fearGreedIndex positions lastAnalysisTime].
    split; [repeat split; [exact Hrun | left; reflexivity]|].
    split; [reflexivity|]. right. split; [reflexivity | exact Hcad].
Qed.

(** A cycle changes the books only by opening one position: it never
    touches the data engine, the closed trades, the balance, the baselines
    or the loss streak (the risk manager is left as it was or with the
    switch turned off by [canTrade()]); the open positions are as before
    unless the result is an approval, and then exactly one position was
    appended, on an instrument without an open position, while the engine
    was running, [canTrade()] was true, fewer than two positions were open
    and the only open position, if any, had hit its first tier. *)
Theorem cycle_only_opens_one_position (s : Sys) :
  dataEngine (engine (after runAnalysisCycle s)) = dataEngine (engine s) /\
  closedTrades (engine (after runAnalysisCycle s)) = closedTrades (engine s) /\
  isRunning (engine (after runAnalysisCycle s)) = isRunning (engine s) /\
  fearGreedIndex (engine (after runAnalysisCycle s)) = fearGreedIndex (engine s) /\
  (riskManager (engine (after runAnalysisCycle s)) = riskManager (engine s) \/
   riskManager (engine (after runAnalysisCycle s))
     = disableTrading (riskManager (engine s))) /\
  match fst (runAnalysisCycle s) with
  | Returned result => cycled s result (after runAnalysisCycle s)
  | Thrown _ => positions (engine (after runAnalysisCycle s)) = positions (engine s)
  end.
Proof.
  destruct (cycle_facts s) as ((H1 & H2 & H3 & H4 & H5) & H6 & _).
  repeat split; assumption.
Qed.

Lemma cycle_too_early (s : Sys) :
  (clock (world s) (clockReads (world s)) - lastAnalysisTime (engine s) < 5000)%Z ->
  fst (runAnalysisCycle s) = Returned NoResult.
Proof.
  intros Hearly.
  destruct (cycle_facts s) as (_ & _ & [[H _] | [_ H]]); [exact H | lia].
Qed.

(** Analyses are five seconds apart: a cycle that gets as far as selecting
    an instrument (every cycle that ends in a rejection, an approval or a
    [TypeError] does) stores its clock reading in [lastAnalysisTime], and a
    cycle run on the system it leaves behind resolves to [null] when its
    own clock reading is less than 5000 ms later. *)
Theorem analyses_are_five_seconds_apart (s : Sys) :
  fst (runAnalysisCycle s) <> Returned NoResult ->
  lastAnalysisTime (engine (after runAnalysisCycle s))
    = clock (world s) (clockReads (world s)) /\
  ((clock (world (after runAnalysisCycle s))
          (clockReads (world (after runAnalysisCycle s)))
    - clock (world s) (clockReads (world s)) < 5000)%Z ->
   fst (runAnalysisCycle (after runAnalysisCycle s)) = Returned NoResult).
Proof.
  intros Hres.
  destruct (cycle_facts s) as (_ & _ & [[H _] | [Hlast _]]); [contradiction|].
  split; [exact Hlast|].
  intros Hsoon. apply cycle_too_early. rewrite Hlast. exact Hsoon.
Qed.

Lemma analyses_are_five_seconds_apart_witness :
  fst (runAnalysisCycle quickSys) <> Returned NoResult /\
  fst (runAnalysisCycle (after runAnalysisCycle quickSys)) = Returned NoResult.
Proof.
  assert (H : fst (runAnalysisCycle quickSys) <> Returned NoResult)
    by (vm_compute; discriminate).
  split; [exact H|].
  apply (proj2 (analyses_are_five_seconds_apart quickSys H)).
  vm_compute. reflexivity.
Defined.

(** *** Reasons a cycle never gives *)

Lemma cycle_started (s : Sys) :
  fst (runAnalysisCycle s) <> Returned NoResult ->
  canTrade (riskManager (engine s)) = (true, riskManager (engine s)) /\
  runAnalysisCycle s =
    (selectAsset ≫= (fun asset =>
       match asset with
       | Some asset => analyse asset
       | None => mret NoResult
       end)) (startedSys s).
Proof.
  intros Hres. unfold runAnalysisCycle in *. rewrite bind_getEngine in *.
  destruct (isRunning (engine s)); cbn [negb] in *; [|contradiction Hres; reflexivity].
  rewrite (bind_returned _ _ _ _ _ (engineCanTrade_run s)) in *.
  destruct (fst (canTrade (riskManager (engine s)))) eqn:Hcan; cbn [negb] in *;
    [|contradiction Hres; reflexivity].
  pose proof (canTrade_true _ Hcan) as Hct. split; [exact Hct|].
  rewrite Hct in *. cbn [snd] in *. rewrite bind_getEngine in *.
  cbn [engine world withRiskManager positions lastAnalysisTime] in *.
  destruct (maxPositions <=? length (positions (engine s)))%nat;
    [contradiction Hres; reflexivity|].
  destruct ((length (positions (engine s)) =? 1)%nat
            && negb (firstTp1Hit (positions (engine s))));
    [contradiction Hres; reflexivity|].
  erewrite bind_returned in * by reflexivity.
  cbn [engine world withRiskManager positions lastAnalysisTime] in *.
  destruct (clock (world s) (clockReads (world s)) - lastAnalysisTime (engine s) <? 5000)%Z;
    [contradiction Hres; reflexivity|].
  rewrite !bind_modifyEngine. reflexivity.
Qed.

Lemma triple_any {A} (m : M A) :
  triple (fun _ => True) m (fun _ _ => True) (fun _ => True).
Proof. intros s _. destruct (m s) as [[a|ex] s']; exact I. Qed.

Lemma level1_reasons s asset :
  fst (canTrade (riskManager (engine s))) = true ->
  match fst (level1SafetyGates asset s) with
  | Returned (LevelFailed reason) => level1Reason reason
  | _ => True
  end.
Proof.
  intros Hcan. unfold level1SafetyGates. rewrite bind_getEngine.
  unfold canTrade in Hcan.
  destruct (negb (tradingEnabled (riskManager (engine s)))); [discriminate Hcan|].
  destruct (le (getDailyDrawdown (riskManager (engine s))) dailyLossLimit);
    [discriminate Hcan|].
  destruct (le (getMonthlyDrawdown (riskManager (engine s))) monthlyKillSwitch);
    [discriminate Hcan|].
  destruct (3 <=? consecutiveLosses (riskManager (engine s)))%nat; [discriminate Hcan|].
  unfold level1Reason.
  destruct (lt _ (Fin 30) || gt _ (Fin 70)); [cbn; auto|].
  destruct (lt _ _); [cbn; auto|].
  destruct (le _ maxDrawdownAlert); cbn; auto.
Qed.

Lemma analyse_level1_reasons s0 asset :
  fst (canTrade (riskManager (engine s0))) = true ->
  triple (sameBooks s0) (analyse asset)
    (fun r _ => forall a reason,
       r = RejectedAtLevel a (LevelNumber 1) reason -> level1Reason reason)
    (fun _ => True).
Proof.
  intros Hcan. unfold analyse.
  eapply triple_bind with (Q := fun _ => sameBooks s0).
  { eapply triple_weaken; [apply triple_preserves, (books_setLevel1 s0) | auto ..]. }
  intros u.
  eapply triple_bind with
    (Q := fun l1 _ => match l1 with
                      | LevelFailed reason => level1Reason reason
                      | LevelPassed _ => True
                      end).
  { intros s (_ & Hrm & _).
    pose proof (level1_reasons s asset) as H. rewrite Hrm in H. specialize (H Hcan).
    destruct (level1SafetyGates asset s) as [[[[]|reason]|ex] s']; cbn in H |- *; auto. }
  intros level1.
  eapply triple_bind with (Q := fun _ _ => match level1 with
                      | LevelFailed reason => level1Reason reason
                      | LevelPassed _ => True
                      end).
  { intros s H. exact H. }
  intros u1. destruct level1 as [[]|reason].
  2:{ apply triple_mret. intros s H a r Heq. injection Heq as _ <-. exact H. }
  assert (Hother : forall r : CycleResult,
            (forall a reason, r <> RejectedAtLevel a (LevelNumber 1) reason) ->
            triple (fun _ => True) (mret r)
              (fun r _ => forall a reason,
                 r = RejectedAtLevel a (LevelNumber 1) reason -> level1Reason reason)
              (fun _ => True)).
  { intros r Hr. apply triple_mret. intros s _ a reason Heq. destruct (Hr a reason Heq). }
  eapply triple_bind; [apply triple_any|]. intros u2.
  eapply triple_bind; [apply triple_any|]. intros level2.
  eapply triple_bind; [apply triple_any|]. intros u3.
  destruct level2 as [[direction pattern]|reason]; [|apply Hother; discriminate].
  eapply triple_bind; [apply triple_any|]. intros u4.
  eapply triple_bind; [apply triple_any|]. intros level3.
  eapply triple_bind; [apply triple_any|]. intros u5.
  destruct level3 as [size|reason]; [|apply Hother; discriminate].
  eapply triple_bind; [apply triple_any|]. intros u6.
  eapply triple_bind; [apply triple_any|]. intros level4.
  eapply triple_bind; [apply triple_any|]. intros u7.
  destruct level4 as [[]|reason]; [|apply Hother; discriminate].
  eapply triple_bind; [apply triple_any|]. intros result.
  destruct (negb (ChecklistResult.passed result)); [apply Hother; discriminate|].
  eapply triple_bind; [apply triple_any|]. intros position.
  eapply triple_bind; [apply triple_any|]. intros e.
  eapply triple_bind; [apply triple_any|]. intros u8.
  apply Hother; discriminate.
Qed.

(** A cycle never rejects at level 1 for the loss streak or for the daily
    loss limit: [canTrade()] has answered false on both before the levels
    run, so a level-1 rejection of a cycle is for the RSI, the volume or
    the drawdown alert. *)
Theorem cycle_level1_rejection_reasons (s : Sys) (asset : Asset.t) (reason : string) :
  fst (runAnalysisCycle s) = Returned (RejectedAtLevel asset (LevelNumber 1) reason) ->
  reason = "RSI outside safe range" \/
  reason = "Insufficient volume" \/
  reason = "Max drawdown alert triggered".
Proof.
  intros Hres.
  destruct (cycle_started s) as [Hct Hrun]; [rewrite Hres; discriminate|].
  rewrite Hrun in Hres.
  assert (Hcan : fst (canTrade (riskManager (engine (startedSys s)))) = true)
    by (cbn; rewrite Hct; reflexivity).
  assert (Ht : triple (sameBooks (startedSys s))
                 (selectAsset ≫= (fun asset =>
                    match asset with
                    | Some asset => analyse asset
                    | None => mret NoResult
                    end))
                 (fun r _ => forall a reason,
                    r = RejectedAtLevel a (LevelNumber 1) reason -> level1Reason reason)
                 (fun _ => True)).
  { eapply triple_bind with (Q := fun _ => sameBooks (startedSys s)).
    - eapply triple_weaken;
        [apply triple_selectAsset | intros st H; exact H
         | intros a st H; exact (proj1 H) | intros st _; exact I].
    - intros [a|]; [apply analyse_level1_reasons, Hcan|].
      apply triple_mret. intros st _ a0 r Heq. discriminate Heq. }
  specialize (Ht (startedSys s) ltac:(repeat split)).
  destruct ((selectAsset ≫= _) (startedSys s)) as [[r|ex] s']; cbn in Hres;
    [|discriminate Hres].
  injection Hres as ->. exact (Ht asset reason eq_refl).
Qed.

Lemma cycle_level1_rejection_reasons_witness :
  fst (runAnalysisCycle overboughtSys)
    = Returned (RejectedAtLevel (Asset.mk "ETH" "Ethereum" (Fin 3200) (Fin 3200))
                                (LevelNumber 1) "RSI outside safe range") /\
  ("RSI outside safe range" = "RSI outside safe range" \/
   "RSI outside safe range" = "Insufficient volume" \/
   "RSI outside safe range" = "Max drawdown alert triggered").
Proof.
  assert (H : fst (runAnalysisCycle overboughtSys)
    = Returned (RejectedAtLevel (Asset.mk "ETH" "Ethereum" (Fin 3200) (Fin 3200))
                                (LevelNumber 1) "RSI outside safe range"))
    by (vm_compute; reflexivity).
  split; [exact H|].
  exact (cycle_level1_rejection_reasons overboughtSys _ _ H).
Defined.

(** ** The checklist *)

Lemma tallied_addCheck lo hi len name ok acc :
  tallied lo hi len acc -> tallied lo (S hi) (S len) (addCheck name ok acc).
Proof.
  intros (Hb & Hl & Hc). unfold tallied, addCheck. cbn [fst snd].
  rewrite length_app, List.filter_app, length_app. cbn [length List.filter Check.passed].
  destruct ok; cbn [length]; repeat split; lia.
Qed.

Lemma tallied_addCheck_true lo hi len name acc :
  tallied lo hi len acc -> tallied (S lo) (S hi) (S len) (addCheck name true acc).
Proof.
  intros (Hb & Hl & Hc). unfold tallied, addCheck. cbn [fst snd].
  rewrite length_app, List.filter_app, length_app. cbn [length List.filter Check.passed].
  repeat split; lia.
Qed.

Lemma tallied_weaken lo hi lo' hi' len acc :
  (lo' <= lo)%nat -> (hi <= hi')%nat ->
  tallied lo hi len acc -> tallied lo' hi' len acc.
Proof. intros H1 H2 (Hb & Hl & Hc). repeat split; try assumption; lia. Qed.

Lemma tallied_timeframes lo hi len (four : bool) acc :
  tallied lo hi len acc ->
  tallied (S (S lo)) (S (S (S (S hi)))) (S (S (S (S len))))
          (timeframeChecks (if four then 4%nat else 2%nat) acc).
Proof.
  intros H. unfold timeframeChecks. cbn [seq fold_left].
  destruct four; cbn [Nat.ltb Nat.leb].
  - apply (tallied_weaken (S (S (S (S lo)))) (S (S (S (S hi))))); [lia | lia |].
    do 4 apply tallied_addCheck_true. exact H.
  - do 2 apply tallied_addCheck. do 2 apply tallied_addCheck_true. exact H.
Qed.

(** The checklist never throws and leaves the engine alone; its result
    lists 23 checks, the score is the number of checks that passed, it is
    between 10 and 23, and the result passes exactly when the score is at
    least 20. *)
Theorem checklist_score_counts_passed_checks (asset : Asset.t) (direction : Direction)
    (s : Sys) :
  exists result,
    fst (run23PointChecklist asset direction s) = Returned result /\
    engine (after (run23PointChecklist asset direction) s) = engine s /\
    length (ChecklistResult.checks result) = 23%nat /\
    ChecklistResult.score result
      = length (List.filter Check.passed (ChecklistResult.checks result)) /\
    (10 <= ChecklistResult.score result <= 23)%nat /\
    ChecklistResult.passed result = (20 <=? ChecklistResult.score result)%nat.
Proof.
  unfold after, run23PointChecklist, getHours, localHour, mathRandom, dateNow, getEngine.
  unfold mbind, M_bind, mret, M_ret. cbn [fst snd engine world].
  eexists. split; [reflexivity|]. split; [reflexivity|].
  cbn [ChecklistResult.checks ChecklistResult.score ChecklistResult.passed].
  match goal with
  | |- length (snd ?acc) = _ /\ _ =>
      assert (Ht : tallied 10 23 23 acc)
  end.
  { repeat first
      [ match goal with
        | |- tallied _ _ _ (addCheck _ true _) => apply tallied_addCheck_true
        end
      | match goal with
        | |- tallied _ _ _ (timeframeChecks _ _) => apply tallied_timeframes
        end
      | match goal with
        | |- tallied _ _ _ (addCheck _ _ _) => apply tallied_addCheck
        end ].
    repeat split; cbn; lia. }
  destruct Ht as (Hb & Hl & Hc). repeat split; try assumption; lia.
Qed.

(** ** Selecting an instrument *)

Lemma floorIndex_in_range (r : Q) (n : nat) :
  0 <= r -> r < 1 -> (0 < n)%nat ->
  exists i, floorIndex (mul (Fin r) (ofNat n)) = Some i /\ (i < n)%nat.
Proof.
  intros H0 H1 Hn. unfold ofNat. cbn [mul floorIndex].
  set (N := inject_Z (Z.of_nat n)).
  assert (HN : 0 < N) by (apply period_positive, Hn).
  assert (Hlo : (0 <= Qfloor (r * N))%Z).
  { change 0%Z with (Qfloor (inject_Z 0)) at 1 || rewrite <- (Qfloor_Z 0).
    apply Qfloor_resp_le. change (inject_Z 0) with 0. nra. }
  assert (Hhi : (Qfloor (r * N) < Z.of_nat n)%Z).
  { rewrite Zlt_Qlt. apply Qle_lt_trans with (r * N); [apply Qfloor_le|].
    fold N. nra. }
  replace (Qfloor (r * N) <? 0)%Z with false by (symmetry; apply Z.ltb_ge; exact Hlo).
  eexists. split; [reflexivity|]. lia.
Qed.

(** [selectAsset()] never throws and never changes the engine; what it
    returns is an instrument of the engine no open position is on; it
    returns [null] without drawing when every instrument has an open
    position, and for a draw in [0,1) it finds an instrument whenever one
    is free, however many positions are open. *)
Theorem selectAsset_picks_a_free_instrument (s : Sys) :
  (exists r, fst (selectAsset s) = Returned r) /\
  engine (after selectAsset s) = engine s /\
  (forall asset,
     fst (selectAsset s) = Returned (Some asset) -> freeAsset (engine s) asset) /\
  ((forall asset, In asset (assets (dataEngine (engine s))) ->
      exists p, In p (positions (engine s)) /\
                Position.symbol p = Asset.symbol asset) ->
   selectAsset s = (Returned None, s)) /\
  (0 <= draws (world s) (drawsTaken (world s)) < 1 ->
   forall asset, freeAsset (engine s) asset ->
   exists chosen, fst (selectAsset s) = Returned (Some chosen)).
Proof.
  assert (Hshape : forall available,
            (if (length available =? 0)%nat then mret None
             else if (length (positions (engine s)) =? 1)%nat
                  then randomElement available
                  else randomElement available) s
            = (if (length available =? 0)%nat then mret None
               else randomElement (A:=Asset.t) available) s).
  { intros available. destruct (length available =? 0)%nat; [reflexivity|].
    destruct (length (positions (engine s)) =? 1)%nat; reflexivity. }
  unfold after, selectAsset. rewrite bind_getEngine, Hshape.
  set (available := List.filter _ (assets (dataEngine (engine s)))).
  assert (Havail : forall a, In a available <-> freeAsset (engine s) a).
  { intros a. unfold available, freeAsset. rewrite List.filter_In, negb_true_iff.
    rewrite <- not_true_iff_false, existsb_exists, List.Forall_forall.
    split.
    - intros [Hin Hn]. split; [exact Hin|]. intros p Hp Heq. apply Hn.
      exists p. split; [exact Hp | apply String.eqb_eq, Heq].
    - intros [Hin Hf]. split; [exact Hin|]. intros [p [Hp Heq]].
      apply String.eqb_eq in Heq. exact (Hf p Hp Heq). }
  split; [|split; [|split; [|split]]].
  - destruct (length available =? 0)%nat; eexists; reflexivity.
  - destruct (length available =? 0)%nat; reflexivity.
  - intros asset Hres. apply Havail.
    destruct (length available =? 0)%nat; [discriminate Hres|].
    eapply randomElement_In, Hres.
  - intros Hall.
    assert (Hnil : available = []).
    { clearbody available. destruct available as [|a rest]; [reflexivity|]. exfalso.
      assert (Ha : In a (a :: rest)) by (left; reflexivity).
      apply Havail in Ha. destruct Ha as [Hin Hf].
      destruct (Hall a Hin) as [p [Hp Heq]].
      rewrite List.Forall_forall in Hf. exact (Hf p Hp Heq). }
    rewrite Hnil. reflexivity.
  - intros [H0 H1] asset Hfree. apply Havail in Hfree.
    assert (Hlen : (0 < length available)%nat).
    { clearbody available. destruct available; [contradiction | cbn; lia]. }
    replace (length available =? 0)%nat with false
      by (symmetry; apply Nat.eqb_neq; lia).
    rewrite randomElement_run.
    destruct (floorIndex_in_range _ (length available) H0 H1 Hlen) as [i [Hi Hlt]].
    rewrite Hi. cbn [mbind option_bind].
    destruct (lookup_lt_is_Some_2 available i Hlt) as [chosen Hc].
    exists chosen. rewrite Hc. reflexivity.
Qed.

Lemma selectAsset_picks_a_free_instrument_witness :
  exists chosen, fst (selectAsset sysTwoMoved) = Returned (Some chosen).
Proof.
  refine (proj2 (proj2 (proj2 (proj2 (selectAsset_picks_a_free_instrument sysTwoMoved))))
            _ (Asset.mk "SOL" "Solana" (Fin 150) (Fin 150)) _).
  - vm_compute. split; [discriminate | reflexivity].
  - split.
    + right. right. left. reflexivity.
    + vm_compute. repeat constructor; discriminate.
Defined.

(** ** Market sentiment *)

(** The fear-and-greed index stays in range: from a finite index
    [updateMarketSentiment()] leaves an index between 0 and 100 and changes
    nothing else of the engine; from an index in range and for a draw in
    [0,1] it moves the index by at most 2.5. *)
Theorem sentiment_stays_in_range (s : Sys) (f : Q) :
  fearGreedIndex (engine s) = Fin f ->
  exists f',
    fst (updateMarketSentiment s) = Returned tt /\
    engine (after updateMarketSentiment s) = withFearGreedIndex (Fin f') (engine s) /\
    0 <= f' <= 100 /\
    (0 <= f <= 100 -> 0 <= draws (world s) (drawsTaken (world s)) <= 1 ->
     - (5 # 2) <= f' - f <= 5 # 2).
Proof.
  intros Hf. unfold after, updateMarketSentiment, mathRandom, modifyEngine.
  unfold mbind, M_bind. cbn [fst snd engine world]. rewrite Hf.
  cbn [sub mul add min max].
  set (r := draws (world s) (drawsTaken (world s))).
  destruct (Qle_bool 100 (f + (r - 0.5) * 5)) eqn:Hhi; cbn [max].
  - replace (Qle_bool 0 100) with true by reflexivity.
    eexists. split; [reflexivity|]. split; [reflexivity|]. q_bools. split; lra.
  - destruct (Qle_bool 0 (f + (r - 0.5) * 5)) eqn:Hlo.
    + eexists. split; [reflexivity|]. split; [reflexivity|]. q_bools. split; lra.
    + eexists. split; [reflexivity|]. split; [reflexivity|]. q_bools. split; lra.
Qed.

Lemma sentiment_stays_in_range_witness :
  exists f',
    engine (after updateMarketSentiment sampleSys)
      = withFearGreedIndex (Fin f') (engine sampleSys) /\ 0 <= f' <= 100.
Proof.
  destruct (sentiment_stays_in_range sampleSys 50 eq_refl) as (f' & _ & He & Hr & _).
  exists f'. split; assumption.
Defined.

(** ** At most two open positions *)

(** No method but [openPosition] itself adds a position, and the cycle
    calls it only below the limit: from at most two open positions, a
    cycle, a tick and a manual close each leave at most two. *)
Theorem never_more_than_two_positions (s : Sys) :
  (length (positions (engine s)) <= maxPositions)%nat ->
  (length (positions (engine (after runAnalysisCycle s))) <= maxPositions)%nat /\
  (length (positions (engine (after updatePositions s))) <= maxPositions)%nat /\
  (forall slotIndex,
     (length (positions (engine (after (manualClosePosition slotIndex) s)))
      <= maxPositions)%nat).
Proof.
  intros Hle. split; [|split].
  - destruct (cycle_facts s) as (_ & Hc & _).
    destruct (fst (runAnalysisCycle s)) as [[|a l r|a l r sc|a p]|ex]; cbn [cycled] in Hc;
      try (rewrite Hc; exact Hle).
    destruct Hc as (Hp & Hlt & _). rewrite Hp, length_app. cbn [length]. lia.
  - destruct (accounted_updatePositions s) as (_ & _ & _ & H). lia.
  - intros slotIndex. unfold after, manualClosePosition. rewrite bind_getEngine.
    destruct ((0 <=? slotIndex)%Z && _); [|exact Hle].
    pose proof (accounted_closePosition s (Z.to_nat slotIndex) MANUAL s (accounted_refl s))
      as (_ & _ & _ & H).
    lia.
Qed.

Lemma never_more_than_two_positions_witness :
  (length (positions (engine sysTwoMoved)) <= maxPositions)%nat /\
  (length (positions (engine (after runAnalysisCycle sysTwoMoved))) <= maxPositions)%nat.
Proof.
  assert (H : (length (positions (engine sysTwoMoved)) <= maxPositions)%nat)
    by (vm_compute; lia).
  split; [exact H|].
  apply (proj1 (never_more_than_two_positions sysTwoMoved H)).
Defined.

(** ** The price feed *)

Lemma fold_add_closes (candles : list Candle.t) : forall (closes : list Q) (a : Q),
  Candle.close <$> candles = Fin <$> closes ->
  exists total,
    fold_left (fun sum candle => add sum (Candle.close candle)) candles (Fin a)
      = Fin total /\
    total == a + sumQ closes.
Proof.
  induction candles as [|c candles IH]; intros closes a Hc.
  - destruct closes; [|discriminate Hc]. exists a. split; [reflexivity|].
    change (sumQ []) with 0. lra.
  - destruct closes as [|q closes]; [discriminate Hc|].
    cbn in Hc. injection Hc as Hq Hrest.
    cbn [fold_left]. rewrite Hq. cbn [add].
    destruct (IH closes (a + q) Hrest) as (total & Hf & Ht).
    exists total. split; [exact Hf|].
    change (sumQ (q :: closes)) with (q + sumQ closes). lra.
Qed.

Lemma sumQ_bounds lo hi (l : list Q) :
  Forall (fun c => lo <= c <= hi) l ->
  inject_Z (Z.of_nat (length l)) * lo <= sumQ l <= inject_Z (Z.of_nat (length l)) * hi.
Proof.
  induction 1 as [|c l Hc _ IH].
  - change (sumQ []) with 0. change (inject_Z (Z.of_nat (length (@nil Q)))) with 0. lra.
  - change (sumQ (c :: l)) with (c + sumQ l).
    cbn [length]. rewrite Nat2Z.inj_succ. unfold Z.succ. rewrite inject_Z_plus.
    change (inject_Z 1) with 1. lra.
Qed.

(** The moving average: on an empty history [calculateMA] throws (it reads
    [close] of [history[-1]]); on a history shorter than the period it
    returns the last close; otherwise it returns the mean of the last
    [period] closes, which lies within any bounds the closes lie within. *)
Theorem moving_average_is_a_mean (history : list Candle.t) (closes : list Q)
    (period : nat) :
  Candle.close <$> history = Fin <$> closes ->
  (0 < period)%nat ->
  (history = [] -> calculateMA history period = None) /\
  (forall q, (length history < period)%nat -> last closes = Some q ->
     calculateMA history period = Some (Fin q)) /\
  ((period <= length history)%nat ->
     exists m,
       calculateMA history period = Some (Fin m) /\
       m == sumQ (sliceLast period closes) / inject_Z (Z.of_nat period) /\
       forall lo hi, Forall (fun c => lo <= c <= hi) closes -> lo <= m <= hi).
Proof.
  intros Hc Hp.
  assert (Hn : length history = length closes).
  { rewrite <- (length_fmap Candle.close history), Hc. apply length_fmap. }
  split; [|split].
  - intros ->. unfold calculateMA. cbn [length].
    replace (0 <? period)%nat with true by (symmetry; apply Nat.ltb_lt; exact Hp).
    reflexivity.
  - intros q Hlt Hlast. unfold calculateMA.
    replace (length history <? period)%nat with true
      by (symmetry; apply Nat.ltb_lt; exact Hlt).
    assert (Hl : last (Candle.close <$> history) = Some (Fin q))
      by (rewrite Hc, fmap_last, Hlast; reflexivity).
    rewrite fmap_last in Hl. exact Hl.
  - intros Hge. unfold calculateMA.
    replace (length history <? period)%nat with false
      by (symmetry; apply Nat.ltb_ge; exact Hge).
    assert (Hslice : Candle.close <$> sliceLast period history
                     = Fin <$> sliceLast period closes).
    { unfold sliceLast. rewrite !fmap_drop, Hc, Hn. reflexivity. }
    destruct (fold_add_closes _ _ 0 Hslice) as (total & Hf & Ht).
    unfold sumCloses. rewrite Hf. unfold ofNat. cbn [div].
    pose proof (period_positive period Hp) as HP.
    replace (Qeq_bool (inject_Z (Z.of_nat period)) 0) with false
      by (symmetry; q_bools; lra).
    eexists. split; [reflexivity|]. split.
    + rewrite Ht. field. lra.
    + intros lo hi Hb.
      assert (Hb' : Forall (fun c => lo <= c <= hi) (sliceLast period closes)).
      { unfold sliceLast. apply Forall_drop, Hb. }
      pose proof (sumQ_bounds lo hi _ Hb') as Hs.
      assert (Hlen : length (sliceLast period closes) = period).
      { unfold sliceLast. rewrite length_drop. lia. }
      rewrite Hlen in Hs.
      split.
      * apply Qle_shift_div_l; [exact HP|]. lra.
      * apply Qle_shift_div_r; [exact HP|]. lra.
Qed.

Lemma moving_average_is_a_mean_witness :
  exists m, calculateMA mixedHistory 9 = Some (Fin m) /\ 100 <= m <= 112.
Proof.
  destruct (proj2 (proj2 (moving_average_is_a_mean mixedHistory mixedCloses 9
                            eq_refl ltac:(lia))))
    as (m & Hm & _ & Hb); [vm_compute; lia|].
  exists m. split; [exact Hm|]. apply Hb.
  vm_compute. repeat constructor; discriminate.
Defined.

(** A new candle respects the floor: for an instrument with finite price
    and base price, [generateCandle] moves the price to a value that is at
    least 70% of the base price, closes the candle at that price and leaves
    the engine alone; for draws in [0,1] and a non-negative base price the
    low and the high of the candle enclose the close and the volume is
    between 500000 and 1500000. *)
Theorem candle_respects_the_floor (asset : Asset.t) (s : Sys) (p b : Q) :
  Asset.price asset = Fin p ->
  Asset.basePrice asset = Fin b ->
  exists candle p',
    fst (generateCandle asset s) = Returned (Asset.withPrice (Fin p') asset, candle) /\
    engine (after (generateCandle asset) s) = engine s /\
    b * 0.7 <= p' /\
    Candle.close candle = Fin p' /\
    ((forall k, 0 <= draws (world s) k <= 1) -> 0 <= b ->
     exists l h v,
       Candle.low candle = Fin l /\ Candle.high candle = Fin h /\
       Candle.volume candle = Fin v /\
       l <= p' <= h /\ 500000 <= v <= 1500000).
Proof.
  intros Hp Hb. unfold after, generateCandle, mathRandom, dateNow.
  unfold mbind, M_bind, mret, M_ret. cbn [fst snd engine world drawsTaken draws].
  rewrite Hp, Hb. cbn [mul sub add max].
  set (r1 := draws (world s) (drawsTaken (world s))).
  set (r2 := draws (world s) (S (drawsTaken (world s)))).
  set (r3 := draws (world s) (S (S (drawsTaken (world s))))).
  set (r4 := draws (world s) (S (S (S (drawsTaken (world s)))))).
  set (r5 := draws (world s) (S (S (S (S (drawsTaken (world s))))))).
  set (moved := p + ((r1 - 0.48) * (p * 0.002) + (r2 - 0.5) * (p * 0.002))).
  destruct (Qle_bool moved (b * 0.7)) eqn:Hfloor; cbn [mul sub add];
    eexists _, _; (split; [reflexivity|]); (split; [reflexivity|]);
    (split; [q_bools; lra|]); (split; [reflexivity|]);
    intros Hd Hb0; cbn [Candle.low Candle.high Candle.volume];
    eexists _, _, _; (split; [reflexivity|]); (split; [reflexivity|]);
    (split; [reflexivity|]);
    pose proof (Hd (S (S (drawsTaken (world s))))) as H3;
    pose proof (Hd (S (S (S (drawsTaken (world s)))))) as H4;
    pose proof (Hd (S (S (S (S (drawsTaken (world s))))))) as H5;
    fold r3 in H3; fold r4 in H4; fold r5 in H5; q_bools.
  - split; [split; nra | lra].
  - split; [split; nra | lra].
Qed.

Lemma candle_respects_the_floor_witness :
  exists candle p',
    fst (generateCandle bitcoin sampleSys)
      = Returned (Asset.withPrice (Fin p') bitcoin, candle) /\
    65000 * 0.7 <= p'.
Proof.
  destruct (candle_respects_the_floor bitcoin sampleSys 65000 65000 eq_refl eq_refl)
    as (candle & p' & Hrun & _ & Hfloor & _).
  exists candle, p'. split; assumption.
Defined.

(** *** What [updatePrices] keeps *)

Lemma generateCandle_result (asset : Asset.t) (s : Sys) :
  exists moved candle w',
    generateCandle asset s = (Returned (moved, candle), mkSys (engine s) w') /\
    Asset.symbol moved = Asset.symbol asset /\
    (flooredAsset asset -> flooredAsset moved).
Proof.
  unfold generateCandle, mathRandom, dateNow.
  unfold mbind, M_bind, mret, M_ret. cbn [fst snd engine world].
  eexists _, _, _. split; [reflexivity|]. split; [reflexivity|].
  unfold flooredAsset. cbn [Asset.price Asset.basePrice Asset.withPrice].
  destruct (Asset.price asset) as [p|], (Asset.basePrice asset) as [b|]; try tauto.
  cbn [mul sub add max]. intros [Hb Hp].
  destruct (Qle_bool _ (b * 0.7)) eqn:Hfloor; q_bools; split; lra.
Qed.

Lemma generateCandleAt_run (index : nat) (asset : Asset.t) (s : Sys) :
  exists moved candle w',
    generateCandleAt index asset s
      = (Returned candle,
         mkSys (withDataEngine
                  (withAssets (<[index := moved]> (assets (dataEngine (engine s))))
                              (dataEngine (engine s)))
                  (engine s)) w') /\
    Asset.symbol moved = Asset.symbol asset /\
    (flooredAsset asset -> flooredAsset moved).
Proof.
  destruct (generateCandle_result asset s) as (moved & candle & w' & Hrun & Hsym & Hfl).
  exists moved, candle, w'. split; [|split; assumption].
  unfold generateCandleAt. unfold mbind at 1. unfold M_bind. rewrite Hrun.
  reflexivity.
Qed.

Lemma preserves_calculateIndicators (P : Sys -> Prop) sqrt symbol :
  (forall s f, P s ->
     P (mkSys (withDataEngine (withIndicators f (dataEngine (engine s))) (engine s))
              (world s))) ->
  preserves P (calculateIndicators sqrt symbol).
Proof.
  intros HP. unfold calculateIndicators.
  apply preserves_bind; [apply preserves_getEngine|]. intros e.
  apply preserves_bind; [apply preserves_defined|]. intros history.
  apply preserves_if; [apply preserves_mret|].
  apply preserves_bind; [apply preserves_defined|]. intros rsi.
  apply preserves_bind; [apply preserves_defined|]. intros ma9.
  apply preserves_bind; [apply preserves_defined|]. intros ma21.
  apply preserves_bind; [apply preserves_defined|]. intros currentVolume.
  intros s Hs. apply HP, Hs.
Qed.

Lemma feedSound_indicators s f :
  feedSound s ->
  feedSound (mkSys (withDataEngine (withIndicators f (dataEngine (engine s))) (engine s))
                   (world s)).
Proof. intros H. exact H. Qed.

Lemma capped_push (history : list Candle.t) candle :
  (length history <= 100)%nat ->
  (length (if (100 <? length (history ++ [candle]))%nat
           then drop 1 (history ++ [candle]) else history ++ [candle]) <= 100)%nat.
Proof.
  intros H. destruct (100 <? length (history ++ [candle]))%nat eqn:E.
  - rewrite length_drop, length_app. cbn [length]. lia.
  - apply Nat.ltb_ge in E. exact E.
Qed.

Lemma feedSound_updatePrice sqrt index asset s :
  flooredAsset asset -> feedSound s ->
  feedSound (snd (updatePrice sqrt index asset s)).
Proof.
  intros Hfl [Ha Hh]. unfold updatePrice.
  destruct (generateCandleAt_run index asset s)
    as (moved & candle & w' & Hrun & Hsym & Hmoved).
  rewrite (bind_returned _ _ _ _ _ Hrun). rewrite bind_getEngine.
  cbn [engine dataEngine withDataEngine withAssets priceHistory].
  set (s1 := mkSys _ w').
  assert (Hs1 : feedSound s1).
  { split; [|exact Hh]. cbn. apply Forall_insert; [exact Ha | apply Hmoved, Hfl]. }
  destruct (priceHistory (dataEngine (engine s)) !! Asset.symbol asset)
    as [history|] eqn:Hl; [|exact Hs1].
  cbn [defined]. rewrite bind_mret.
  apply preserves_bind.
  - intros st [Hsa Hsh]. split; [exact Hsa|]. cbn.
    apply map_Forall_insert_2; [|exact Hsh].
    apply capped_push. exact (Hh _ _ Hl).
  - intros _. apply preserves_calculateIndicators. intros st f H. exact H.
  - exact Hs1.
Qed.

Lemma feedSound_forEachAsset sqrt count : forall k s,
  feedSound s -> feedSound (snd (forEachAsset (updatePrice sqrt) k count s)).
Proof.
  induction count as [|count IH]; intros k s Hs; [exact Hs|].
  cbn [forEachAsset]. rewrite bind_getEngine.
  destruct (assets (dataEngine (engine s)) !! k) as [asset|] eqn:Hl; [|apply IH, Hs].
  assert (Hfl : flooredAsset asset).
  { destruct Hs as [Ha _]. eapply Forall_lookup_1; eassumption. }
  pose proof (feedSound_updatePrice sqrt k asset s Hfl Hs) as H1.
  unfold mbind, M_bind.
  destruct (updatePrice sqrt k asset s) as [[[]|ex] s1]; cbn in H1 |- *.
  - apply IH, H1.
  - exact H1.
Qed.

Lemma preserves_forEachAsset (P : Sys -> Prop) callback :
  (forall k asset, preserves P (callback k asset)) ->
  forall count k, preserves P (forEachAsset callback k count).
Proof.
  intros Hcb. induction count as [|count IH]; intros k s Hs; [exact Hs|].
  cbn [forEachAsset]. rewrite bind_getEngine.
  destruct (assets (dataEngine (engine s)) !! k) as [asset|].
  - apply preserves_bind; [apply Hcb | intros _; apply IH | exact Hs].
  - apply IH, Hs.
Qed.

Lemma sameTrading_modifyData s0 f : preserves (sameTrading s0) (modifyData f).
Proof.
  intros s H. unfold sameTrading in *. cbn. rewrite H. reflexivity.
Qed.

Lemma sameTrading_world s0 e w w' :
  sameTrading s0 (mkSys e w) -> sameTrading s0 (mkSys e w').
Proof. intros H. exact H. Qed.

Lemma sameTrading_updatePrice sqrt s0 index asset :
  preserves (sameTrading s0) (updatePrice sqrt index asset).
Proof.
  intros s Hs. unfold updatePrice.
  destruct (generateCandleAt_run index asset s) as (moved & candle & w' & Hrun & _).
  rewrite (bind_returned _ _ _ _ _ Hrun).
  apply preserves_bind; [apply preserves_getEngine | intros e |].
  - apply preserves_bind; [apply preserves_defined|]. intros history.
    apply preserves_bind; [apply sameTrading_modifyData|]. intros _.
    apply preserves_calculateIndicators.
    intros st f H. unfold sameTrading in *. cbn. rewrite H. reflexivity.
  - unfold sameTrading in *. cbn. rewrite Hs. reflexivity.
Qed.

Lemma flooredAsset_positive a : flooredAsset a -> positivePrice a.
Proof.
  unfold flooredAsset, positivePrice.
  destruct (Asset.price a), (Asset.basePrice a); try tauto. intros [H1 H2]. lra.
Qed.

(** The feed keeps the floor and the window, however it ends: after
    [updatePrices()] every instrument is still priced at 70% or more of
    its positive base price (so every price is positive), no history holds
    more than 100 candles, and nothing of the engine but its data engine
    has changed. *)
Theorem feed_keeps_floor_and_window (sqrt : num -> num) (s : Sys) :
  feedSound s ->
  feedSound (after (updatePrices sqrt) s) /\
  Forall positivePrice (assets (dataEngine (engine (after (updatePrices sqrt) s)))) /\
  sameTrading s (after (updatePrices sqrt) s).
Proof.
  intros Hs.
  assert (H1 : feedSound (after (updatePrices sqrt) s)).
  { unfold after, updatePrices. rewrite bind_getEngine.
    apply feedSound_forEachAsset, Hs. }
  split; [exact H1|]. split.
  - destruct H1 as [Ha _]. eapply Forall_impl; [exact Ha|].
    intros a. apply flooredAsset_positive.
  - unfold after, updatePrices. rewrite bind_getEngine.
    apply (preserves_forEachAsset (sameTrading s) (updatePrice sqrt)
             (sameTrading_updatePrice sqrt s)).
    unfold sameTrading. destruct s as [[] w]. reflexivity.
Qed.

Lemma feed_keeps_floor_and_window_witness :
  feedSound sampleSys /\ feedSound (after (updatePrices (fun x => x)) sampleSys).
Proof.
  assert (H : feedSound sampleSys).
  { split.
    - repeat constructor; vm_compute; discriminate.
    - intros symbol history Hl.
      change (list_to_map (M := gmap string (list Candle.t))
                [("BTC", []); ("ETH", []); ("SOL", [])] !! symbol = Some history) in Hl.
      apply elem_of_list_to_map_2 in Hl.
      repeat (apply elem_of_cons in Hl; destruct Hl as [Hl|Hl];
              [injection Hl as _ ->; cbn; lia|]).
      apply elem_of_nil in Hl. contradiction. }
  split; [exact H|].
  apply (proj1 (feed_keeps_floor_and_window (fun x => x) sampleSys H)).
Defined.

(** *** The constructor of the data engine *)

Lemma rsi_loop_defined (history : list Candle.t) m : forall a acc,
  (a + m < length history)%nat ->
  is_Some (fold_left (rsiStep history) (seq (S a) m) (Some acc)).
Proof.
  induction m as [|m IH]; intros a acc Hlen; [cbn; eauto|].
  destruct (lookup_lt_is_Some_2 history a ltac:(lia)) as [prev Hprev].
  destruct (lookup_lt_is_Some_2 history (S a) ltac:(lia)) as [cur Hcur].
  cbn [seq fold_left]. unfold rsiStep at 2. destruct acc as [gains losses].
  cbn [mbind option_bind]. rewrite Hcur. cbn [mbind option_bind]. rewrite Hprev.
  cbn [mbind option_bind].
  destruct (gt _ (Fin 0)); apply IH; lia.
Qed.

(** [calculateRSI] never reads outside the history. *)
Lemma calculateRSI_defined (history : list Candle.t) (period : nat) :
  is_Some (calculateRSI history period).
Proof.
  unfold calculateRSI.
  destruct (length history <? period + 1)%nat eqn:Hshort; [eauto|].
  apply Nat.ltb_ge in Hshort.
  replace (length history - period)%nat with (S (length history - period - 1)) by lia.
  destruct (rsi_loop_defined history period (length history - period - 1)
              (Fin 0, Fin 0) ltac:(lia)) as [[gains losses] Hf].
  rewrite Hf. cbn [mbind option_bind].
  destruct (strictEq _ (Fin 0)); eauto.
Qed.

Lemma calculateMA_defined (history : list Candle.t) (period : nat) :
  history <> [] -> is_Some (calculateMA history period).
Proof.
  intros Hne. unfold calculateMA.
  destruct (length history <? period)%nat; [|eauto].
  destruct (last history) as [c|] eqn:Hl; [cbn; eauto|].
  apply last_None in Hl. contradiction.
Qed.

Lemma calculateIndicators_run sqrt symbol s history :
  priceHistory (dataEngine (engine s)) !! symbol = Some history ->
  (21 <= length history)%nat ->
  exists ind,
    calculateIndicators sqrt symbol s
    = (Returned tt,
       mkSys (withDataEngine
                (withIndicators (<[symbol := ind]> (indicators (dataEngine (engine s))))
                                (dataEngine (engine s)))
                (engine s))
             (world s)).
Proof.
  intros Hl Hlen. unfold calculateIndicators. rewrite bind_getEngine, Hl.
  cbn [defined]. rewrite bind_mret.
  replace (length history <? 21)%nat with false by (symmetry; apply Nat.ltb_ge; exact Hlen).
  assert (Hne : history <> []) by (intros ->; cbn in Hlen; lia).
  destruct (calculateRSI_defined history 14) as [rsi ->].
  destruct (calculateMA_defined history 9 Hne) as [ma9 ->].
  destruct (calculateMA_defined history 21 Hne) as [ma21 ->].
  destruct (last history) as [c|] eqn:Hlast; [|apply last_None in Hlast; contradiction].
  cbn [defined fmap option_fmap option_map]. rewrite !bind_mret.
  eexists. reflexivity.
Qed.

Lemma pushCandles_run index symbol n : forall s asset history,
  assets (dataEngine (engine s)) !! index = Some asset ->
  priceHistory (dataEngine (engine s)) !! symbol = Some history ->
  exists s' asset' candles,
    pushCandles index symbol n s = (Returned tt, s') /\
    assets (dataEngine (engine s'))
      = <[index := asset']> (assets (dataEngine (engine s))) /\
    Asset.symbol asset' = Asset.symbol asset /\
    priceHistory (dataEngine (engine s'))
      = <[symbol := history ++ candles]> (priceHistory (dataEngine (engine s))) /\
    length candles = n /\
    indicators (dataEngine (engine s')) = indicators (dataEngine (engine s)).
Proof.
  induction n as [|n IH]; intros s asset history Ha Hh.
  - exists s, asset, []. rewrite app_nil_r.
    repeat split; [symmetry; apply list_insert_id, Ha | symmetry; apply insert_id, Hh].
  - cbn [pushCandles]. rewrite bind_getEngine, Hh. cbn [defined]. rewrite bind_mret.
    rewrite Ha. cbn [defined]. rewrite bind_mret.
    destruct (generateCandleAt_run index asset s)
      as (moved & candle & w' & Hrun & Hsym & _).
    rewrite (bind_returned _ _ _ _ _ Hrun). rewrite bind_getEngine.
    cbn [engine dataEngine withDataEngine withAssets priceHistory].
    rewrite Hh. cbn [defined]. rewrite bind_mret.
    unfold modifyData. rewrite bind_modifyEngine.
    cbn [engine world dataEngine withDataEngine withAssets withPriceHistory
         priceHistory assets indicators].
    set (s1 := mkSys _ w').
    assert (Hlt : (index < length (assets (dataEngine (engine s))))%nat)
      by (eapply lookup_lt_Some; exact Ha).
    destruct (IH s1 moved (history ++ [candle])) as (s' & asset' & candles & Hrun' & Has & Hsym' & Hhs & Hlen & Hind).
    { subst s1. cbn. apply list_lookup_insert_eq. exact Hlt. }
    { subst s1. cbn. apply lookup_insert_eq. }
    exists s', asset', (candle :: candles).
    split; [exact Hrun'|]. subst s1. cbn in Has, Hhs, Hind.
    split; [rewrite Has; apply list_insert_insert_eq|].
    split; [congruence|].
    split; [rewrite Hhs, insert_insert_eq, <- app_assoc; reflexivity|].
    split; [cbn; lia | exact Hind].
Qed.

Lemma initializeHistory_run sqrt index asset s :
  assets (dataEngine (engine s)) !! index = Some asset ->
  exists s' asset' candles ind,
    initializeHistory sqrt index asset s = (Returned tt, s') /\
    assets (dataEngine (engine s'))
      = <[index := asset']> (assets (dataEngine (engine s))) /\
    Asset.symbol asset' = Asset.symbol asset /\
    priceHistory (dataEngine (engine s'))
      = <[Asset.symbol asset := candles]> (priceHistory (dataEngine (engine s))) /\
    length candles = 100%nat /\
    indicators (dataEngine (engine s'))
      = <[Asset.symbol asset := ind]> (indicators (dataEngine (engine s))).
Proof.
  intros Ha. unfold initializeHistory, modifyData. rewrite bind_modifyEngine.
  set (s1 := mkSys _ (world s)).
  destruct (pushCandles_run index (Asset.symbol asset) 100 s1 asset [])
    as (s2 & asset' & candles & Hrun & Has & Hsym & Hhs & Hlen & Hind).
  { subst s1. cbn. exact Ha. }
  { subst s1. cbn. apply lookup_insert_eq. }
  rewrite (bind_returned _ _ _ _ _ Hrun).
  destruct (calculateIndicators_run sqrt (Asset.symbol asset) s2 candles) as [ind Hcalc].
  { rewrite Hhs. apply lookup_insert_eq. }
  { lia. }
  rewrite Hcalc. subst s1. cbn in Has, Hhs, Hind.
  eexists _, asset', candles, ind. split; [reflexivity|]. cbn.
  split; [exact Has|]. split; [exact Hsym|].
  split; [rewrite Hhs, insert_insert_eq; reflexivity|].
  split; [exact Hlen | rewrite Hind; reflexivity].
Qed.

Lemma initialised_after k m asset asset' candles ind s s' :
  assets (dataEngine (engine s)) !! k = Some asset ->
  assets (dataEngine (engine s'))
    = <[k := asset']> (assets (dataEngine (engine s))) ->
  Asset.symbol asset' = Asset.symbol asset ->
  priceHistory (dataEngine (engine s'))
    = <[Asset.symbol asset := candles]> (priceHistory (dataEngine (engine s))) ->
  length candles = 100%nat ->
  indicators (dataEngine (engine s'))
    = <[Asset.symbol asset := ind]> (indicators (dataEngine (engine s))) ->
  initialised m s ->
  (forall j a,
     (j < m \/ j = k)%nat -> assets (dataEngine (engine s')) !! j = Some a ->
     exists history,
       priceHistory (dataEngine (engine s')) !! Asset.symbol a = Some history /\
       length history = 100%nat /\
       is_Some (indicators (dataEngine (engine s')) !! Asset.symbol a)) /\
  map Asset.symbol (assets (dataEngine (engine s')))
    = map Asset.symbol (assets (dataEngine (engine s))).
Proof.
  intros Ha Has Hsym Hhs Hlen Hind Hinit.
  assert (Hlt : (k < length (assets (dataEngine (engine s))))%nat)
    by (eapply lookup_lt_Some; exact Ha).
  split.
  - intros j a Hj Hl. rewrite Has in Hl. rewrite Hhs, Hind.
    destruct (decide (Asset.symbol a = Asset.symbol asset)) as [->|Hne].
    { exists candles. rewrite !lookup_insert_eq. eauto. }
    rewrite !lookup_insert_ne by congruence.
    destruct (decide (j = k)) as [->|Hjk].
    { rewrite list_lookup_insert_eq in Hl by exact Hlt. congruence. }
    rewrite list_lookup_insert_ne in Hl by congruence.
    apply (Hinit j a); [lia | exact Hl].
  - rewrite Has. rewrite list_fmap_insert, Hsym. apply list_insert_id.
    rewrite list_lookup_fmap, Ha. reflexivity.
Qed.

Lemma same_symbols_length s s' :
  map Asset.symbol (assets (dataEngine (engine s')))
    = map Asset.symbol (assets (dataEngine (engine s))) ->
  length (assets (dataEngine (engine s'))) = length (assets (dataEngine (engine s))).
Proof. intros H. apply (f_equal length) in H. rewrite !length_map in H. exact H. Qed.

Lemma initialised_step sqrt k asset s :
  assets (dataEngine (engine s)) !! k = Some asset ->
  initialised k s ->
  exists s',
    initializeHistory sqrt k asset s = (Returned tt, s') /\
    initialised (S k) s' /\
    map Asset.symbol (assets (dataEngine (engine s')))
      = map Asset.symbol (assets (dataEngine (engine s))).
Proof.
  intros Ha Hinit.
  destruct (initializeHistory_run sqrt k asset s Ha)
    as (s' & asset' & candles & ind & Hrun & Has & Hsym & Hhs & Hlen & Hind).
  destruct (initialised_after k k asset asset' candles ind s s'
              Ha Has Hsym Hhs Hlen Hind Hinit) as [Hall Hsame].
  exists s'. split; [exact Hrun|]. split; [|exact Hsame].
  intros j a Hj. apply Hall. lia.
Qed.

Lemma initialised_forEachAsset sqrt count : forall k s,
  (k + count = length (assets (dataEngine (engine s))))%nat ->
  initialised k s ->
  exists s',
    forEachAsset (initializeHistory sqrt) k count s = (Returned tt, s') /\
    initialised (length (assets (dataEngine (engine s')))) s' /\
    map Asset.symbol (assets (dataEngine (engine s')))
      = map Asset.symbol (assets (dataEngine (engine s))).
Proof.
  induction count as [|count IH]; intros k s Hlen Hinit.
  - exists s. split; [reflexivity|]. rewrite Nat.add_0_r in Hlen. rewrite <- Hlen.
    split; [exact Hinit | reflexivity].
  - cbn [forEachAsset]. rewrite bind_getEngine.
    destruct (lookup_lt_is_Some_2 (assets (dataEngine (engine s))) k ltac:(lia))
      as [asset Ha].
    rewrite Ha.
    destruct (initialised_step sqrt k asset s Ha Hinit) as (s1 & Hrun & Hinit1 & Hsym1).
    rewrite (bind_returned _ _ _ _ _ Hrun).
    pose proof (same_symbols_length _ _ Hsym1) as Hlen1.
    destruct (IH (S k) s1 ltac:(lia) Hinit1) as (s' & Hrun' & Hinit' & Hsym').
    exists s'. split; [exact Hrun'|]. split; [exact Hinit' | congruence].
Qed.

Lemma initializePriceHistory_run sqrt s :
  exists s',
    initializePriceHistory sqrt s = (Returned tt, s') /\
    initialised (length (assets (dataEngine (engine s')))) s' /\
    map Asset.symbol (assets (dataEngine (engine s')))
      = map Asset.symbol (assets (dataEngine (engine s))).
Proof.
  unfold initializePriceHistory. rewrite bind_getEngine.
  apply (initialised_forEachAsset sqrt _ 0 s); [reflexivity|].
  intros j a Hj. lia.
Qed.

(** On any data engine the constructor's [initializePriceHistory]
    completes without a [TypeError]; afterwards every instrument has a
    history of exactly 100 candles and a set of indicators, and the
    instruments are the same symbols in the same order. *)
Theorem price_history_initialises (sqrt : num -> num) (s : Sys) :
  exists s',
    initializePriceHistory sqrt s = (Returned tt, s') /\
    map Asset.symbol (assets (dataEngine (engine s')))
      = map Asset.symbol (assets (dataEngine (engine s))) /\
    forall a, a ∈ assets (dataEngine (engine s')) ->
      exists history,
        priceHistory (dataEngine (engine s')) !! Asset.symbol a = Some history /\
        length history = 100%nat /\
        is_Some (indicators (dataEngine (engine s')) !! Asset.symbol a).
Proof.
  destruct (initializePriceHistory_run sqrt s) as (s' & Hrun & Hinit & Hsym).
  exists s'. split; [exact Hrun|]. split; [exact Hsym|].
  intros a Hin. apply list_elem_of_lookup in Hin as [j Hj].
  apply (Hinit j a); [eapply lookup_lt_Some; exact Hj | exact Hj].
Qed.

(** *** A tick of the feed on full histories *)

Lemma updatePrice_run sqrt index asset s history :
  assets (dataEngine (engine s)) !! index = Some asset ->
  priceHistory (dataEngine (engine s)) !! Asset.symbol asset = Some history ->
  length history = 100%nat ->
  exists s' asset' candles ind,
    updatePrice sqrt index asset s = (Returned tt, s') /\
    assets (dataEngine (engine s'))
      = <[index := asset']> (assets (dataEngine (engine s))) /\
    Asset.symbol asset' = Asset.symbol asset /\
    priceHistory (dataEngine (engine s'))
      = <[Asset.symbol asset := candles]> (priceHistory (dataEngine (engine s))) /\
    length candles = 100%nat /\
    indicators (dataEngine (engine s'))
      = <[Asset.symbol asset := ind]> (indicators (dataEngine (engine s))).
Proof.
  intros Ha Hh Hlen. unfold updatePrice.
  destruct (generateCandleAt_run index asset s)
    as (moved & candle & w' & Hrun & Hsym & _).
  rewrite (bind_returned _ _ _ _ _ Hrun). rewrite bind_getEngine.
  cbn [engine dataEngine withDataEngine withAssets priceHistory].
  rewrite Hh. cbn [defined]. rewrite bind_mret. cbv zeta.
  assert (Hfull : length (history ++ [candle]) = 101%nat)
    by (rewrite length_app, Hlen; reflexivity).
  rewrite Hfull. change (100 <? 101)%nat with true. cbv iota.
  unfold modifyData. rewrite bind_modifyEngine.
  cbn [engine world dataEngine withDataEngine withAssets withPriceHistory
       priceHistory assets indicators].
  set (s2 := mkSys _ w').
  assert (Hkept : length (drop 1 (history ++ [candle])) = 100%nat)
    by (rewrite length_drop, Hfull; reflexivity).
  destruct (calculateIndicators_run sqrt (Asset.symbol asset) s2
              (drop 1 (history ++ [candle]))) as [ind Hcalc].
  { subst s2. cbn. apply lookup_insert_eq. }
  { lia. }
  rewrite Hcalc. subst s2.
  eexists _, moved, (drop 1 (history ++ [candle])), ind.
  split; [reflexivity|]. cbn.
  split; [reflexivity|]. split; [exact Hsym|].
  split; [reflexivity|]. split; [exact Hkept | reflexivity].
Qed.

Lemma full_forEachAsset sqrt count : forall k s,
  (k + count = length (assets (dataEngine (engine s))))%nat ->
  initialised (length (assets (dataEngine (engine s)))) s ->
  exists s',
    forEachAsset (updatePrice sqrt) k count s = (Returned tt, s') /\
    initialised (length (assets (dataEngine (engine s')))) s' /\
    map Asset.symbol (assets (dataEngine (engine s')))
      = map Asset.symbol (assets (dataEngine (engine s))).
Proof.
  induction count as [|count IH]; intros k s Hlen Hinit.
  - exists s. split; [reflexivity|]. split; [exact Hinit | reflexivity].
  - cbn [forEachAsset]. rewrite bind_getEngine.
    destruct (lookup_lt_is_Some_2 (assets (dataEngine (engine s))) k ltac:(lia))
      as [asset Ha].
    rewrite Ha.
    destruct (Hinit k asset ltac:(lia) Ha) as (history & Hh & Hfull & _).
    destruct (updatePrice_run sqrt k asset s history Ha Hh Hfull)
      as (s1 & asset' & candles & ind & Hrun & Has & Hsym & Hhs & Hlen1 & Hind).
    destruct (initialised_after k _ asset asset' candles ind s s1
                Ha Has Hsym Hhs Hlen1 Hind Hinit) as [Hall Hsame].
    rewrite (bind_returned _ _ _ _ _ Hrun).
    pose proof (same_symbols_length _ _ Hsame) as Hn.
    destruct (IH (S k) s1 ltac:(lia)) as (s' & Hrun' & Hinit' & Hsym').
    { intros j a Hj. apply Hall. left. lia. }
    exists s'. split; [exact Hrun'|]. split; [exact Hinit' | congruence].
Qed.

(** When every instrument has a history of exactly 100 candles, a tick
    of the feed completes without a [TypeError] and leaves every history at
    exactly 100 candles (one pushed, one shifted out), so that
    [getPriceHistory(symbol, count)] returns exactly [count] candles for
    any count from 1 to 100. *)
Theorem tick_keeps_histories_full (sqrt : num -> num) (s : Sys) :
  initialised (length (assets (dataEngine (engine s)))) s ->
  exists s',
    updatePrices sqrt s = (Returned tt, s') /\
    initialised (length (assets (dataEngine (engine s')))) s' /\
    forall a count,
      a ∈ assets (dataEngine (engine s')) -> (1 <= count <= 100)%nat ->
      exists candles,
        getPriceHistory (Asset.symbol a) count (dataEngine (engine s')) = Some candles /\
        length candles = count.
Proof.
  intros Hinit. unfold updatePrices. rewrite bind_getEngine.
  destruct (full_forEachAsset sqrt _ 0 s eq_refl Hinit) as (s' & Hrun & Hinit' & _).
  exists s'. split; [exact Hrun|]. split; [exact Hinit'|].
  intros a count Hin Hcount. apply list_elem_of_lookup in Hin as [j Hj].
  destruct (Hinit' j a) as (history & Hh & Hlen & _);
    [eapply lookup_lt_Some; exact Hj | exact Hj |].
  exists (sliceLast count history). unfold getPriceHistory. rewrite Hh.
  split; [reflexivity|]. unfold sliceLast. rewrite length_drop. lia.
Qed.

Lemma tick_keeps_histories_full_witness :
  initialised
    (length (assets (dataEngine
       (engine (after (initializePriceHistory (fun x => x)) sampleSys)))))
    (after (initializePriceHistory (fun x => x)) sampleSys) /\
  exists s',
    updatePrices (fun x => x) (after (initializePriceHistory (fun x => x)) sampleSys)
      = (Returned tt, s') /\
    initialised (length (assets (dataEngine (engine s')))) s'.
Proof.
  destruct (initializePriceHistory_run (fun x => x) sampleSys) as (s0 & Hrun & Hinit & _).
  unfold after. rewrite Hrun. cbn [snd]. split; [exact Hinit|].
  destruct (tick_keeps_histories_full (fun x => x) s0 Hinit) as (s' & Htick & Hfull & _).
  exists s'. split; assumption.
Defined.

(** ** Extra: the statistics *)

Lemma sum_of_gains (l : list ClosedTrade.t) : forall acc,
  Forall (fun t => gt (pnlOf t) (Fin 0) = true) l ->
  exists r,
    fold_left (fun sum t => add sum (pnlOf t)) l (Fin acc) = Fin r /\
    acc <= r /\ (l <> [] -> acc < r).
Proof.
  induction l as [|t l IH]; intros acc Hl.
  - exists acc. split; [reflexivity|]. split; [lra | congruence].
  - inversion Hl as [|? ? Ht Hl']; subst.
    destruct (pnlOf t) as [q|] eqn:Hq; [|discriminate].
    apply lt_Fin in Ht.
    destruct (IH (acc + q) Hl') as (r & Hr & Hle & _).
    exists r. cbn [fold_left]. rewrite Hq. cbn [add].
    split; [exact Hr|]. split; [lra | intros _; lra].
Qed.

Lemma sum_of_losses (l : list ClosedTrade.t) : forall acc,
  Forall (fun t => lt (pnlOf t) (Fin 0) = true) l ->
  exists r,
    fold_left (fun sum t => add sum (pnlOf t)) l (Fin acc) = Fin r /\
    r <= acc /\ (l <> [] -> r < acc).
Proof.
  induction l as [|t l IH]; intros acc Hl.
  - exists acc. split; [reflexivity|]. split; [lra | congruence].
  - inversion Hl as [|? ? Ht Hl']; subst.
    destruct (pnlOf t) as [q|] eqn:Hq; [|discriminate].
    apply lt_Fin in Ht.
    destruct (IH (acc + q) Hl') as (r & Hr & Hle & _).
    exists r. cbn [fold_left]. rewrite Hq. cbn [add].
    split; [exact Hr|]. split; [lra | intros _; lra].
Qed.

Lemma filter_holds {A} (f : A -> bool) (l : list A) :
  Forall (fun a => f a = true) (List.filter f l).
Proof.
  apply List.Forall_forall. intros a Hin. apply List.filter_In in Hin. tauto.
Qed.

Lemma totalWins_value trades :
  exists g, totalWins trades = Fin g /\ 0 <= g /\ (wins trades <> [] -> 0 < g).
Proof. apply (sum_of_gains (wins trades) 0). apply filter_holds. Qed.

Lemma totalLosses_value trades :
  exists d, totalLosses trades = Fin d /\ 0 <= d /\ (losses trades <> [] -> 0 < d).
Proof.
  destruct (sum_of_losses (losses trades) 0 (filter_holds _ _)) as (r & Hr & Hle & Hlt).
  exists (Qabs r). unfold totalLosses, sumPnl. rewrite Hr. split; [reflexivity|].
  split; [apply Qabs_nonneg|].
  intros Hne. specialize (Hlt Hne). rewrite Qabs_neg by lra. lra.
Qed.

Lemma ratio_of_counts (a n : nat) :
  (a <= n)%nat -> (0 < n)%nat ->
  exists w, mul (div (ofNat a) (ofNat n)) (Fin 100) = Fin w /\ 0 <= w <= 100.
Proof.
  intros Ha Hn. unfold ofNat, div.
  assert (Hy : 0 < inject_Z (Z.of_nat n)) by (change 0 with (inject_Z 0); rewrite <- Zlt_Qlt; lia).
  assert (Hx : 0 <= inject_Z (Z.of_nat a)) by (change 0 with (inject_Z 0); rewrite <- Zle_Qle; lia).
  assert (Hxy : inject_Z (Z.of_nat a) <= inject_Z (Z.of_nat n))
    by (rewrite <- Zle_Qle; lia).
  replace (Qeq_bool (inject_Z (Z.of_nat n)) 0) with false
    by (symmetry; apply Qeqb_neq; intros H; rewrite H in Hy; lra).
  eexists. split; [reflexivity|].
  assert (H0 : 0 <= inject_Z (Z.of_nat a) / inject_Z (Z.of_nat n))
    by (apply Qle_shift_div_l; [exact Hy | lra]).
  assert (H1 : inject_Z (Z.of_nat a) / inject_Z (Z.of_nat n) <= 1)
    by (apply Qle_shift_div_r; [exact Hy | lra]).
  revert H0 H1. generalize (inject_Z (Z.of_nat a) / inject_Z (Z.of_nat n)).
  intros d H0 H1. lra.
Qed.



(** Once a trade is closed, the win rate that [getStatistics] formats is
    a number between 0 and 100 and the profit factor is a number that is not
    negative: neither is ever [NaN], whatever the closed trades hold, a
    [finalPnl] of [undefined] included. *)
Theorem statistics_rates_are_in_range (toFixed : nat -> num -> string)
    (e : TradingEngine) :
  closedTrades e <> [] ->
  exists w p,
    Statistics.winRate (getStatistics toFixed e) = Text (toFixed 1%nat (Fin w)) /\
    0 <= w <= 100 /\
    Statistics.profitFactor (getStatistics toFixed e) = Text (toFixed 2%nat (Fin p)) /\
    0 <= p.
Proof.
  intros Hne. unfold getStatistics. cbv zeta.
  destruct (closedTrades e) as [|t trades] eqn:Htrades; [contradiction|].
  cbn [length Nat.eqb Statistics.winRate Statistics.profitFactor].
  destruct (ratio_of_counts (length (wins (t :: trades))) (length (t :: trades)))
    as (w & Hw & Hrange).
  { apply List.filter_length_le. }
  { cbn; lia. }
  destruct (totalWins_value (t :: trades)) as (g & Hg & Hg0 & _).
  destruct (totalLosses_value (t :: trades)) as (d & Hd & Hd0 & _).
  assert (Hp : exists p, profitFactor (t :: trades) = Fin p /\ 0 <= p).
  { unfold profitFactor. rewrite Hg, Hd. unfold gt.
    destruct (lt (Fin 0) (Fin d)) eqn:Hpos.
    - apply lt_Fin in Hpos. unfold div.
      replace (Qeq_bool d 0) with false
        by (symmetry; apply Qeqb_neq; intros H; rewrite H in Hpos; lra).
      eexists. split; [reflexivity|]. apply Qle_shift_div_l; [exact Hpos | lra].
    - destruct (lt (Fin 0) (Fin g)); eexists; (split; [reflexivity | lra]). }
  destruct Hp as (p & Hp & Hp0).
  exists w, p. change (winRate (t :: trades) = Fin w) in Hw. rewrite Hw, Hp.
  repeat split; tauto || assumption.
Qed.

Lemma statistics_rates_are_in_range_witness :
  closedTrades (withClosedTrades [lostTrade] sampleEngine) <> [] /\
  exists w p,
    Statistics.winRate
      (getStatistics (fun _ _ => "0.0") (withClosedTrades [lostTrade] sampleEngine))
      = Text "0.0" /\
    0 <= w <= 100 /\ 0 <= p.
Proof.
  assert (H : closedTrades (withClosedTrades [lostTrade] sampleEngine) <> [])
    by discriminate.
  split; [exact H|].
  destruct (statistics_rates_are_in_range (fun _ _ => "0.0") _ H)
    as (w & p & Hw & Hrange & _ & Hp).
  exists w, p. split; [exact Hw|]. split; assumption.
Defined.


